(** * WritePRD: requirement / PRD reconciliation (metagpt/actions/write_prd.py)

    A shallow embedding of [WritePRD] and of the collaborators it calls.
    The action is a sequence of awaited calls that read and write process-wide
    state ([CONFIG], the git repository's file repositories) and talk to
    external services (the LLM, the mermaid renderer, the PDF exporter).  It is
    modelled in a state / exception / event-log monad: a computation takes a
    [World], and returns a result or a raised exception, the world as it is
    at that point (Python keeps every mutation made before a raise), and the
    list of external interactions it performed, oldest first.

    What is not in the sources is a parameter of the model ([Env]): the
    constants of metagpt.const, the LLM calls of [Action], the serialisers, the
    renderer and the exporter.  The file repositories are finite maps whose
    operations do not fail; they hold what the action's own repository calls
    read and write, while what the renderer and the exporter write is known
    by their calls in the log only.  [run] is called as the role calls it, with no
    extra positional or keyword arguments, so that the prompt format is the
    default one everywhere. *)

From stdpp Require Import base option list strings gmap.
From Stdlib Require Import Ascii ZArith.

(** ** Python values used by the action *)

(** Exceptions the modelled code can raise. *)
Inductive Exn : Type :=
  | AttributeError   (* attribute access on None *)
  | TypeError        (* Path(None), rename_root(None) *)
  | ValueError       (* unknown prompt format, with_suffix on an empty name *)
  | KeyError
  | OSError          (* file system failures *)
  | LLMError         (* the LLM call itself failed *)
  | ParseError       (* the LLM answer could not be parsed into the schema *)
  | RenderError.     (* mermaid rendering / export failed *)

Inductive Res (A : Type) : Type :=
  | Ok (a : A)
  | Raise (e : Exn).
Arguments Ok {A} a.
Arguments Raise {A} e.

(** Python truthiness of a [str] and of an [Optional[str]]. *)
Definition str_truthy (s : string) : bool := negb (String.eqb s "").

Definition truthy (o : option string) : bool :=
  match o with
  | Some s => str_truthy s
  | None => false
  end.

(** [needle in hay] on Python strings. *)
Fixpoint str_in (needle hay : string) : bool :=
  String.prefix needle hay ||
  match hay with
  | EmptyString => false
  | String _ rest => str_in needle rest
  end.

(** Values produced by [json.loads] (numbers are kept as integers). *)
#[local] Unset Elimination Schemes.
Inductive JValue : Type :=
  | JNull
  | JBool (b : bool)
  | JNum (n : Z)
  | JStr (s : string)
  | JArr (items : list JValue)
  | JObj (members : list (string * JValue)).
#[local] Set Elimination Schemes.

Definition jtruthy (v : JValue) : bool :=
  match v with
  | JNull => false
  | JBool b => b
  | JNum n => negb (Z.eqb n 0)
  | JStr s => str_truthy s
  | JArr items => match items with [] => false | _ => true end
  | JObj members => match members with [] => false | _ => true end
  end.

(** [m.get(key)]: [None] when the key is absent; an [AttributeError] when the
    decoded value is not a dict. *)
Fixpoint assoc_get (key : string) (members : list (string * JValue)) : option JValue :=
  match members with
  | [] => None
  | (k, v) :: rest => if String.eqb k key then Some v else assoc_get key rest
  end.

Definition dict_get (m : JValue) (key : string) : Res (option JValue) :=
  match m with
  | JObj members => Ok (assoc_get key members)
  | _ => Raise AttributeError
  end.

(** ** pathlib (POSIX flavour), as far as the action uses it *)

Module Pathlib.

Record PurePath : Type := mkPath { root : string; parts : list string }.

Definition slash : ascii := "/"%char.
Definition dot : ascii := "."%char.

(** Split on ["/"], keeping empty components. *)
Fixpoint split_slash (s : string) : list string :=
  match s with
  | EmptyString => [EmptyString]
  | String c rest =>
      if Ascii.eqb c slash then EmptyString :: split_slash rest
      else match split_slash rest with
           | [] => [String c EmptyString]
           | comp :: comps => String c comp :: comps
           end
  end.

Definition keep_component (comp : string) : bool :=
  negb (String.eqb comp "") && negb (String.eqb comp ".").

(** Two leading slashes (and only two) are kept as the root ["//"]. *)
Definition root_of (s : string) : string :=
  match s with
  | String c1 (String c2 (String c3 _)) =>
      if Ascii.eqb c1 slash then
        if Ascii.eqb c2 slash then
          if Ascii.eqb c3 slash then "/" else "//"
        else "/"
      else ""
  | String c1 (String c2 EmptyString) =>
      if Ascii.eqb c1 slash then if Ascii.eqb c2 slash then "//" else "/" else ""
  | String c1 EmptyString => if Ascii.eqb c1 slash then "/" else ""
  | EmptyString => ""
  end.

(** [Path(s)] *)
Definition Path (s : string) : PurePath :=
  mkPath (root_of s) (List.filter keep_component (split_slash s)).

(** [p.name]: the final component, [""] when there is none. *)
Definition name (p : PurePath) : string := List.last (parts p) "".

(** [a / b] *)
Definition joinpath (a b : PurePath) : PurePath :=
  if str_truthy (root b) then b else mkPath (root a) (parts a ++ parts b).

(** [p.parent] *)
Definition parent (p : PurePath) : PurePath :=
  mkPath (root p) (List.removelast (parts p)).

(** Index of the last ["."] of a name, counted over the reversed name. *)
Fixpoint rfind_dot (rev_name : list ascii) : option nat :=
  match rev_name with
  | [] => None
  | c :: rest => if Ascii.eqb c dot then Some 0%nat else S <$> rfind_dot rest
  end.

(** The name without its suffix: the suffix starts at the last dot when that
    dot is neither the first nor the last character of the name. *)
Definition stem (nm : string) : string :=
  let chars := String.list_ascii_of_string nm in
  match rfind_dot (List.rev chars) with
  | Some from_end =>
      let i := (length chars - 1 - from_end)%nat in
      if (0 <? i)%nat && (i <? length chars - 1)%nat
      then String.string_of_list_ascii (take i chars)
      else nm
  | None => nm
  end.

(** [p.with_suffix("")] *)
Definition with_suffix_empty (p : PurePath) : Res PurePath :=
  if str_truthy (name p)
  then Ok (mkPath (root p) (List.removelast (parts p) ++ [stem (name p)]))
  else Raise ValueError.

Fixpoint join_slash (comps : list string) : string :=
  match comps with
  | [] => ""
  | [c] => c
  | c :: rest => c +:+ "/" +:+ join_slash rest
  end.

(** [str(p)] *)
Definition to_str (p : PurePath) : string :=
  match root p, parts p with
  | EmptyString, [] => "."
  | r, comps => r +:+ join_slash comps
  end.

End Pathlib.

(** ** Schema (metagpt.schema) and the action's outputs *)

Record Document : Type := mkDocument {
  root_path : string;
  filename : string;
  content : string
}.

#[global] Instance Document_eq_dec : EqDecision Document.
Proof. solve_decision. Defined.

(** [os.path.join(root_path, filename)] *)
Definition os_path_join (a b : string) : string :=
  if String.prefix "/" b then b
  else match a with
       | EmptyString => b
       | _ => if String.eqb (String.substring (String.length a - 1) 1 a) "/"
              then a +:+ b else a +:+ "/" +:+ b
       end.

Definition root_relative_path (d : Document) : string :=
  os_path_join (root_path d) (filename d).

Record BugFixContext : Type := mkBugFixContext { bugfix_filename : string }.

Inductive ActionClass : Type := FixBug | WritePRD.

Record Message : Type := mkMessage {
  msg_content : string;
  msg_instruct_content : BugFixContext;
  msg_role : string;
  msg_cause_by : ActionClass;
  msg_sent_from : ActionClass;
  msg_send_to : string
}.

(** The fields of [OUTPUT_MAPPING]: the [instruct_content] of a parsed PRD. *)
Record PRD : Type := mkPRD {
  Language : string;
  Original_Requirements : string;
  Project_Name : string;
  Product_Goals : list string;
  User_Stories : list string;
  Competitive_Analysis : list string;
  Competitive_Quadrant_Chart : string;
  Requirement_Analysis : string;
  Requirement_Pool : list (list string);
  UI_Design_draft : string;
  Anything_UNCLEAR : string
}.

Record ActionOutput : Type := mkActionOutput {
  ao_content : string;
  instruct_content : PRD
}.

(** What [_rename_workspace] receives: an [ActionOutput], or anything else,
    which it treats as raw text. *)
Inductive PrdAnswer : Type :=
  | Structured (ao : ActionOutput)
  | RawText (text : string).

(** What [run] returns: [ActionOutput | Message]. *)
Inductive RunResult : Type :=
  | RMessage (m : Message)
  | RActionOutput (out_content : string) (change_files : gmap string Document).

(** ** Prompts

    A prompt is a fixed template filled in by [str.format]; it is kept as the
    template's name with the arguments substituted into it. *)

Inductive TemplateKey : Type := json | markdown.

Inductive Prompt : Type :=
  | PRD_PROMPT (tpl : TemplateKey) (requirements : list string)
               (search_results : string) (project_name : string)
  | IS_RELATIVE_PROMPT (old_prd requirements : string)
  | MERGE_PROMPT (requirements old_prd project_name : string)
  | IS_BUGFIX_PROMPT (content : string).

(** ** External interactions *)

Inductive LogRecord : Type :=
  | LogIsBugfix (res : string)
  | LogReqRelative (new_requirement_path old_prd_path res : string)
  | LogRewritePrd (fname : string)
  | LogNewPrd (fname : string)
  | LogSearch (text : string).

Inductive Event : Type :=
  | EvRepoGet (repo fname : string)
  | EvRepoGetAll (repo : string)
  | EvRepoSave (repo fname body : string)
  | EvRepoDelete (repo fname : string)
  | EvAsk (p : Prompt)
  | EvAskV1 (p : Prompt) (format : string)
  | EvLog (l : LogRecord)
  | EvNewFilename (fname : string)
  | EvMkdir (dir : Pathlib.PurePath)
  | EvMermaid (chart : JValue) (pathname : Pathlib.PurePath)
  | EvSaveAs (d : Document) (suffix repo : string)
  | EvRenameRoot (new_name : string).

(** The collaborators and constants the module imports.  None of them is part
    of the sources, so the action is parametrised by them.  The LLM is indexed
    by the number of calls made before, so that it may answer the same prompt
    differently at different times; any call may raise. *)
Record Env : Type := mkEnv {
  (* metagpt.const *)
  REQUIREMENT_FILENAME : string;
  BUGFIX_FILENAME : string;
  DOCS_FILE_REPO : string;
  PRDS_FILE_REPO : string;
  COMPETITIVE_ANALYSIS_FILE_REPO : string;
  PRD_PDF_FILE_REPO : string;
  (* CONFIG.prompt_format, read once when the defaults are evaluated *)
  prompt_format : string;
  (* get_template(templates, format): the entry of [templates] for a format *)
  get_template : string -> Res TemplateKey;
  (* Action.profile *)
  profile : string;
  (* Action._aask, Action._aask_v1 *)
  aask : nat -> Prompt -> Res string;
  aask_v1 : nat -> Prompt -> string -> Res ActionOutput;
  (* SearchAndSummarize().result *)
  sas_result : string;
  (* FileRepository.new_filename(), by the number of names handed out before *)
  new_filename : nat -> string;
  (* pydantic .json() of the three models, json.loads, CodeParser.parse_str *)
  prd_json : PRD -> string;
  bugfix_json : BugFixContext -> string;
  documents_json : gmap string Document -> string;
  json_loads : string -> Res JValue;
  parse_str : string -> string -> Res string;
  (* Path.mkdir, mermaid_to_file, FileRepository.save_as *)
  mkdir : Pathlib.PurePath -> Res unit;
  mermaid_to_file : JValue -> Pathlib.PurePath -> Res Z;
  save_as : Document -> string -> string -> Res unit;
  (* GitRepository.rename_root: the working directory once renamed *)
  renamed_root : Pathlib.PurePath -> string -> Pathlib.PurePath
}.

(** ** The world: CONFIG, the git repository and the counters of the services *)

Record World : Type := mkWorld {
  (* the documents of the git repository as the action's own FileRepository
     calls (get, get_all, save, delete) read and write them, by (relative
     path of the repository, file name); what the collaborators save_as and
     mermaid_to_file write is theirs and is not kept here: their calls are in
     the log *)
  files : gmap (string * string) string;
  (* directories known to exist outside the file repositories *)
  dirs : gset string;
  (* CONFIG.git_repo.workdir *)
  workdir : Pathlib.PurePath;
  (* CONFIG.project_name, CONFIG.project_path *)
  project_name : option string;
  project_path : option string;
  llm_calls : nat;
  filenames_issued : nat
}.

Definition set_files (f : gmap (string * string) string) (w : World) : World :=
  mkWorld f (dirs w) (workdir w) (project_name w) (project_path w)
          (llm_calls w) (filenames_issued w).
Definition set_dirs (d : gset string) (w : World) : World :=
  mkWorld (files w) d (workdir w) (project_name w) (project_path w)
          (llm_calls w) (filenames_issued w).
Definition set_workdir (p : Pathlib.PurePath) (w : World) : World :=
  mkWorld (files w) (dirs w) p (project_name w) (project_path w)
          (llm_calls w) (filenames_issued w).
Definition set_project_name (n : option string) (w : World) : World :=
  mkWorld (files w) (dirs w) (workdir w) n (project_path w)
          (llm_calls w) (filenames_issued w).
Definition set_llm_calls (n : nat) (w : World) : World :=
  mkWorld (files w) (dirs w) (workdir w) (project_name w) (project_path w)
          n (filenames_issued w).
Definition set_filenames_issued (n : nat) (w : World) : World :=
  mkWorld (files w) (dirs w) (workdir w) (project_name w) (project_path w)
          (llm_calls w) n.

(** ** The monad *)

Definition M (A : Type) : Type := World -> Res A * World * list Event.

Definition ret {A} (a : A) : M A := fun w => (Ok a, w, []).

Definition raise {A} (e : Exn) : M A := fun w => (Raise e, w, []).

(** An outcome, with the interactions that came before it put in front. *)
Definition prepend {A} (evs : list Event) (o : Res A * World * list Event)
  : Res A * World * list Event :=
  match o with
  | (r, w, evs') => (r, w, evs ++ evs')
  end.

Definition bind {A B} (m : M A) (f : A -> M B) : M B :=
  fun w =>
    match m w with
    | (Ok a, w1, evs1) => prepend evs1 (f a w1)
    | (Raise e, w1, evs1) => (Raise e, w1, evs1)
    end.

Definition lift {A} (r : Res A) : M A := fun w => (r, w, []).

Definition emit (e : Event) : M unit := fun w => (Ok tt, w, [e]).

(** A call to a collaborator, recorded together with what it answered. *)
Definition call {A} (e : Event) (r : Res A) : M A := fun w => (r, w, [e]).

Definition get_world : M World := fun w => (Ok w, w, []).

Definition modify (f : World -> World) : M unit := fun w => (Ok tt, f w, []).

Declare Scope action_scope.
Delimit Scope action_scope with action.
Notation "x <- m ;; k" := (bind m (fun x => k))
  (at level 100, m at next level, right associativity) : action_scope.
Notation "m ;; k" := (bind m (fun _ => k))
  (at level 100, right associativity) : action_scope.
Local Open Scope action_scope.

Definition log (l : LogRecord) : M unit := emit (EvLog l).

(** What the run returned, where it left the world, what it did. *)
Definition result_of {A} (o : Res A * World * list Event) : Res A := o.1.1.
Definition world_of {A} (o : Res A * World * list Event) : World := o.1.2.
Definition events_of {A} (o : Res A * World * list Event) : list Event := o.2.

(** ** FileRepository, over the files of the world

    [get] answers [None] for a missing file; [delete] of a missing file does
    nothing; [get_all] lists the documents of one repository. *)

Definition doc_of_entry (repo : string) (entry : string * string * string) : option Document :=
  if decide (entry.1.1 = repo) then Some (mkDocument repo entry.1.2 entry.2) else None.

Definition docs_in (repo : string) (fs : gmap (string * string) string) : list Document :=
  omap (doc_of_entry repo) (map_to_list fs).

Definition repo_get (repo fname : string) : M (option Document) :=
  fun w => (Ok (mkDocument repo fname <$> files w !! (repo, fname)), w, [EvRepoGet repo fname]).

Definition repo_get_all (repo : string) : M (list Document) :=
  fun w => (Ok (docs_in repo (files w)), w, [EvRepoGetAll repo]).

Definition repo_save (repo fname body : string) : M unit :=
  fun w => (Ok tt, set_files (<[(repo, fname) := body]> (files w)) w, [EvRepoSave repo fname body]).

Definition repo_delete (repo fname : string) : M unit :=
  fun w => (Ok tt, set_files (delete (repo, fname) (files w)) w, [EvRepoDelete repo fname]).

(** All the ancestors of a directory, itself included. *)
Fixpoint ancestors_from (rt : string) (done todo : list string) : list string :=
  match todo with
  | [] => []
  | c :: rest =>
      Pathlib.to_str (Pathlib.mkPath rt (done ++ [c])) :: ancestors_from rt (done ++ [c]) rest
  end.

Definition path_exists (p : Pathlib.PurePath) : M bool :=
  fun w => (Ok (bool_decide (Pathlib.to_str p ∈ dirs w)), w, []).

Section Action.

Context (E : Env).

Definition llm_aask (p : Prompt) : M string :=
  fun w => (aask E (llm_calls w) p, set_llm_calls (S (llm_calls w)) w, [EvAsk p]).

Definition llm_aask_v1 (p : Prompt) (format : string) : M ActionOutput :=
  fun w => (aask_v1 E (llm_calls w) p format, set_llm_calls (S (llm_calls w)) w,
            [EvAskV1 p format]).

Definition fresh_filename : M string :=
  fun w => let fname := new_filename E (filenames_issued w) in
           (Ok fname, set_filenames_issued (S (filenames_issued w)) w, [EvNewFilename fname]).

(** [CONFIG.git_repo.rename_root(name)]; a name that is [None] cannot name a
    directory. *)
Definition rename_root (new_name : option string) : M unit :=
  match new_name with
  | Some n =>
      emit (EvRenameRoot n) ;;
      modify (fun w => set_workdir (renamed_root E (workdir w) n) w)
  | None => raise TypeError
  end.

(** [p.mkdir(parents=True, exist_ok=True)] *)
Definition path_mkdir (p : Pathlib.PurePath) : M unit :=
  call (EvMkdir p) (mkdir E p) ;;
  modify (fun w => set_dirs
            (dirs w ∪ list_to_set (ancestors_from (Pathlib.root p) [] (Pathlib.parts p))) w).

(** *** [_is_bugfix] *)
Definition _is_bugfix (body : string) : M bool :=
  res <- llm_aask (IS_BUGFIX_PROMPT body) ;;
  log (LogIsBugfix res) ;;
  ret (str_in "YES" res).

(** *** [_is_relative_to] *)
Definition _is_relative_to (new_requirement_doc old_prd_doc : Document) : M bool :=
  res <- llm_aask (IS_RELATIVE_PROMPT (content old_prd_doc) (content new_requirement_doc)) ;;
  log (LogReqRelative (root_relative_path new_requirement_doc)
                      (root_relative_path old_prd_doc) res) ;;
  ret (str_in "YES" res).

(** *** [_rename_workspace] *)
Definition ws_name_of (prd : PrdAnswer) : Res string :=
  match prd with
  | Structured ao => Ok (Project_Name (instruct_content ao))
  | RawText text => parse_str E "Project Name" text
  end.

(** The part of [_rename_workspace] after the early return. *)
Definition bind_name_and_rename (prd : PrdAnswer) : M unit :=
  w <- get_world ;;
  (if negb (truthy (project_name w)) then
     ws_name <- lift (ws_name_of prd) ;;
     modify (set_project_name (Some ws_name))
   else ret tt) ;;
  w' <- get_world ;;
  rename_root (project_name w').

Definition _rename_workspace (prd : PrdAnswer) : M unit :=
  w <- get_world ;;
  match project_path w with
  | Some p =>
      if str_truthy p then
        if negb (truthy (project_name w)) then
          modify (set_project_name (Some (Pathlib.name (Pathlib.Path p))))  (* return *)
        else bind_name_and_rename prd
      else bind_name_and_rename prd
  | None => bind_name_and_rename prd
  end.

(** *** [_save_competitive_analysis] and [_save_pdf]

    [mermaid_to_file] and [FileRepository.save_as] are not part of the
    sources.  Of a call to them the log keeps the arguments, and the result
    tells whether it raised; the files they leave behind (the rendered
    diagram, the exported markdown) are outside [files], so nothing stated
    about [files] says anything about those. *)
Definition _save_competitive_analysis (prd_doc : Document) : M unit :=
  m <- lift (json_loads E (content prd_doc)) ;;
  quadrant_chart <- lift (dict_get m "Competitive Quadrant Chart") ;;
  match quadrant_chart with
  | None => ret tt
  | Some chart =>
      if negb (jtruthy chart) then ret tt
      else
        w <- get_world ;;
        stripped <- lift (Pathlib.with_suffix_empty (Pathlib.Path (filename prd_doc))) ;;
        let pathname :=
          Pathlib.joinpath
            (Pathlib.joinpath (workdir w) (Pathlib.Path (COMPETITIVE_ANALYSIS_FILE_REPO E)))
            stripped in
        there <- path_exists (Pathlib.parent pathname) ;;
        (if negb there then path_mkdir (Pathlib.parent pathname) else ret tt) ;;
        call (EvMermaid chart pathname) (mermaid_to_file E chart pathname) ;;
        ret tt
  end.

Definition _save_pdf (prd_doc : Document) : M unit :=
  call (EvSaveAs prd_doc ".md" (PRD_PDF_FILE_REPO E))
       (save_as E prd_doc ".md" (PRD_PDF_FILE_REPO E)).

(** *** [_run_new_requirement] *)
Definition _run_new_requirement (requirements : list string) : M ActionOutput :=
  (if str_truthy (sas_result E)
   then log (LogSearch (sas_result E)) ;; log (LogSearch "")
   else ret tt) ;;
  tpl <- lift (get_template E (prompt_format E)) ;;
  w <- get_world ;;
  let name := if truthy (project_name w) then default "" (project_name w) else "" in
  prd <- llm_aask_v1 (PRD_PROMPT tpl requirements (sas_result E) name) (prompt_format E) ;;
  _rename_workspace (Structured prd) ;;
  ret prd.

(** *** [_merge] *)

(** A [str] is substituted as it is, [None] as its [repr]. *)
Definition format_name (n : option string) : string := default "None" n.

(** The first statement of [_merge]: [if not CONFIG.project_name: ...]. *)
Definition bind_name_from_path : M unit :=
  w <- get_world ;;
  if negb (truthy (project_name w)) then
    match project_path w with
    | Some p => modify (set_project_name (Some (Pathlib.name (Pathlib.Path p))))
    | None => raise TypeError
    end
  else ret tt.

Definition _merge (new_requirement_doc prd_doc : Document) : M Document :=
  bind_name_from_path ;;
  w' <- get_world ;;
  prd <- llm_aask_v1 (MERGE_PROMPT (content new_requirement_doc) (content prd_doc)
                                   (format_name (project_name w')))
                     (prompt_format E) ;;
  let prd_doc' := mkDocument (root_path prd_doc) (filename prd_doc)
                             (prd_json E (instruct_content prd)) in
  _rename_workspace (Structured prd) ;;
  ret prd_doc'.

(** *** [_update_prd] *)
Definition _update_prd (requirement_doc : Document) (prd_doc : option Document)
  : M (option Document) :=
  new_prd_doc <-
    match prd_doc with
    | None =>
        prd <- _run_new_requirement [content requirement_doc] ;;
        fname <- fresh_filename ;;
        ret (Some (mkDocument (PRDS_FILE_REPO E) (fname +:+ ".json")
                              (prd_json E (instruct_content prd))))
    | Some old =>
        related <- _is_relative_to requirement_doc old ;;
        if related then
          merged <- _merge requirement_doc old ;;
          ret (Some merged)
        else ret None
    end ;;
  match new_prd_doc with
  | None => ret None
  | Some doc =>
      repo_save (PRDS_FILE_REPO E) (filename doc) (content doc) ;;
      _save_competitive_analysis doc ;;
      _save_pdf doc ;;
      ret (Some doc)
  end.

(** *** [run] *)

(** The [for prd_doc in prd_docs] loop. *)
Fixpoint scan_prds (requirement_doc : Document) (prd_docs : list Document)
         (change_files : gmap string Document) : M (gmap string Document) :=
  match prd_docs with
  | [] => ret change_files
  | prd_doc :: rest =>
      updated <- _update_prd requirement_doc (Some prd_doc) ;;
      match updated with
      | None => scan_prds requirement_doc rest change_files
      | Some doc =>
          log (LogRewritePrd (filename doc)) ;;
          scan_prds requirement_doc rest (<[filename doc := doc]> change_files)
      end
  end.

(** [if not change_files.docs: ...] *)
Definition generate_if_unchanged (requirement_doc : Document)
           (change_files : gmap string Document) : M (gmap string Document) :=
  if bool_decide (change_files = ∅) then
    created <- _update_prd requirement_doc None ;;
    match created with
    | Some doc =>
        log (LogNewPrd (filename doc)) ;;
        ret (<[filename doc := doc]> change_files)
    | None => ret change_files
    end
  else ret change_files.

Definition bug_fix_message : Message :=
  let bug_fix := mkBugFixContext (BUGFIX_FILENAME E) in
  mkMessage (bugfix_json E bug_fix) bug_fix (profile E) FixBug WritePRD "Alex".

Definition run : M RunResult :=
  found <- repo_get (DOCS_FILE_REPO E) (REQUIREMENT_FILENAME E) ;;
  match found with
  | None => raise AttributeError
  | Some requirement_doc =>
      is_bug <- _is_bugfix (content requirement_doc) ;;
      if is_bug then
        repo_save (DOCS_FILE_REPO E) (BUGFIX_FILENAME E) (content requirement_doc) ;;
        repo_save (DOCS_FILE_REPO E) (REQUIREMENT_FILENAME E) "" ;;
        ret (RMessage bug_fix_message)
      else
        repo_delete (DOCS_FILE_REPO E) (BUGFIX_FILENAME E) ;;
        prd_docs <- repo_get_all (PRDS_FILE_REPO E) ;;
        scanned <- scan_prds requirement_doc prd_docs ∅ ;;
        change_files <- generate_if_unchanged requirement_doc scanned ;;
        ret (RActionOutput (documents_json E change_files) change_files)
  end.

End Action.

(** The models are unfolded by their equations, not by [simpl]. *)
Arguments str_truthy : simpl never.
Arguments str_in : simpl never.
Arguments Pathlib.Path : simpl never.
Arguments Pathlib.name : simpl never.
Arguments Pathlib.joinpath : simpl never.
Arguments Pathlib.parent : simpl never.
Arguments Pathlib.to_str : simpl never.
Arguments Pathlib.with_suffix_empty : simpl never.
Arguments root_relative_path : simpl never.
Arguments bind_name_and_rename : simpl never.
Arguments _rename_workspace : simpl never.
Arguments bind_name_from_path : simpl never.
Arguments _merge : simpl never.
Arguments _is_bugfix : simpl never.
Arguments _is_relative_to : simpl never.
Arguments _save_competitive_analysis : simpl never.
Arguments _save_pdf : simpl never.
Arguments _run_new_requirement : simpl never.
Arguments _update_prd : simpl never.
Arguments generate_if_unchanged : simpl never.
Arguments run : simpl never.

(** ** Reading the event log *)

(** The prompts sent to the LLM. *)
Definition oracle_call (ev : Event) : option Prompt :=
  match ev with
  | EvAsk p => Some p
  | EvAskV1 p _ => Some p
  | _ => None
  end.
Definition oracle_calls (evs : list Event) : list Prompt := omap oracle_call evs.

(** The names passed to [rename_root]. *)
Definition rename_call (ev : Event) : option string :=
  match ev with
  | EvRenameRoot n => Some n
  | _ => None
  end.
Definition renames (evs : list Event) : list string := omap rename_call evs.

(** The PRDs the relevance classifier was asked about (by their path), and
    those it answered [YES] for. *)
Definition evaluated_prd (ev : Event) : option string :=
  match ev with
  | EvLog (LogReqRelative _ prd_path _) => Some prd_path
  | _ => None
  end.
Definition evaluated (evs : list Event) : list string := omap evaluated_prd evs.

Definition related_prd (ev : Event) : option string :=
  match ev with
  | EvLog (LogReqRelative _ prd_path res) => if str_in "YES" res then Some prd_path else None
  | _ => None
  end.
Definition classified_related (evs : list Event) : list string := omap related_prd evs.

(** The requests to generate a new PRD. *)
Definition generation_call (ev : Event) : option Prompt :=
  match ev with
  | EvAskV1 (PRD_PROMPT tpl reqs info n) _ => Some (PRD_PROMPT tpl reqs info n)
  | _ => None
  end.
Definition generations (evs : list Event) : list Prompt := omap generation_call evs.

(** The file repository an interaction reads or writes, if any. *)
Definition repo_of (ev : Event) : option string :=
  match ev with
  | EvRepoGet repo _ | EvRepoGetAll repo | EvRepoSave repo _ _ | EvRepoDelete repo _ => Some repo
  | _ => None
  end.

(** The renderer and exporter calls. *)
Definition is_render (ev : Event) : bool :=
  match ev with
  | EvMermaid _ _ => true
  | _ => false
  end.
Definition is_export (ev : Event) : bool :=
  match ev with
  | EvSaveAs _ _ _ => true
  | _ => false
  end.

Arguments oracle_calls : simpl never.
Arguments renames : simpl never.
Arguments evaluated : simpl never.
Arguments classified_related : simpl never.
Arguments generations : simpl never.

(** Interactions that are neither a relevance verdict nor a generation
    request. *)
Definition scan_silent (ev : Event) : bool :=
  match ev with
  | EvLog (LogReqRelative _ _ _) => false
  | EvAskV1 (PRD_PROMPT _ _ _ _) _ => false
  | _ => true
  end.

(** The exception a side-effect call of the log ran into, if it did: the
    directory creation, the diagram rendering and the document export. *)
Definition side_effect_failure (E : Env) (ev : Event) : option Exn :=
  match ev with
  | EvMkdir dir => match mkdir E dir with Raise e => Some e | Ok _ => None end
  | EvMermaid chart pathname =>
      match mermaid_to_file E chart pathname with Raise e => Some e | Ok _ => None end
  | EvSaveAs d suffix repo =>
      match save_as E d suffix repo with Raise e => Some e | Ok _ => None end
  | _ => None
  end.

Definition raised {A} (r : Res A) : option Exn :=
  match r with
  | Raise e => Some e
  | Ok _ => None
  end.

(** No handler stands between a failed side effect and the outcome: a side
    effect of the log that raised is what the computation raised. *)
Definition unhandled {A} (E : Env) (r : Res A) (evs : list Event) : Prop :=
  forall ev e, ev ∈ evs -> side_effect_failure E ev = Some e -> raised r = Some e.

(** The change set after recording, and the files after writing, a list of
    documents in order. *)
Definition record_all (change_files : gmap string Document) (docs : list Document)
  : gmap string Document :=
  foldl (fun acc d => <[filename d := d]> acc) change_files docs.

Definition write_all (repo : string) (fs : gmap (string * string) string)
           (docs : list Document) : gmap (string * string) string :=
  foldl (fun acc d => <[(repo, filename d) := content d]> acc) fs docs.

(** What identifies a document: its repository and its file name. *)
Definition doc_key (d : Document) : string * string := (root_path d, filename d).

(** The PRD documents the scan enumerates: those of the PRD repository once the
    stale bug report has been deleted from the docs repository. *)
Definition existing_prds (E : Env) (w : World) : list Document :=
  docs_in (PRDS_FILE_REPO E)
          (delete (DOCS_FILE_REPO E, BUGFIX_FILENAME E) (files w)).

(** ** What each step of the action guarantees *)

(** What the two side effects leave alone. *)
Definition side_effect_frame {A} (E : Env) (w : World) (o : Res A * World * list Event) : Prop :=
  files (world_of o) = files w /\
  filenames_issued (world_of o) = filenames_issued w /\
  Forall (fun ev => scan_silent ev = true) (events_of o) /\
  unhandled E (result_of o) (events_of o).

(** [_merge] writes no file, asks for no generation and gives no verdict; the
    document it returns has the root path and the file name of the old one. *)
Definition merge_frame (E : Env) (old : Document) (w : World)
           (o : Res Document * World * list Event) : Prop :=
  files (world_of o) = files w /\
  filenames_issued (world_of o) = filenames_issued w /\
  Forall (fun ev => scan_silent ev = true) (events_of o) /\
  Forall (fun ev => side_effect_failure E ev = None) (events_of o) /\
  forall d, result_of o = Ok d -> root_path d = root_path old /\ filename d = filename old.

(** [_run_new_requirement] writes no file and gives no verdict; when it
    returns, it has asked for exactly one generation. *)
Definition generation_frame (E : Env) (w : World)
           (o : Res ActionOutput * World * list Event) : Prop :=
  files (world_of o) = files w /\
  filenames_issued (world_of o) = filenames_issued w /\
  Forall (fun ev => evaluated_prd ev = None) (events_of o) /\
  Forall (fun ev => side_effect_failure E ev = None) (events_of o) /\
  forall prd, result_of o = Ok prd -> length (generations (events_of o)) = 1.

(** The second half of [_update_prd]: the document is written under its own
    name and nothing else is written; a failure of the side effects that
    follow is raised, after the write. *)
Definition persist_spec (E : Env) (doc : Document) (w : World)
           (o : Res (option Document) * World * list Event) : Prop :=
  files (world_of o) = <[(PRDS_FILE_REPO E, filename doc) := content doc]> (files w) /\
  filenames_issued (world_of o) = filenames_issued w /\
  Forall (fun ev => scan_silent ev = true) (events_of o) /\
  unhandled E (result_of o) (events_of o) /\
  forall r, result_of o = Ok r -> r = Some doc.

(** On an existing PRD: one verdict; no generation; no file touched but the
    PRD's own; and when a document comes back, it is the old one under its
    own name with new content, written to the store. *)
Definition update_existing_spec (E : Env) (old : Document) (w : World)
           (o : Res (option Document) * World * list Event) : Prop :=
  unhandled E (result_of o) (events_of o) /\
  generations (events_of o) = [] /\
  filenames_issued (world_of o) = filenames_issued w /\
  (forall k, k <> (PRDS_FILE_REPO E, filename old) ->
             files (world_of o) !! k = files w !! k) /\
  match result_of o with
  | Ok None =>
      evaluated (events_of o) = [root_relative_path old] /\
      classified_related (events_of o) = [] /\
      files (world_of o) = files w
  | Ok (Some d) =>
      evaluated (events_of o) = [root_relative_path old] /\
      classified_related (events_of o) = [root_relative_path old] /\
      root_path d = root_path old /\ filename d = filename old /\
      files (world_of o) = <[(PRDS_FILE_REPO E, filename old) := content d]> (files w)
  | Raise _ => evaluated (events_of o) `prefix_of` [root_relative_path old]
  end.

(** With no PRD given: no verdict; and when a document comes back it is a new
    one, named by the next fresh file name, written to the PRD repository,
    after exactly one generation request. *)
Definition update_new_spec (E : Env) (w : World)
           (o : Res (option Document) * World * list Event) : Prop :=
  unhandled E (result_of o) (events_of o) /\
  evaluated (events_of o) = [] /\
  classified_related (events_of o) = [] /\
  match result_of o with
  | Ok r =>
      exists d, r = Some d /\
                root_path d = PRDS_FILE_REPO E /\
                filename d = new_filename E (filenames_issued w) +:+ ".json" /\
                files (world_of o) = <[(PRDS_FILE_REPO E, filename d) := content d]> (files w) /\
                length (generations (events_of o)) = 1
  | Raise _ => True
  end.

(** When the scan returns: every document was evaluated, in order; the
    documents with a YES verdict are exactly those merged; each merged
    document is one of the scanned ones under its own key; they were recorded
    in the change set and written to the store; nothing was generated. *)
Definition scan_spec (E : Env) (docs : list Document) (cs : gmap string Document)
           (w : World) (o : Res (gmap string Document) * World * list Event) : Prop :=
  unhandled E (result_of o) (events_of o) /\
  generations (events_of o) = [] /\
  filenames_issued (world_of o) = filenames_issued w /\
  match result_of o with
  | Ok cs' =>
      exists merged : list Document,
        cs' = record_all cs merged /\
        files (world_of o) = write_all (PRDS_FILE_REPO E) (files w) merged /\
        evaluated (events_of o) = root_relative_path <$> docs /\
        classified_related (events_of o) = root_relative_path <$> merged /\
        sublist (doc_key <$> merged) (doc_key <$> docs)
  | Raise _ => True
  end.

(** [generate_if_unchanged] gives no verdict.  On an empty change set it
    returns the change set holding the one new document, written to the PRD
    repository, after one generation request; on any other change set it does
    nothing. *)
Definition generate_spec (E : Env) (cs : gmap string Document) (w : World)
           (o : Res (gmap string Document) * World * list Event) : Prop :=
  unhandled E (result_of o) (events_of o) /\
  evaluated (events_of o) = [] /\
  classified_related (events_of o) = [] /\
  match result_of o with
  | Ok cs' =>
      if bool_decide (cs = ∅) then
        exists d, cs' = {[filename d := d]} /\
                  root_path d = PRDS_FILE_REPO E /\
                  filename d = new_filename E (filenames_issued w) +:+ ".json" /\
                  files (world_of o)
                    = <[(PRDS_FILE_REPO E, filename d) := content d]> (files w) /\
                  length (generations (events_of o)) = 1
      else cs' = cs /\ files (world_of o) = files w /\ events_of o = []
  | Raise _ => True
  end.

(** What a run that returns a change set has done. *)
Definition run_spec (E : Env) (w : World) (o : Res RunResult * World * list Event) : Prop :=
  unhandled E (result_of o) (events_of o) /\
  match result_of o with
  | Ok (RActionOutput c cs) =>
      exists merged : list Document,
        evaluated (events_of o) = root_relative_path <$> existing_prds E w /\
        classified_related (events_of o) = root_relative_path <$> merged /\
        sublist (doc_key <$> merged) (doc_key <$> existing_prds E w) /\
        match merged with
        | [] =>
            exists d, cs = {[filename d := d]} /\
                      root_path d = PRDS_FILE_REPO E /\
                      filename d = new_filename E (filenames_issued w) +:+ ".json" /\
                      files (world_of o) !! (PRDS_FILE_REPO E, filename d) = Some (content d) /\
                      length (generations (events_of o)) = 1
        | _ :: _ =>
            cs = record_all ∅ merged /\
            files (world_of o)
              = write_all (PRDS_FILE_REPO E)
                          (delete (DOCS_FILE_REPO E, BUGFIX_FILENAME E) (files w)) merged /\
            generations (events_of o) = []
        end
  | _ => True
  end.

(** ** Collaborators that do not fail *)

(** The LLM answers and its structured answers parse, the format is a known
    one, a stored PRD decodes to a JSON object, the fresh names can lose their
    suffix, and the three side effects succeed. *)
Record well_behaved (E : Env) : Prop := mkWellBehaved {
  wb_aask : forall n p, exists res, aask E n p = Ok res;
  wb_aask_v1 : forall n p format, exists prd, aask_v1 E n p format = Ok prd;
  wb_template : exists tpl, get_template E (prompt_format E) = Ok tpl;
  wb_json : forall prd, exists members, json_loads E (prd_json E prd) = Ok (JObj members);
  wb_fresh : forall n,
    str_truthy (Pathlib.name (Pathlib.Path (new_filename E n +:+ ".json"))) = true;
  wb_mkdir : forall dir, mkdir E dir = Ok tt;
  wb_mermaid : forall chart pathname, exists code, mermaid_to_file E chart pathname = Ok code;
  wb_save_as : forall d suffix repo, save_as E d suffix repo = Ok tt
}.

(** [_merge] can name the project: a path is configured, or a name is bound. *)
Definition identity_resolvable (w : World) : Prop :=
  is_Some (project_path w) \/ truthy (project_name w) = true.

(** The file name has a last component, which [with_suffix] needs. *)
Definition exportable (d : Document) : Prop :=
  str_truthy (Pathlib.name (Pathlib.Path (filename d))) = true.

(** The computation returned, and it kept what [_merge] needs. *)
Definition returns_resolvable {A} (w : World) (o : Res A * World * list Event) : Prop :=
  (exists a, result_of o = Ok a) /\
  (identity_resolvable w -> identity_resolvable (world_of o)).

(** ** Concrete collaborators for the examples

    The constants are those of metagpt.const.  The stand-in serialisation
    keeps the one field the action reads back from a stored PRD. *)

Definition sample_prd (pname chart : string) : PRD :=
  mkPRD "en_us" "Add dark mode toggle to settings" pname
        ["Comfortable reading at night"] ["As a user, I want a dark theme"]
        ["Editor X: has a dark theme"] chart "Theme switching" [["P0"; "Toggle in settings"]]
        "A switch on the settings page" "".

(** The two entries of [templates]; any other format is an error. *)
Definition two_templates (format : string) : Res TemplateKey :=
  if String.eqb format "json" then Ok json
  else if String.eqb format "markdown" then Ok markdown
  else Raise ValueError.

(** The renamed working directory sits next to the old one. *)
Definition sibling_named (dir : Pathlib.PurePath) (n : string) : Pathlib.PurePath :=
  Pathlib.joinpath (Pathlib.parent dir) (Pathlib.Path n).

Definition sample_env (ask : nat -> Prompt -> Res string)
           (ask_v1 : nat -> Prompt -> string -> Res ActionOutput)
           (render : JValue -> Pathlib.PurePath -> Res Z)
           (export : Document -> string -> string -> Res unit) : Env :=
  mkEnv "requirement.txt" "bugfix.txt" "docs" "docs/prds"
        "resources/competitive_analysis" "resources/prd"
        "json" two_templates "Product Manager"
        ask ask_v1 ""
        (fun n => "2023120517450" +:+ String (ascii_of_nat (48 + n)) "")
        (fun p => Competitive_Quadrant_Chart p)
        (fun b => bugfix_filename b)
        (fun docs => "")
        (fun s => Ok (JObj [("Competitive Quadrant Chart", JStr s)]))
        (fun _ text => Ok text)
        (fun _ => Ok tt)
        render export
        sibling_named.

Definition always (answer : string) : nat -> Prompt -> Res string := fun _ _ => Ok answer.

Definition answers_prd (pname : string) : nat -> Prompt -> string -> Res ActionOutput :=
  fun _ _ _ => Ok (mkActionOutput "[CONTENT]...[/CONTENT]" (sample_prd pname "quadrantChart")).

(** An LLM that finds the requirement related to the PRDs whose text mentions
    a theme, and that never sees a bug report. *)
Definition relates_to_themes : nat -> Prompt -> Res string :=
  fun _ p =>
    match p with
    | IS_RELATIVE_PROMPT old_prd _ =>
        if str_in "theme" old_prd then Ok "{answer: YES, reason: same feature}"
        else Ok "{answer: NO}"
    | _ => Ok "{answer: NO}"
    end.

(** A collaborator that always fails. *)
Definition render_fails : JValue -> Pathlib.PurePath -> Res Z := fun _ _ => Raise RenderError.
Definition export_fails : Document -> string -> string -> Res unit := fun _ _ _ => Raise OSError.

(** An LLM whose structured answers cannot be parsed. *)
Definition unparsable : nat -> Prompt -> string -> Res ActionOutput :=
  fun _ _ _ => Raise ParseError.

(** An LLM whose structured answers can be parsed during its first [k]
    calls only. *)
Definition parses_until (k : nat) (pname : string)
  : nat -> Prompt -> string -> Res ActionOutput :=
  fun n _ _ =>
    if (n <? k)%nat
    then Ok (mkActionOutput "[CONTENT]...[/CONTENT]" (sample_prd pname "quadrantChart"))
    else Raise ParseError.

Definition render_ok : JValue -> Pathlib.PurePath -> Res Z := fun _ _ => Ok 0%Z.
Definition export_ok : Document -> string -> string -> Res unit := fun _ _ _ => Ok tt.

Definition sample_world (fs : gmap (string * string) string)
           (pname ppath : option string) : World :=
  mkWorld fs ∅ (Pathlib.Path "/home/me/workspace/20231205") pname ppath 0 0.

(** A store with the requirement and two PRDs, one about themes. *)
Definition two_prds (body : string) : gmap (string * string) string :=
  <[("docs/prds", "20231201.json") := "PRD: colour themes of the editor"]>
    (<[("docs/prds", "20231203.json") := "PRD: export to PDF"]>
       {[ ("docs", "requirement.txt") := body ]}).

(** A store with the requirement and two PRDs, both about themes. *)
Definition two_theme_prds (body : string) : gmap (string * string) string :=
  <[("docs/prds", "20231201.json") := "PRD: colour themes of the editor"]>
    (<[("docs/prds", "20231203.json") := "PRD: icon themes"]>
       {[ ("docs", "requirement.txt") := body ]}).

Definition requirement_only (body : string) : gmap (string * string) string :=
  {[ ("docs", "requirement.txt") := body ]}.

(** ** What a step of the action may touch

    Outside the PRD repository no file is written; the configured project
    path stays; a project name that is bound stays; and the LLM is called at
    most [budget] times. *)
Definition step_frame {A} (E : Env) (budget : nat) (w : World)
           (o : Res A * World * list Event) : Prop :=
  (forall k, k.1 <> PRDS_FILE_REPO E -> files (world_of o) !! k = files w !! k) /\
  project_path (world_of o) = project_path w /\
  (truthy (project_name w) = true -> project_name (world_of o) = project_name w) /\
  length (oracle_calls (events_of o)) <= budget.

(** The writes to the file repositories. *)
Definition is_save (ev : Event) : bool :=
  match ev with
  | EvRepoSave _ _ _ => true
  | _ => false
  end.

(** The document was written to the PRD repository and exported as markdown
    to the PDF repository. *)
Definition published (E : Env) (d : Document) (evs : list Event) : Prop :=
  EvRepoSave (PRDS_FILE_REPO E) (filename d) (content d) ∈ evs /\
  EvSaveAs d ".md" (PRD_PDF_FILE_REPO E) ∈ evs.

(** The interactions that leave something of a PRD behind: a write to the
    PRD repository, a directory made, a chart rendered, an export. *)
Definition outputs (E : Env) (ev : Event) : bool :=
  match ev with
  | EvRepoSave repo _ _ => bool_decide (repo = PRDS_FILE_REPO E)
  | EvMkdir _ | EvMermaid _ _ | EvSaveAs _ _ _ => true
  | _ => false
  end.

(** No structured answer can be had from the LLM. *)
Definition no_structured_answer (E : Env) : Prop :=
  forall n p format, exists e, aask_v1 E n p format = Raise e.

(** The step wrote no file and left nothing of a PRD behind. *)
Definition nothing_published {A} (E : Env) (w : World) (o : Res A * World * list Event) : Prop :=
  files (world_of o) = files w /\
  Forall (fun ev => outputs E ev = false) (events_of o).

(** An LLM that is down, and one that regenerates the PRD it is given. *)
Definition llm_down : nat -> Prompt -> Res string := fun _ _ => Raise LLMError.

Definition regenerates (prd : PRD) : nat -> Prompt -> string -> Res ActionOutput :=
  fun _ _ _ => Ok (mkActionOutput "[CONTENT]...[/CONTENT]" prd).


(** * Properties *)

(** ** pathlib on concrete paths *)

Example Path_name_nested : Pathlib.name (Pathlib.Path "/home/me/workspace/game_2048") = "game_2048".
Proof. reflexivity. Qed.

Example Path_name_trailing_slash : Pathlib.name (Pathlib.Path "ws/snake/") = "snake".
Proof. reflexivity. Qed.

Example Path_name_cwd : Pathlib.name (Pathlib.Path ".") = "".
Proof. reflexivity. Qed.

Example Path_name_root : Pathlib.name (Pathlib.Path "/") = "".
Proof. reflexivity. Qed.

Example Path_name_empty : Pathlib.name (Pathlib.Path "") = "".
Proof. reflexivity. Qed.

Example with_suffix_json :
  Pathlib.to_str <$> match Pathlib.with_suffix_empty (Pathlib.Path "20231205.json") with
                     | Ok p => Some p | Raise _ => None end = Some "20231205".
Proof. reflexivity. Qed.

(** ** The monad *)

Lemma prepend_nil {A} (o : Res A * World * list Event) : prepend [] o = o.
Proof. destruct o as [[r w] evs]. reflexivity. Qed.

Lemma prepend_prepend {A} (evs1 evs2 : list Event) (o : Res A * World * list Event) :
  prepend evs1 (prepend evs2 o) = prepend (evs1 ++ evs2) o.
Proof. destruct o as [[r w] evs]. cbn. rewrite app_assoc. reflexivity. Qed.

Lemma result_of_prepend {A} (evs : list Event) (o : Res A * World * list Event) :
  result_of (prepend evs o) = result_of o.
Proof. destruct o as [[r w] evs']. reflexivity. Qed.

Lemma world_of_prepend {A} (evs : list Event) (o : Res A * World * list Event) :
  world_of (prepend evs o) = world_of o.
Proof. destruct o as [[r w] evs']. reflexivity. Qed.

Lemma events_of_prepend {A} (evs : list Event) (o : Res A * World * list Event) :
  events_of (prepend evs o) = evs ++ events_of o.
Proof. destruct o as [[r w] evs']. reflexivity. Qed.

Lemma bind_get_world {A} (f : World -> M A) (w : World) :
  bind get_world f w = f w w.
Proof. unfold bind, get_world. apply prepend_nil. Qed.

Lemma bind_ret {A B} (a : A) (f : A -> M B) (w : World) :
  bind (ret a) f w = f a w.
Proof. unfold bind, ret. apply prepend_nil. Qed.

Lemma bind_lift {A B} (r : Res A) (f : A -> M B) (w : World) :
  bind (lift r) f w = match r with Ok a => f a w | Raise e => (Raise e, w, []) end.
Proof. unfold bind, lift. destruct r; [apply prepend_nil | reflexivity]. Qed.

Lemma bind_modify {B} (g : World -> World) (f : unit -> M B) (w : World) :
  bind (modify g) f w = f tt (g w).
Proof. unfold bind, modify. apply prepend_nil. Qed.

Lemma bind_emit {B} (ev : Event) (f : unit -> M B) (w : World) :
  bind (emit ev) f w = prepend [ev] (f tt w).
Proof. reflexivity. Qed.

Lemma bind_raises {A B} (m : M A) (f : A -> M B) (w w1 : World) (e : Exn) (evs : list Event) :
  m w = (Raise e, w1, evs) -> bind m f w = (Raise e, w1, evs).
Proof. intros H. unfold bind. rewrite H. reflexivity. Qed.

Lemma bind_returns {A B} (m : M A) (f : A -> M B) (w w1 : World) (a : A) (evs : list Event) :
  m w = (Ok a, w1, evs) -> bind m f w = prepend evs (f a w1).
Proof. intros H. unfold bind. rewrite H. reflexivity. Qed.

Lemma bind_assoc {A B C} (m : M A) (f : A -> M B) (g : B -> M C) (w : World) :
  bind (bind m f) g w = bind m (fun a => bind (f a) g) w.
Proof.
  unfold bind. destruct (m w) as [[[a|e] w1] evs1]; [| reflexivity].
  destruct (f a w1) as [[[b|e] w2] evs2]; cbn; [| reflexivity].
  destruct (g b w2) as [[r w3] evs3]. cbn. rewrite app_assoc. reflexivity.
Qed.

Lemma bind_llm_aask (E : Env) {B} (p : Prompt) (f : string -> M B) (w : World) :
  bind (llm_aask E p) f w =
    match aask E (llm_calls w) p with
    | Ok res => prepend [EvAsk p] (f res (set_llm_calls (S (llm_calls w)) w))
    | Raise e => (Raise e, set_llm_calls (S (llm_calls w)) w, [EvAsk p])
    end.
Proof. unfold bind, llm_aask. destruct (aask E (llm_calls w) p); reflexivity. Qed.

Lemma bind_llm_aask_v1 (E : Env) {B} (p : Prompt) (format : string)
      (f : ActionOutput -> M B) (w : World) :
  bind (llm_aask_v1 E p format) f w =
    match aask_v1 E (llm_calls w) p format with
    | Ok prd => prepend [EvAskV1 p format] (f prd (set_llm_calls (S (llm_calls w)) w))
    | Raise e => (Raise e, set_llm_calls (S (llm_calls w)) w, [EvAskV1 p format])
    end.
Proof.
  unfold bind, llm_aask_v1. destruct (aask_v1 E (llm_calls w) p format); reflexivity.
Qed.

(** ** The bug classifier *)

(** The bug classifier sends its prompt to the LLM whatever the text is. *)
Lemma _is_bugfix_asks (E : Env) (body : string) (w : World) :
  oracle_calls (events_of (_is_bugfix E body w)) = [IS_BUGFIX_PROMPT body].
Proof.
  unfold _is_bugfix, llm_aask, bind, log, emit, ret, events_of. cbn.
  destruct (aask E (llm_calls w) (IS_BUGFIX_PROMPT body)); reflexivity.
Qed.

Lemma _is_bugfix_result (E : Env) (body : string) (w : World) :
  result_of (_is_bugfix E body w) =
  match aask E (llm_calls w) (IS_BUGFIX_PROMPT body) with
  | Ok res => Ok (str_in "YES" res)
  | Raise e => Raise e
  end.
Proof.
  unfold _is_bugfix, llm_aask, bind, log, emit, ret, result_of. cbn.
  destruct (aask E (llm_calls w) (IS_BUGFIX_PROMPT body)); reflexivity.
Qed.

(** C7, as the specification states it, fails: on the empty requirement text
    the classifier does call the LLM, and an LLM that answers YES makes it
    return true. *)
Lemma C7_empty_text_counterexample :
  let E := sample_env (always "YES") (answers_prd "snake_game") render_ok export_ok in
  let o := _is_bugfix E "" (sample_world (requirement_only "") None None) in
  (result_of o = Ok true /\ oracle_calls (events_of o) = [IS_BUGFIX_PROMPT ""]) /\
  ~ (result_of o = Ok false /\ oracle_calls (events_of o) = []).
Proof.
  cbv zeta. split; [split; reflexivity |].
  intros [Hres _]. vm_compute in Hres. discriminate Hres.
Qed.

(** C7 (amended): for the empty requirement text the bug classifier calls the
    LLM exactly once, with the classification prompt built around the empty
    text, and its answer is the LLM's: true exactly when the response contains
    YES, and the LLM's exception when the call fails. *)
Theorem C7_empty_text_is_sent_to_the_oracle (E : Env) (w : World) :
  oracle_calls (events_of (_is_bugfix E "" w)) = [IS_BUGFIX_PROMPT ""] /\
  result_of (_is_bugfix E "" w) =
    match aask E (llm_calls w) (IS_BUGFIX_PROMPT "") with
    | Ok res => Ok (str_in "YES" res)
    | Raise e => Raise e
    end.
Proof. split; [apply _is_bugfix_asks | apply _is_bugfix_result]. Qed.

(** ** ProjectNamer: [_rename_workspace] *)

Lemma truthy_Some (o : option string) :
  truthy o = true -> exists s, o = Some s /\ str_truthy s = true.
Proof. destruct o as [s|]; cbn; [eauto | discriminate]. Qed.

(** With a name already bound, the tail of [_rename_workspace] keeps the name
    and calls [rename_root] with it. *)
Lemma bind_name_and_rename_bound (E : Env) (prd : PrdAnswer) (w : World) (n : string) :
  project_name w = Some n -> str_truthy n = true ->
  bind_name_and_rename E prd w =
    (Ok tt,
     set_workdir (renamed_root E (workdir w) n) w,
     [EvRenameRoot n]).
Proof.
  intros Hn Ht. unfold bind_name_and_rename.
  rewrite bind_get_world, Hn. cbn [truthy]. rewrite Ht. cbn [negb].
  rewrite bind_ret, bind_get_world, Hn. reflexivity.
Qed.

(** With no name bound, the tail binds the candidate's project name and calls
    [rename_root] with it. *)
Lemma bind_name_and_rename_unbound (E : Env) (prd : PrdAnswer) (w : World) (ws_name : string) :
  truthy (project_name w) = false -> ws_name_of E prd = Ok ws_name ->
  bind_name_and_rename E prd w =
    (Ok tt,
     set_workdir (renamed_root E (workdir w) ws_name) (set_project_name (Some ws_name) w),
     [EvRenameRoot ws_name]).
Proof.
  intros Hn Hws. unfold bind_name_and_rename.
  rewrite bind_get_world, Hn. cbn [negb].
  rewrite bind_assoc, bind_lift, Hws, bind_modify, bind_get_world. reflexivity.
Qed.

Lemma bind_name_and_rename_unparsed (E : Env) (prd : PrdAnswer) (w : World) (e : Exn) :
  truthy (project_name w) = false -> ws_name_of E prd = Raise e ->
  bind_name_and_rename E prd w = (Raise e, w, []).
Proof.
  intros Hn Hws. unfold bind_name_and_rename.
  rewrite bind_get_world, Hn. cbn [negb].
  rewrite bind_assoc, bind_lift, Hws. reflexivity.
Qed.

(** With a path bound and no name bound, the name is taken from the path and
    nothing else happens. *)
Lemma _rename_workspace_from_path (E : Env) (prd : PrdAnswer) (w : World) (p : string) :
  project_path w = Some p -> str_truthy p = true -> truthy (project_name w) = false ->
  _rename_workspace E prd w =
    (Ok tt, set_project_name (Some (Pathlib.name (Pathlib.Path p))) w, []).
Proof.
  intros Hp Ht Hn. unfold _rename_workspace.
  rewrite bind_get_world, Hp, Ht, Hn. reflexivity.
Qed.

(** In every other case [_rename_workspace] is its tail. *)
Lemma _rename_workspace_tail (E : Env) (prd : PrdAnswer) (w : World) :
  truthy (project_path w) && negb (truthy (project_name w)) = false ->
  _rename_workspace E prd w = bind_name_and_rename E prd w.
Proof.
  intros H. unfold _rename_workspace. rewrite bind_get_world.
  destruct (project_path w) as [p|]; [| reflexivity].
  cbn [truthy] in H. destruct (str_truthy p); [| reflexivity].
  destruct (truthy (project_name w)); [reflexivity | discriminate H].
Qed.

(** C4 holds of the design and not of the code.  The branch
    [if CONFIG.project_path:] is the one the source comments as the workspace
    being specified already, and its sub-path for an unbound name returns
    without a rename; but that [return] sits inside
    [if not CONFIG.project_name:], so with both a path and a name bound the
    call falls through to [rename_root].  With the path
    [/home/me/workspace/game_2048] (where the working tree is) and the name
    [snake_game] bound, the name and the path stay as they are, but the
    workspace rename is invoked and the working tree is moved away from the
    configured path. *)
Lemma C4_both_bound_renames_the_workspace :
  let E := sample_env (always "NO") (answers_prd "tetris") render_ok export_ok in
  let w := set_workdir (Pathlib.Path "/home/me/workspace/game_2048")
                       (sample_world (requirement_only "Add dark mode")
                                     (Some "snake_game")
                                     (Some "/home/me/workspace/game_2048")) in
  let o := _rename_workspace E (Structured (mkActionOutput "" (sample_prd "tetris" ""))) w in
  result_of o = Ok tt /\
  (project_name (world_of o) = project_name w /\ project_path (world_of o) = project_path w) /\
  renames (events_of o) = ["snake_game"] /\
  ~ (renames (events_of o) = []) /\
  workdir w = Pathlib.Path "/home/me/workspace/game_2048" /\
  workdir (world_of o) = Pathlib.Path "/home/me/workspace/snake_game".
Proof.
  cbv zeta. split; [reflexivity |]. split; [split; reflexivity |].
  split; [reflexivity |]. split; [| split; reflexivity].
  intros H. vm_compute in H. discriminate H.
Qed.

(** C5: when a project path is bound and no project name is bound, the name
    becomes the last segment of the path, the candidate PRD is not consulted
    (any other candidate gives the same outcome), and the workspace rename is
    not invoked. *)
Theorem C5_name_from_path_without_rename
        (E : Env) (prd : PrdAnswer) (w : World) (p : string) :
  project_path w = Some p -> str_truthy p = true ->
  truthy (project_name w) = false ->
  let o := _rename_workspace E prd w in
  result_of o = Ok tt /\
  project_name (world_of o) = Some (Pathlib.name (Pathlib.Path p)) /\
  (forall prd', _rename_workspace E prd' w = o) /\
  renames (events_of o) = [] /\
  events_of o = [].
Proof.
  intros Hp Ht Hn o. subst o.
  rewrite (_rename_workspace_from_path E prd w p Hp Ht Hn). cbn.
  repeat split; try reflexivity.
  intros prd'. apply (_rename_workspace_from_path E prd' w p Hp Ht Hn).
Qed.

Lemma C5_name_from_path_witness :
  let E := sample_env (always "NO") (answers_prd "snake_game") render_ok export_ok in
  let w := sample_world (requirement_only "Add dark mode")
                        None (Some "/home/me/workspace/game_2048") in
  let o := _rename_workspace E (Structured (mkActionOutput "" (sample_prd "snake_game" ""))) w in
  result_of o = Ok tt /\
  project_name (world_of o) = Some "game_2048" /\
  (forall prd', _rename_workspace E prd' w = o) /\
  renames (events_of o) = [] /\
  events_of o = [].
Proof.
  cbv zeta.
  apply (C5_name_from_path_without_rename _ _ _ "/home/me/workspace/game_2048"); reflexivity.
Defined.

(** C6, as the specification states it, fails: a resolve call made when a name
    is already bound (and no name is newly bound from the candidate PRD)
    invokes the workspace rename. *)
Lemma C6_rename_after_bound_counterexample :
  let E := sample_env (always "NO") (answers_prd "snake_game") render_ok export_ok in
  let w := sample_world (requirement_only "Add dark mode") (Some "game_2048") None in
  let o := _rename_workspace E (Structured (mkActionOutput "" (sample_prd "snake_game" ""))) w in
  project_name w = Some "game_2048" /\
  project_name (world_of o) = Some "game_2048" /\
  renames (events_of o) = ["game_2048"] /\
  ~ (renames (events_of o) = []).
Proof.
  cbv zeta. repeat split; try reflexivity.
  intros H. vm_compute in H. discriminate H.
Qed.

(** C6 (amended): on a resolve call made when a project path and a project
    name are not both bound, the workspace rename follows the name.  With no
    path bound it is invoked with the candidate PRD's project name when that
    name is newly bound, with the already bound name on a call made once a
    name is bound, and not at all when the candidate yields no name.  With a
    path bound and no name, the name comes from the path and the rename is
    not invoked. *)
Theorem C6_rename_follows_the_name
        (E : Env) (prd : PrdAnswer) (w : World) :
  truthy (project_path w) && truthy (project_name w) = false ->
  renames (events_of (_rename_workspace E prd w)) =
    if truthy (project_path w) then []
    else if truthy (project_name w) then [default "" (project_name w)]
    else match ws_name_of E prd with
         | Ok ws_name => [ws_name]
         | Raise _ => []
         end.
Proof.
  intros Hnot.
  destruct (truthy (project_path w)) eqn:Hp; cbn [andb] in Hnot.
  - apply truthy_Some in Hp as (p & Hp & Ht).
    rewrite (_rename_workspace_from_path E prd w p Hp Ht Hnot). reflexivity.
  - rewrite _rename_workspace_tail by (by rewrite Hp).
    destruct (truthy (project_name w)) eqn:Hn.
    + apply truthy_Some in Hn as (n & Hn & Ht).
      rewrite (bind_name_and_rename_bound E prd w n Hn Ht), Hn. reflexivity.
    + destruct (ws_name_of E prd) as [ws_name|e] eqn:Hws.
      * rewrite (bind_name_and_rename_unbound E prd w ws_name Hn Hws). reflexivity.
      * rewrite (bind_name_and_rename_unparsed E prd w e Hn Hws). reflexivity.
Qed.

Lemma C6_rename_follows_the_name_witness :
  let E := sample_env (always "NO") (answers_prd "snake_game") render_ok export_ok in
  let w := sample_world (requirement_only "Add dark mode") (Some "game_2048") None in
  renames (events_of (_rename_workspace E
                        (Structured (mkActionOutput "" (sample_prd "snake_game" ""))) w))
  = ["game_2048"].
Proof.
  cbv zeta.
  apply (C6_rename_follows_the_name
           (sample_env (always "NO") (answers_prd "snake_game") render_ok export_ok)
           (Structured (mkActionOutput "" (sample_prd "snake_game" "")))
           (sample_world (requirement_only "Add dark mode") (Some "game_2048") None)).
  reflexivity.
Defined.

(** ** DocumentMerger: [_merge] *)

Lemma bind_name_from_path_unbound (E : Env) (w : World) (p : string) :
  truthy (project_name w) = false -> project_path w = Some p ->
  bind_name_from_path w = (Ok tt, set_project_name (Some (Pathlib.name (Pathlib.Path p))) w, []).
Proof.
  intros Hn Hp. unfold bind_name_from_path. rewrite bind_get_world, Hn, Hp. reflexivity.
Qed.

(** C10, as stated, fails.  With the project path ["."] the last segment is
    empty: the name bound before the prompt is built is the empty string, so
    the resolve call after the LLM answer does not find a name bound, and no
    name is bound after the merge either.  With an empty project path the name
    bound at the end of the merge is the regenerated PRD's project name. *)
Lemma C10_merge_name_counterexample :
  let E := sample_env (always "YES") (answers_prd "snake_game") render_ok export_ok in
  let req := mkDocument "docs" "requirement.txt" "Add dark mode" in
  let old := mkDocument "docs/prds" "20231201.json" "quadrantChart" in
  let w_dot := sample_world (requirement_only "Add dark mode") None (Some ".") in
  let w_empty := sample_world (requirement_only "Add dark mode") None (Some "") in
  (project_name (world_of (bind_name_from_path w_dot)) = Some "" /\
   oracle_calls (events_of (_merge E req old w_dot))
     = [MERGE_PROMPT "Add dark mode" "quadrantChart" ""] /\
   project_name (world_of (_merge E req old w_dot)) = Some "" /\
   ~ (truthy (project_name (world_of (bind_name_from_path w_dot))) = true)) /\
  (project_name (world_of (_merge E req old w_empty)) = Some "snake_game" /\
   renames (events_of (_merge E req old w_empty)) = ["snake_game"] /\
   ~ (project_name (world_of (_merge E req old w_empty))
      = Some (Pathlib.name (Pathlib.Path "")))).
Proof.
  cbv zeta. split.
  - repeat split; try reflexivity. intros H. vm_compute in H. discriminate H.
  - repeat split; try reflexivity. intros H. vm_compute in H. discriminate H.
Qed.

(** C10 (amended): for every merge made while no project name is bound, with a
    configured project path whose last segment is not empty, [_merge] binds
    the name to that last segment before the prompt is built; the merge prompt
    carries that name; the resolve call made after the LLM answer starts from
    a world in which that name is bound; and the name bound after the merge is
    still the last segment of the path, whatever project name the regenerated
    PRD carries. *)
Theorem C10_merge_binds_name_from_path
        (E : Env) (req old : Document) (w : World) (p : string) :
  truthy (project_name w) = false ->
  project_path w = Some p ->
  str_truthy (Pathlib.name (Pathlib.Path p)) = true ->
  let n := Pathlib.name (Pathlib.Path p) in
  let prompt := MERGE_PROMPT (content req) (content old) n in
  let o := _merge E req old w in
  (result_of (bind_name_from_path w) = Ok tt /\
   project_name (world_of (bind_name_from_path w)) = Some n) /\
  oracle_calls (events_of o) = [prompt] /\
  forall prd, aask_v1 E (llm_calls w) prompt (prompt_format E) = Ok prd ->
    (exists w1, truthy (project_name w1) = true /\ project_name w1 = Some n /\
                world_of o = world_of (_rename_workspace E (Structured prd) w1) /\
                events_of o = EvAskV1 prompt (prompt_format E)
                                :: events_of (_rename_workspace E (Structured prd) w1)) /\
    result_of o = Ok (mkDocument (root_path old) (filename old)
                                 (prd_json E (instruct_content prd))) /\
    project_name (world_of o) = Some n /\
    renames (events_of o) = [n].
Proof.
  intros Hn Hp Ht n prompt o.
  pose proof (bind_name_from_path_unbound E w p Hn Hp) as Hb. fold n in Hb, Ht.
  split; [rewrite Hb; split; reflexivity |].
  subst o. unfold _merge.
  rewrite (bind_returns _ _ _ _ _ _ Hb), prepend_nil, bind_get_world.
  change (format_name (project_name (set_project_name (Some n) w))) with n.
  fold prompt. rewrite bind_llm_aask_v1.
  change (llm_calls (set_project_name (Some n) w)) with (llm_calls w).
  set (w1 := set_llm_calls (S (llm_calls w)) (set_project_name (Some n) w)).
  destruct (aask_v1 E (llm_calls w) prompt (prompt_format E)) as [prd|e] eqn:Hask.
  - assert (Hw1 : project_name w1 = Some n) by reflexivity.
    assert (Hr : _rename_workspace E (Structured prd) w1 =
                 (Ok tt, set_workdir (renamed_root E (workdir w1) n) w1, [EvRenameRoot n])).
    { rewrite _rename_workspace_tail
        by (rewrite Hw1; cbn [truthy]; rewrite Ht; apply andb_false_r).
      apply bind_name_and_rename_bound; assumption. }
    rewrite (bind_returns _ _ _ _ _ _ Hr). cbn.
    split; [reflexivity |].
    intros prd' Heq. injection Heq as <-.
    split; [| repeat split; reflexivity].
    exists w1. rewrite Hr. cbn. rewrite Ht. repeat split; reflexivity.
  - cbn. split; [reflexivity |]. intros prd' Heq. discriminate Heq.
Qed.

Lemma C10_merge_binds_name_witness :
  let E := sample_env relates_to_themes (answers_prd "snake_game") render_ok export_ok in
  let req := mkDocument "docs" "requirement.txt" "Add dark mode toggle to settings" in
  let old := mkDocument "docs/prds" "20231201.json" "PRD: colour themes of the editor" in
  let w := sample_world (two_prds "Add dark mode toggle to settings")
                        None (Some "/home/me/workspace/editor") in
  let n := Pathlib.name (Pathlib.Path "/home/me/workspace/editor") in
  let prompt := MERGE_PROMPT (content req) (content old) n in
  let o := _merge E req old w in
  n = "editor" /\
  (result_of (bind_name_from_path w) = Ok tt /\
   project_name (world_of (bind_name_from_path w)) = Some n) /\
  oracle_calls (events_of o) = [prompt] /\
  forall prd, aask_v1 E (llm_calls w) prompt (prompt_format E) = Ok prd ->
    (exists w1, truthy (project_name w1) = true /\ project_name w1 = Some n /\
                world_of o = world_of (_rename_workspace E (Structured prd) w1) /\
                events_of o = EvAskV1 prompt (prompt_format E)
                                :: events_of (_rename_workspace E (Structured prd) w1)) /\
    result_of o = Ok (mkDocument (root_path old) (filename old)
                                 (prd_json E (instruct_content prd))) /\
    project_name (world_of o) = Some n /\
    renames (events_of o) = [n].
Proof.
  cbv zeta. split; [reflexivity |].
  apply (C10_merge_binds_name_from_path
           (sample_env relates_to_themes (answers_prd "snake_game") render_ok export_ok)
           _ _ _ "/home/me/workspace/editor"); reflexivity.
Defined.

(** ** SyncOrchestrator: the bug-report route *)

Lemma _is_bugfix_answered (E : Env) (body res : string) (w : World) :
  aask E (llm_calls w) (IS_BUGFIX_PROMPT body) = Ok res ->
  _is_bugfix E body w =
    (Ok (str_in "YES" res), set_llm_calls (S (llm_calls w)) w,
     [EvAsk (IS_BUGFIX_PROMPT body); EvLog (LogIsBugfix res)]).
Proof.
  intros Hask. unfold _is_bugfix. rewrite bind_llm_aask, Hask. reflexivity.
Qed.

Lemma repo_get_found (repo fname body : string) (w : World) :
  files w !! (repo, fname) = Some body ->
  repo_get repo fname w = (Ok (Some (mkDocument repo fname body)), w, [EvRepoGet repo fname]).
Proof. intros H. unfold repo_get. rewrite H. reflexivity. Qed.

(** C1: when the requirement is classified as a bug report, [run] returns the
    message that carries the [BugFixContext], the stored requirement becomes the
    empty string, and the run neither reads nor writes the PRD repository: its
    only interactions are the read of the requirement, the classification and
    the two writes in the docs repository, and every PRD file is left as it
    was. *)
Theorem C1_bug_report_is_rerouted (E : Env) (w : World) (body res : string) :
  files w !! (DOCS_FILE_REPO E, REQUIREMENT_FILENAME E) = Some body ->
  aask E (llm_calls w) (IS_BUGFIX_PROMPT body) = Ok res ->
  str_in "YES" res = true ->
  DOCS_FILE_REPO E <> PRDS_FILE_REPO E ->
  let o := run E w in
  result_of o = Ok (RMessage (bug_fix_message E)) /\
  msg_instruct_content (bug_fix_message E) = mkBugFixContext (BUGFIX_FILENAME E) /\
  files (world_of o) !! (DOCS_FILE_REPO E, REQUIREMENT_FILENAME E) = Some "" /\
  events_of o =
    [EvRepoGet (DOCS_FILE_REPO E) (REQUIREMENT_FILENAME E);
     EvAsk (IS_BUGFIX_PROMPT body); EvLog (LogIsBugfix res);
     EvRepoSave (DOCS_FILE_REPO E) (BUGFIX_FILENAME E) body;
     EvRepoSave (DOCS_FILE_REPO E) (REQUIREMENT_FILENAME E) ""] /\
  (forall ev, ev ∈ events_of o -> repo_of ev <> Some (PRDS_FILE_REPO E)) /\
  (forall fname, files (world_of o) !! (PRDS_FILE_REPO E, fname)
                 = files w !! (PRDS_FILE_REPO E, fname)).
Proof.
  intros Hreq Hask Hyes Hne o.
  assert (Ho : o = (Ok (RMessage (bug_fix_message E)),
                    set_files (<[(DOCS_FILE_REPO E, REQUIREMENT_FILENAME E) := ""]>
                                 (<[(DOCS_FILE_REPO E, BUGFIX_FILENAME E) := body]> (files w)))
                              (set_llm_calls (S (llm_calls w)) w),
                    [EvRepoGet (DOCS_FILE_REPO E) (REQUIREMENT_FILENAME E);
                     EvAsk (IS_BUGFIX_PROMPT body); EvLog (LogIsBugfix res);
                     EvRepoSave (DOCS_FILE_REPO E) (BUGFIX_FILENAME E) body;
                     EvRepoSave (DOCS_FILE_REPO E) (REQUIREMENT_FILENAME E) ""])).
  { subst o. unfold run.
    rewrite (bind_returns _ _ _ _ _ _ (repo_get_found _ _ _ _ Hreq)).
    rewrite (bind_returns _ _ _ _ _ _ (_is_bugfix_answered E body res w Hask)).
    rewrite Hyes. reflexivity. }
  rewrite Ho. cbn [result_of world_of events_of fst snd files set_files].
  split; [reflexivity |]. split; [reflexivity |].
  split; [apply lookup_insert_eq |]. split; [reflexivity |]. split.
  - intros ev Hev. repeat (apply elem_of_cons in Hev as [-> | Hev]);
      try (cbn; congruence). by apply elem_of_nil in Hev.
  - intros fname. rewrite !lookup_insert_ne by congruence. reflexivity.
Qed.

Lemma C1_bug_report_witness :
  let E := sample_env (always "{is_bugfix: YES}") (answers_prd "snake_game") render_ok export_ok in
  let w := sample_world
             (<[("docs/prds", "20231201.json") := "quadrantChart"]>
                (requirement_only "App crashes on login with null pointer")) None None in
  let o := run E w in
  result_of o = Ok (RMessage (bug_fix_message E)) /\
  msg_instruct_content (bug_fix_message E) = mkBugFixContext "bugfix.txt" /\
  files (world_of o) !! ("docs", "requirement.txt") = Some "" /\
  events_of o =
    [EvRepoGet "docs" "requirement.txt";
     EvAsk (IS_BUGFIX_PROMPT "App crashes on login with null pointer");
     EvLog (LogIsBugfix "{is_bugfix: YES}");
     EvRepoSave "docs" "bugfix.txt" "App crashes on login with null pointer";
     EvRepoSave "docs" "requirement.txt" ""] /\
  (forall ev, ev ∈ events_of o -> repo_of ev <> Some "docs/prds") /\
  (forall fname, files (world_of o) !! ("docs/prds", fname)
                 = files w !! ("docs/prds", fname)).
Proof.
  cbv zeta.
  apply (C1_bug_report_is_rerouted
           (sample_env (always "{is_bugfix: YES}") (answers_prd "snake_game") render_ok export_ok)
           _ "App crashes on login with null pointer" "{is_bugfix: YES}").
  - reflexivity.
  - reflexivity.
  - reflexivity.
  - cbn. discriminate.
Defined.

(** ** Frame properties of the helpers *)

Lemma bind_call {A B} (ev : Event) (r : Res A) (f : A -> M B) (w : World) :
  bind (call ev r) f w =
    match r with
    | Ok a => prepend [ev] (f a w)
    | Raise e => (Raise e, w, [ev])
    end.
Proof. unfold bind, call. destruct r; reflexivity. Qed.

Lemma scan_silent_evaluated (evs : list Event) :
  Forall (fun ev => scan_silent ev = true) evs -> evaluated evs = [].
Proof.
  induction 1 as [|ev evs Hev _ IH]; [reflexivity |].
  unfold evaluated in *. cbn. rewrite IH.
  destruct ev as [| | | | | |[]| | | | |]; try reflexivity; discriminate Hev.
Qed.

Lemma scan_silent_related (evs : list Event) :
  Forall (fun ev => scan_silent ev = true) evs -> classified_related evs = [].
Proof.
  induction 1 as [|ev evs Hev _ IH]; [reflexivity |].
  unfold classified_related in *. cbn. rewrite IH.
  destruct ev as [| | | | | |[]| | | | |]; try reflexivity; discriminate Hev.
Qed.

Lemma scan_silent_generations (evs : list Event) :
  Forall (fun ev => scan_silent ev = true) evs -> generations evs = [].
Proof.
  induction 1 as [|ev evs Hev _ IH]; [reflexivity |].
  unfold generations in *. cbn. rewrite IH.
  destruct ev as [| | | | |[]| | | | | |]; try reflexivity; discriminate Hev.
Qed.

Lemma evaluated_app (evs1 evs2 : list Event) :
  evaluated (evs1 ++ evs2) = evaluated evs1 ++ evaluated evs2.
Proof. apply omap_app. Qed.

Lemma classified_related_app (evs1 evs2 : list Event) :
  classified_related (evs1 ++ evs2) = classified_related evs1 ++ classified_related evs2.
Proof. apply omap_app. Qed.

Lemma generations_app (evs1 evs2 : list Event) :
  generations (evs1 ++ evs2) = generations evs1 ++ generations evs2.
Proof. apply omap_app. Qed.

Lemma evaluated_cons (ev : Event) (evs : list Event) :
  evaluated (ev :: evs) =
    match evaluated_prd ev with
    | Some p => p :: evaluated evs
    | None => evaluated evs
    end.
Proof. unfold evaluated. cbn. destruct (evaluated_prd ev); reflexivity. Qed.

Lemma classified_related_cons (ev : Event) (evs : list Event) :
  classified_related (ev :: evs) =
    match related_prd ev with
    | Some p => p :: classified_related evs
    | None => classified_related evs
    end.
Proof. unfold classified_related. cbn. destruct (related_prd ev); reflexivity. Qed.

Lemma generations_cons (ev : Event) (evs : list Event) :
  generations (ev :: evs) =
    match generation_call ev with
    | Some p => p :: generations evs
    | None => generations evs
    end.
Proof. unfold generations. cbn. destruct (generation_call ev); reflexivity. Qed.

Lemma unhandled_nil {A} (E : Env) (r : Res A) : unhandled E r [].
Proof. intros ev e Hev. by apply elem_of_nil in Hev. Qed.

Lemma unhandled_app {A B} (E : Env) (a : A) (r : Res B) (evs1 evs2 : list Event) :
  unhandled E (Ok a) evs1 -> unhandled E r evs2 -> unhandled E r (evs1 ++ evs2).
Proof.
  intros H1 H2 ev e Hev Hfail. apply elem_of_app in Hev as [Hev | Hev].
  - specialize (H1 ev e Hev Hfail). discriminate H1.
  - exact (H2 ev e Hev Hfail).
Qed.

Lemma unhandled_quiet {A} (E : Env) (r : Res A) (evs : list Event) :
  Forall (fun ev => side_effect_failure E ev = None) evs -> unhandled E r evs.
Proof.
  intros Hq ev e Hev Hfail. rewrite Forall_forall in Hq.
  rewrite (Hq ev Hev) in Hfail. discriminate Hfail.
Qed.

Lemma unhandled_retype {A B} (E : Env) (r : Res A) (r' : Res B) (evs : list Event) :
  raised r = raised r' -> unhandled E r evs -> unhandled E r' evs.
Proof. intros Heq H ev e Hev Hfail. rewrite <- Heq. exact (H ev e Hev Hfail). Qed.

(** What [_rename_workspace] leaves alone: the files, the filename counter;
    and all it does outside CONFIG is at most one [rename_root]. *)
Lemma _rename_workspace_frame (E : Env) (prd : PrdAnswer) (w : World) :
  let o := _rename_workspace E prd w in
  files (world_of o) = files w /\
  filenames_issued (world_of o) = filenames_issued w /\
  (events_of o = [] \/ exists n, events_of o = [EvRenameRoot n]).
Proof.
  cbv zeta.
  destruct (truthy (project_path w) && negb (truthy (project_name w))) eqn:Hc.
  - apply andb_true_iff in Hc as [Hp Hn]. apply negb_true_iff in Hn.
    apply truthy_Some in Hp as (p & Hp & Ht).
    rewrite (_rename_workspace_from_path E prd w p Hp Ht Hn). cbn. auto.
  - rewrite (_rename_workspace_tail E prd w Hc).
    destruct (truthy (project_name w)) eqn:Hn.
    + apply truthy_Some in Hn as (n & Hn & Ht).
      rewrite (bind_name_and_rename_bound E prd w n Hn Ht). cbn. eauto.
    + destruct (ws_name_of E prd) as [ws_name|e] eqn:Hws.
      * rewrite (bind_name_and_rename_unbound E prd w ws_name Hn Hws). cbn. eauto.
      * rewrite (bind_name_and_rename_unparsed E prd w e Hn Hws). cbn. auto.
Qed.

Lemma rename_events_silent (evs : list Event) :
  (evs = [] \/ exists n, evs = [EvRenameRoot n]) ->
  Forall (fun ev => scan_silent ev = true) evs /\
  forall E, Forall (fun ev => side_effect_failure E ev = None) evs.
Proof.
  intros [-> | [n ->]]; split; try intros E; repeat constructor.
Qed.

Ltac run_step :=
  first
    [ rewrite bind_assoc | rewrite bind_get_world | rewrite bind_ret
    | rewrite bind_modify | rewrite bind_emit | rewrite bind_lift
    | rewrite bind_call | rewrite bind_llm_aask | rewrite bind_llm_aask_v1
    | rewrite prepend_nil | rewrite prepend_prepend ].

Ltac split_outcome :=
  match goal with
  | |- context [match ?r with Ok _ => _ | Raise _ => _ end] => destruct r eqn:?
  | |- context [match ?o with Some _ => _ | None => _ end] => destruct o eqn:?
  | |- context [if ?b then _ else _] => destruct b eqn:?
  end.

(** The diagram step is skipped, with no interaction at all, when the stored
    PRD has no chart field or an empty one. *)
Lemma _save_competitive_analysis_skips (E : Env) (doc : Document) (w : World)
      (m : JValue) (field : option JValue) :
  json_loads E (content doc) = Ok m ->
  dict_get m "Competitive Quadrant Chart" = Ok field ->
  (field = None \/ exists chart, field = Some chart /\ jtruthy chart = false) ->
  _save_competitive_analysis E doc w = (Ok tt, w, []).
Proof.
  intros Hm Hget Hfield. unfold _save_competitive_analysis.
  rewrite bind_lift, Hm, bind_lift, Hget.
  destruct Hfield as [-> | (chart & -> & Hfalsy)]; [reflexivity |].
  rewrite Hfalsy. reflexivity.
Qed.

Lemma bind_path_exists {B} (p : Pathlib.PurePath) (f : bool -> M B) (w : World) :
  bind (path_exists p) f w = f (bool_decide (Pathlib.to_str p ∈ dirs w)) w.
Proof. unfold bind, path_exists. apply prepend_nil. Qed.

Ltac side_effect_leaf :=
  unfold side_effect_frame; cbn;
  repeat split; try reflexivity; repeat constructor;
  let Hev := fresh "Hev" in
  let Hfail := fresh "Hfail" in
  intros ? ? Hev Hfail;
  repeat (apply elem_of_cons in Hev as [-> | Hev]);
  try (by apply elem_of_nil in Hev);
  cbn in Hfail;
  repeat match type of Hfail with
         | context [match ?x with Ok _ => _ | Raise _ => _ end] =>
             match goal with H : x = _ |- _ => rewrite H in Hfail end
         end;
  cbn; congruence.

Lemma _save_competitive_analysis_frame (E : Env) (doc : Document) (w : World) :
  side_effect_frame E w (_save_competitive_analysis E doc w).
Proof.
  unfold _save_competitive_analysis, path_mkdir.
  repeat (repeat (first [run_step | rewrite bind_path_exists]); try split_outcome);
    side_effect_leaf.
Qed.

Lemma _save_pdf_frame (E : Env) (doc : Document) (w : World) :
  side_effect_frame E w (_save_pdf E doc w).
Proof.
  unfold _save_pdf, call.
  destruct (save_as E doc ".md" (PRD_PDF_FILE_REPO E)) eqn:Hsave; side_effect_leaf.
Qed.

Lemma _merge_frame (E : Env) (req old : Document) (w : World) :
  merge_frame E old w (_merge E req old w).
Proof.
  unfold _merge, bind_name_from_path.
  rewrite bind_assoc, bind_get_world.
  assert (Hleaf : forall (w0 : World) (n : string),
             files w0 = files w -> filenames_issued w0 = filenames_issued w ->
             merge_frame E old w
               (bind (llm_aask_v1 E (MERGE_PROMPT (content req) (content old) n) (prompt_format E))
                     (fun prd =>
                        _rename_workspace E (Structured prd) ;;
                        ret (mkDocument (root_path old) (filename old)
                                        (prd_json E (instruct_content prd)))) w0)).
  { intros w0 n Hfiles Hissued. rewrite bind_llm_aask_v1.
    destruct (aask_v1 E (llm_calls w0) _ (prompt_format E)) as [prd|e].
    - set (w1 := set_llm_calls (S (llm_calls w0)) w0).
      pose proof (_rename_workspace_frame E (Structured prd) w1) as (Hf & Hi & Hevs).
      apply rename_events_silent in Hevs as [Hsilent Hquiet]. specialize (Hquiet E).
      destruct (_rename_workspace E (Structured prd) w1) as [[[[]|e] w2] evs] eqn:Hrw;
        [rewrite (bind_returns _ _ _ _ _ _ Hrw) | rewrite (bind_raises _ _ _ _ _ _ Hrw)];
        unfold merge_frame; cbn in *;
        (split; [congruence |]); (split; [congruence |]);
        (split; [try rewrite app_nil_r; by repeat constructor |]);
        (split; [try rewrite app_nil_r; by repeat constructor |]);
        intros d Hd; inversion Hd; subst; split; reflexivity.
    - unfold merge_frame. cbn.
      split; [done |]. split; [done |].
      split; [by repeat constructor |]. split; [by repeat constructor |].
      intros d Hd. discriminate Hd. }
  destruct (negb (truthy (project_name w))).
  - destruct (project_path w) as [p|].
    + rewrite bind_modify, bind_get_world. apply Hleaf; reflexivity.
    + unfold merge_frame. cbn.
      split; [done |]. split; [done |].
      split; [by repeat constructor |]. split; [by repeat constructor |].
      intros d Hd. discriminate Hd.
  - rewrite bind_ret, bind_get_world. apply Hleaf; reflexivity.
Qed.

Lemma _is_relative_to_answered (E : Env) (req old : Document) (w : World) (res : string) :
  aask E (llm_calls w) (IS_RELATIVE_PROMPT (content old) (content req)) = Ok res ->
  _is_relative_to E req old w =
    (Ok (str_in "YES" res), set_llm_calls (S (llm_calls w)) w,
     [EvAsk (IS_RELATIVE_PROMPT (content old) (content req));
      EvLog (LogReqRelative (root_relative_path req) (root_relative_path old) res)]).
Proof.
  intros Hask. unfold _is_relative_to. rewrite bind_llm_aask, Hask. reflexivity.
Qed.

Lemma _is_relative_to_failed (E : Env) (req old : Document) (w : World) (e : Exn) :
  aask E (llm_calls w) (IS_RELATIVE_PROMPT (content old) (content req)) = Raise e ->
  _is_relative_to E req old w =
    (Raise e, set_llm_calls (S (llm_calls w)) w,
     [EvAsk (IS_RELATIVE_PROMPT (content old) (content req))]).
Proof.
  intros Hask. unfold _is_relative_to. rewrite bind_llm_aask, Hask. reflexivity.
Qed.

Lemma no_verdict_evaluated (evs : list Event) :
  Forall (fun ev => evaluated_prd ev = None) evs -> evaluated evs = [].
Proof.
  induction 1 as [|ev evs Hev _ IH]; [reflexivity |].
  unfold evaluated in *. cbn. rewrite Hev. exact IH.
Qed.

Lemma no_verdict_related (evs : list Event) :
  Forall (fun ev => evaluated_prd ev = None) evs -> classified_related evs = [].
Proof.
  induction 1 as [|ev evs Hev _ IH]; [reflexivity |].
  unfold classified_related in *. cbn. rewrite IH.
  destruct ev as [| | | | | |[]| | | | |]; try reflexivity; discriminate Hev.
Qed.

Lemma scan_silent_no_verdict (evs : list Event) :
  Forall (fun ev => scan_silent ev = true) evs ->
  Forall (fun ev => evaluated_prd ev = None) evs.
Proof.
  intros H. eapply Forall_impl; [exact H |]. intros ev Hev.
  destruct ev as [| | | | | |[]| | | | |]; try reflexivity; discriminate Hev.
Qed.

Lemma _run_new_requirement_frame (E : Env) (requirements : list string) (w : World) :
  generation_frame E w (_run_new_requirement E requirements w).
Proof.
  unfold _run_new_requirement.
  assert (Hleaf : forall (logged : list Event),
             Forall (fun ev => scan_silent ev = true) logged ->
             Forall (fun ev => side_effect_failure E ev = None) logged ->
             generation_frame E w
               (prepend logged
                  ((tpl <- lift (get_template E (prompt_format E)) ;;
                    w0 <- get_world ;;
                    prd <- llm_aask_v1 E
                             (PRD_PROMPT tpl requirements (sas_result E)
                                (if truthy (project_name w0)
                                 then default "" (project_name w0) else ""))
                             (prompt_format E) ;;
                    _rename_workspace E (Structured prd) ;;
                    ret prd) w))).
  { intros logged Hlog1 Hlog2.
    apply scan_silent_no_verdict in Hlog1 as Hlog3.
    assert (Hgen : generations logged = []) by (by apply scan_silent_generations).
    rewrite bind_lift.
    destruct (get_template E (prompt_format E)) as [tpl|e].
    - rewrite bind_get_world, bind_llm_aask_v1.
      destruct (aask_v1 E (llm_calls w) _ (prompt_format E)) as [prd|e].
      + set (w1 := set_llm_calls (S (llm_calls w)) w).
        pose proof (_rename_workspace_frame E (Structured prd) w1) as (Hf & Hi & Hevs).
        apply rename_events_silent in Hevs as [Hsilent Hquiet]. specialize (Hquiet E).
        apply scan_silent_generations in Hsilent as Hgen2.
        apply scan_silent_no_verdict in Hsilent.
        destruct (_rename_workspace E (Structured prd) w1) as [[[[]|e] w2] evs] eqn:Hrw;
          [rewrite (bind_returns _ _ _ _ _ _ Hrw) | rewrite (bind_raises _ _ _ _ _ _ Hrw)];
          unfold generation_frame; cbn in *;
          (split; [congruence |]); (split; [congruence |]);
          (split; [apply Forall_app; split; [done |];
                   try rewrite app_nil_r; by repeat constructor |]);
          (split; [apply Forall_app; split; [done |];
                   try rewrite app_nil_r; by repeat constructor |]).
        * intros prd' _.
          rewrite app_nil_r, generations_app, Hgen, generations_cons, Hgen2.
          reflexivity.
        * intros prd' Hd. discriminate Hd.
      + unfold generation_frame. cbn.
        split; [done |]. split; [done |].
        split; [apply Forall_app; split; [done | by repeat constructor] |].
        split; [apply Forall_app; split; [done | by repeat constructor] |].
        intros prd Hd. discriminate Hd.
    - unfold generation_frame. cbn. rewrite app_nil_r.
      split; [done |]. split; [done |]. split; [done |]. split; [done |].
      intros prd Hd. discriminate Hd. }
  destruct (str_truthy (sas_result E)).
  - rewrite !bind_assoc. unfold log. rewrite bind_emit, bind_emit, prepend_prepend.
    apply Hleaf; repeat constructor.
  - rewrite bind_ret. rewrite <- (prepend_nil (bind _ _ w)). apply Hleaf; constructor.
Qed.

Lemma bind_repo_save {B} (repo fname body : string) (f : unit -> M B) (w : World) :
  bind (repo_save repo fname body) f w =
    prepend [EvRepoSave repo fname body]
            (f tt (set_files (<[(repo, fname) := body]> (files w)) w)).
Proof. reflexivity. Qed.

Lemma bind_repo_delete {B} (repo fname : string) (f : unit -> M B) (w : World) :
  bind (repo_delete repo fname) f w =
    prepend [EvRepoDelete repo fname] (f tt (set_files (delete (repo, fname) (files w)) w)).
Proof. reflexivity. Qed.

Lemma bind_repo_get_all {B} (repo : string) (f : list Document -> M B) (w : World) :
  bind (repo_get_all repo) f w = prepend [EvRepoGetAll repo] (f (docs_in repo (files w)) w).
Proof. reflexivity. Qed.

Lemma persist_frame (E : Env) (doc : Document) (w : World) :
  persist_spec E doc w
    ((repo_save (PRDS_FILE_REPO E) (filename doc) (content doc) ;;
      _save_competitive_analysis E doc ;;
      _save_pdf E doc ;;
      ret (Some doc)) w).
Proof.
  rewrite bind_repo_save.
  set (w1 := set_files _ w).
  pose proof (_save_competitive_analysis_frame E doc w1) as (Hf1 & Hi1 & Hs1 & Hu1).
  destruct (_save_competitive_analysis E doc w1) as [[[[]|e1] w2] evs1] eqn:Hsca.
  - rewrite (bind_returns _ _ _ _ _ _ Hsca).
    pose proof (_save_pdf_frame E doc w2) as (Hf2 & Hi2 & Hs2 & Hu2).
    destruct (_save_pdf E doc w2) as [[[[]|e2] w3] evs2] eqn:Hpdf.
    + rewrite (bind_returns _ _ _ _ _ _ Hpdf). unfold persist_spec; cbn in *.
      rewrite app_nil_r.
      split; [congruence |]. split; [congruence |].
      split; [constructor; [done | by apply Forall_app] |].
      split; [| congruence].
      apply (unhandled_app E tt _ [_]); [by apply unhandled_quiet; repeat constructor |].
      by apply (unhandled_app E tt).
    + rewrite (bind_raises _ _ _ _ _ _ Hpdf). unfold persist_spec; cbn in *.
      split; [congruence |]. split; [congruence |].
      split; [constructor; [done | by apply Forall_app] |].
      split; [| discriminate].
      apply (unhandled_app E tt _ [_]); [by apply unhandled_quiet; repeat constructor |].
      apply (unhandled_app E tt); [done |].
      by apply (unhandled_retype E (Raise e2 : Res unit)).
  - rewrite (bind_raises _ _ _ _ _ _ Hsca). unfold persist_spec; cbn in *.
    split; [congruence |]. split; [congruence |].
    split; [by constructor |].
    split; [| discriminate].
    apply (unhandled_app E tt _ [_]); [by apply unhandled_quiet; repeat constructor |].
    by apply (unhandled_retype E (Raise e1 : Res unit)).
Qed.

(** ** [_update_prd] *)

Lemma _update_prd_existing (E : Env) (req old : Document) (w : World) :
  update_existing_spec E old w (_update_prd E req (Some old) w).
Proof.
  unfold _update_prd. cbv beta iota. rewrite bind_assoc.
  destruct (aask E (llm_calls w) (IS_RELATIVE_PROMPT (content old) (content req)))
    as [res|e] eqn:Hask.
  2: { rewrite (bind_raises _ _ _ _ _ _ (_is_relative_to_failed E req old w e Hask)).
       unfold update_existing_spec. cbn.
       split; [by apply unhandled_quiet; repeat constructor |].
       split; [done |]. split; [done |]. split; [done |].
       rewrite evaluated_cons. cbn. apply prefix_nil. }
  rewrite (bind_returns _ _ _ _ _ _ (_is_relative_to_answered E req old w res Hask)).
  set (w1 := set_llm_calls (S (llm_calls w)) w).
  set (verdict := [EvAsk _; EvLog _]).
  assert (Hquiet : forall A (a : A), unhandled E (Ok a) verdict)
    by (intros; apply unhandled_quiet; repeat constructor).
  destruct (str_in "YES" res) eqn:Hyes.
  - rewrite bind_assoc.
    pose proof (_merge_frame E req old w1) as (Hf & Hi & Hs & Hq & Hd).
    destruct (_merge E req old w1) as [[[d|e] w2] evs] eqn:Hmerge.
    + rewrite (bind_returns _ _ _ _ _ _ Hmerge), bind_ret.
      destruct (Hd d eq_refl) as [Hroot Hname].
      pose proof (persist_frame E d w2) as (Hpf & Hpi & Hps & Hpu & Hpr).
      destruct (bind (repo_save _ _ _) _ w2) as [[r w3] evs3].
      unfold update_existing_spec. cbn in *.
      assert (Hfiles : files w3 = <[(PRDS_FILE_REPO E, filename old) := content d]> (files w))
        by (rewrite Hpf, Hname, Hf; reflexivity).
      split; [apply (unhandled_app E tt _ [_; _]); [apply Hquiet |];
              apply (unhandled_app E tt); [by apply unhandled_quiet | done] |].
      split; [rewrite !generations_cons, generations_app,
                !scan_silent_generations by done; reflexivity |].
      split; [congruence |].
      split; [intros k Hk; rewrite Hfiles; by apply lookup_insert_ne |].
      destruct r as [[d'|]|e].
      * specialize (Hpr _ eq_refl). injection Hpr as ->.
        rewrite !evaluated_cons, !classified_related_cons,
          evaluated_app, classified_related_app,
          !scan_silent_evaluated, !scan_silent_related by done.
        cbn. rewrite Hyes. done.
      * specialize (Hpr _ eq_refl). discriminate Hpr.
      * rewrite !evaluated_cons, evaluated_app, !scan_silent_evaluated by done. done.
    + rewrite (bind_raises _ _ _ _ _ _ Hmerge).
      unfold update_existing_spec. cbn in *.
      split; [apply (unhandled_app E tt _ [_; _]); [apply Hquiet |];
              by apply unhandled_quiet |].
      split; [by rewrite !generations_cons, scan_silent_generations |].
      split; [congruence |].
      split; [intros k _; by rewrite Hf |].
      rewrite !evaluated_cons, scan_silent_evaluated by done. done.
  - rewrite bind_ret. unfold update_existing_spec. cbn.
    rewrite !evaluated_cons, !classified_related_cons, !generations_cons. cbn.
    rewrite Hyes. split; [apply Hquiet |]. done.
Qed.

Lemma bind_fresh_filename (E : Env) {B} (f : string -> M B) (w : World) :
  bind (fresh_filename E) f w =
    prepend [EvNewFilename (new_filename E (filenames_issued w))]
            (f (new_filename E (filenames_issued w))
               (set_filenames_issued (S (filenames_issued w)) w)).
Proof. reflexivity. Qed.

Lemma _update_prd_new (E : Env) (req : Document) (w : World) :
  update_new_spec E w (_update_prd E req None w).
Proof.
  unfold _update_prd. cbv beta iota. rewrite bind_assoc.
  pose proof (_run_new_requirement_frame E [content req] w) as (Hf & Hi & Hv & Hq & Hg).
  destruct (_run_new_requirement E [content req] w) as [[[prd|e] w1] evs] eqn:Hrun.
  2: { rewrite (bind_raises _ _ _ _ _ _ Hrun). unfold update_new_spec. cbn in *.
       split; [by apply unhandled_quiet |].
       split; [by apply no_verdict_evaluated |].
       split; [by apply no_verdict_related | exact I]. }
  rewrite (bind_returns _ _ _ _ _ _ Hrun), bind_assoc, bind_fresh_filename, bind_ret.
  cbv beta iota. cbn in Hf, Hi, Hv, Hq, Hg. specialize (Hg prd eq_refl).
  set (d := mkDocument _ _ _).
  set (w2 := set_filenames_issued _ w1).
  pose proof (persist_frame E d w2) as (Hpf & Hpi & Hps & Hpu & Hpr).
  change (filename d) with (new_filename E (filenames_issued w1) +:+ ".json") in *.
  change (content d) with (prd_json E (instruct_content prd)) in *.
  destruct (bind (repo_save _ _ _) _ w2) as [[r w3] evs3].
  unfold update_new_spec. cbn in *.
  apply scan_silent_no_verdict in Hps as Hpv.
  split; [apply (unhandled_app E tt); [by apply unhandled_quiet |];
          apply (unhandled_app E tt _ [_]); [by apply unhandled_quiet; repeat constructor | done] |].
  split; [by rewrite evaluated_app, evaluated_cons, (no_verdict_evaluated evs),
             (no_verdict_evaluated evs3) |].
  split; [by rewrite classified_related_app, classified_related_cons,
             (no_verdict_related evs), (no_verdict_related evs3) |].
  destruct r as [r|e]; [| exact I].
  specialize (Hpr _ eq_refl). subst r. exists d.
  split; [reflexivity |]. split; [reflexivity |].
  split; [cbn; by rewrite Hi |].
  split; [cbn; rewrite Hpf, Hi; cbn; by rewrite Hf |].
  rewrite generations_app, length_app, Hg, generations_cons.
  by rewrite (scan_silent_generations evs3).
Qed.

(** ** The scan over the existing PRDs *)

Lemma scan_prds_cons (E : Env) (req old : Document) (rest : list Document)
      (cs : gmap string Document) (w : World) :
  scan_prds E req (old :: rest) cs w =
    bind (_update_prd E req (Some old))
         (fun updated =>
            match updated with
            | None => scan_prds E req rest cs
            | Some doc =>
                log (LogRewritePrd (filename doc)) ;;
                scan_prds E req rest (<[filename doc := doc]> cs)
            end) w.
Proof. reflexivity. Qed.

Lemma scan_prds_spec (E : Env) (req : Document) (docs : list Document) :
  forall (cs : gmap string Document) (w : World),
    scan_spec E docs cs w (scan_prds E req docs cs w).
Proof.
  induction docs as [|old rest IH]; intros cs w.
  - unfold scan_spec. cbn. split; [apply unhandled_nil |]. split; [done |]. split; [done |].
    exists []. done.
  - rewrite scan_prds_cons.
    pose proof (_update_prd_existing E req old w) as (Hu & Hg & Hi & Hk & Hres).
    destruct (_update_prd E req (Some old) w) as [[[[d|]|e] w1] evs] eqn:Hupd;
      cbn in Hu, Hg, Hi, Hk, Hres.
    + rewrite (bind_returns _ _ _ _ _ _ Hupd). unfold log. rewrite bind_emit, prepend_prepend.
      destruct Hres as (Hev & Hrel & Hroot & Hname & Hfiles).
      specialize (IH (<[filename d := d]> cs) w1) as (Hu2 & Hg2 & Hi2 & Hres2).
      destruct (scan_prds E req rest _ w1) as [[r w2] evs2].
      unfold scan_spec. cbn in *.
      assert (Hu' : unhandled E r ((evs ++ [EvLog (LogRewritePrd (filename d))]) ++ evs2)).
      { apply (unhandled_app E tt); [| done].
        apply (unhandled_app E tt); [by eapply unhandled_retype |].
        apply unhandled_quiet. by repeat constructor. }
      split; [done |].
      split; [by rewrite !generations_app, Hg, Hg2 |].
      split; [congruence |].
      destruct r as [cs'|e]; [| exact I].
      destruct Hres2 as (merged & -> & Hfiles2 & Hev2 & Hrel2 & Hsub).
      assert (Hrrp : root_relative_path d = root_relative_path old)
        by (unfold root_relative_path; by rewrite Hroot, Hname).
      exists (d :: merged).
      split; [reflexivity |].
      split; [rewrite Hfiles2, Hfiles, <- Hname; reflexivity |].
      split; [by rewrite !evaluated_app, Hev, Hev2 |].
      split; [rewrite !classified_related_app, Hrel, Hrel2; cbn; by rewrite Hrrp |].
      cbn. unfold doc_key at 1 3. rewrite Hroot, Hname. by apply sublist_skip.
    + rewrite (bind_returns _ _ _ _ _ _ Hupd).
      destruct Hres as (Hev & Hrel & Hfiles).
      specialize (IH cs w1) as (Hu2 & Hg2 & Hi2 & Hres2).
      destruct (scan_prds E req rest cs w1) as [[r w2] evs2].
      unfold scan_spec. cbn in *.
      split; [apply (unhandled_app E tt); [by eapply unhandled_retype | done] |].
      split; [by rewrite !generations_app, Hg, Hg2 |].
      split; [congruence |].
      destruct r as [cs'|e]; [| exact I].
      destruct Hres2 as (merged & -> & Hfiles2 & Hev2 & Hrel2 & Hsub).
      exists merged.
      split; [reflexivity |].
      split; [by rewrite Hfiles2, Hfiles |].
      split; [by rewrite !evaluated_app, Hev, Hev2 |].
      split; [by rewrite !classified_related_app, Hrel, Hrel2 |].
      cbn. by apply sublist_cons.
    + rewrite (bind_raises _ _ _ _ _ _ Hupd). unfold scan_spec. cbn.
      split; [by eapply unhandled_retype |]. done.
Qed.

(** ** The documents of a repository, the change set, the written files *)

Lemma docs_in_elem (repo : string) (fs : gmap (string * string) string) (d : Document) :
  d ∈ docs_in repo fs -> root_path d = repo /\ fs !! (repo, filename d) = Some (content d).
Proof.
  unfold docs_in. intros Hd. apply list_elem_of_omap in Hd as ([[r f] c] & Hin & Hdoc).
  unfold doc_of_entry in Hdoc. cbn in Hdoc. case_decide; [| discriminate].
  injection Hdoc as <-. subst r. cbn. split; [reflexivity |].
  by apply elem_of_map_to_list.
Qed.

Lemma doc_entries_NoDup (repo : string) (entries : list (string * string * string)) :
  NoDup entries.*1 -> NoDup (filename <$> omap (doc_of_entry repo) entries).
Proof.
  induction entries as [|[[r f] c] rest IH]; intros Hnd; [constructor |].
  cbn in Hnd. apply NoDup_cons in Hnd as [Hnotin Hnd]. cbn.
  unfold doc_of_entry at 1. cbn. case_decide; [| by apply IH].
  subst r. cbn. apply NoDup_cons. split; [| by apply IH].
  intros Hin. apply Hnotin.
  apply list_elem_of_fmap in Hin as (d & Hf & Hd).
  apply list_elem_of_omap in Hd as ([[r' f'] c'] & Hin' & Hdoc).
  unfold doc_of_entry in Hdoc. cbn in Hdoc. case_decide; [| discriminate].
  injection Hdoc as <-. cbn in Hf. subst.
  apply list_elem_of_fmap. by exists (repo, f', c').
Qed.

Lemma docs_in_NoDup (repo : string) (fs : gmap (string * string) string) :
  NoDup (filename <$> docs_in repo fs).
Proof. apply doc_entries_NoDup, NoDup_fst_map_to_list. Qed.

Lemma record_all_lookup_other (merged : list Document) (cs : gmap string Document) (k : string) :
  k ∉ filename <$> merged -> record_all cs merged !! k = cs !! k.
Proof.
  revert cs. induction merged as [|d rest IH]; intros cs Hk; [reflexivity |].
  cbn in Hk. apply not_elem_of_cons in Hk as [Hne Hk].
  unfold record_all in *. cbn. rewrite IH by done. by apply lookup_insert_ne.
Qed.

Lemma record_all_to_list (merged : list Document) (cs : gmap string Document) :
  NoDup (filename <$> merged) ->
  (forall d, d ∈ merged -> cs !! filename d = None) ->
  map_to_list (record_all cs merged) ≡ₚ ((fun d => (filename d, d)) <$> merged) ++ map_to_list cs.
Proof.
  revert cs. induction merged as [|d rest IH]; intros cs Hnd Hfresh; [reflexivity |].
  cbn in Hnd. apply NoDup_cons in Hnd as [Hnotin Hnd].
  unfold record_all in *. cbn.
  rewrite IH.
  - rewrite map_to_list_insert by (apply Hfresh; left).
    by rewrite Permutation_middle.
  - done.
  - intros d' Hd'. rewrite lookup_insert_ne.
    + apply Hfresh. by right.
    + intros Heq. apply Hnotin. rewrite Heq. by apply list_elem_of_fmap_2.
Qed.

Lemma record_all_empty (merged : list Document) (cs : gmap string Document) :
  record_all cs merged = ∅ -> merged = [] /\ cs = ∅.
Proof.
  revert cs. induction merged as [|d rest IH]; intros cs Hempty; [done |].
  unfold record_all in *. cbn in Hempty. apply IH in Hempty as [_ Hcs].
  by apply insert_non_empty in Hcs.
Qed.

Lemma write_all_lookup_other (repo : string) (merged : list Document)
      (fs : gmap (string * string) string) (k : string * string) :
  k ∉ (fun d => (repo, filename d)) <$> merged -> write_all repo fs merged !! k = fs !! k.
Proof.
  revert fs. induction merged as [|d rest IH]; intros fs Hk; [reflexivity |].
  cbn in Hk. apply not_elem_of_cons in Hk as [Hne Hk].
  unfold write_all in *. cbn. rewrite IH by done. by apply lookup_insert_ne.
Qed.

Lemma write_all_lookup (repo : string) (merged : list Document)
      (fs : gmap (string * string) string) (d : Document) :
  NoDup (filename <$> merged) -> d ∈ merged ->
  write_all repo fs merged !! (repo, filename d) = Some (content d).
Proof.
  revert fs. induction merged as [|d' rest IH]; intros fs Hnd Hd.
  - by apply elem_of_nil in Hd.
  - cbn in Hnd. apply NoDup_cons in Hnd as [Hnotin Hnd].
    apply elem_of_cons in Hd as [-> | Hd].
    + unfold write_all. cbn. fold (write_all repo (<[(repo, filename d') := content d']> fs) rest).
      rewrite write_all_lookup_other; [apply lookup_insert_eq |].
      intros Hin. apply Hnotin.
      apply list_elem_of_fmap in Hin as (d2 & Heq & Hd2). injection Heq as Heq.
      rewrite Heq. by apply list_elem_of_fmap_2.
    + unfold write_all in *. cbn. by apply IH.
Qed.

(** ** The generation branch and the whole run *)

Lemma generate_if_unchanged_spec (E : Env) (req : Document) (cs : gmap string Document)
      (w : World) :
  generate_spec E cs w (generate_if_unchanged E req cs w).
Proof.
  unfold generate_if_unchanged, generate_spec.
  destruct (bool_decide (cs = ∅)) eqn:Hempty.
  - apply bool_decide_eq_true in Hempty as ->.
    pose proof (_update_prd_new E req w) as (Hu & Hev & Hrel & Hres).
    destruct (_update_prd E req None w) as [[[r|e] w1] evs] eqn:Hupd; cbn in Hu, Hev, Hrel, Hres.
    + rewrite (bind_returns _ _ _ _ _ _ Hupd).
      destruct Hres as (d & -> & Hroot & Hname & Hfiles & Hgen).
      unfold log. rewrite bind_emit. cbn.
      split; [apply (unhandled_app E tt); [by eapply unhandled_retype |];
              apply unhandled_quiet; by repeat constructor |].
      split; [by rewrite evaluated_app, Hev |].
      split; [by rewrite classified_related_app, Hrel |].
      exists d. split; [reflexivity |]. split; [done |]. split; [done |]. split; [done |].
      by rewrite generations_app, length_app, Hgen.
    + rewrite (bind_raises _ _ _ _ _ _ Hupd). cbn.
      split; [by eapply unhandled_retype | done].
  - cbn. split; [apply unhandled_nil | done].
Qed.

Lemma bind_repo_get {B} (repo fname : string) (f : option Document -> M B) (w : World) :
  bind (repo_get repo fname) f w =
    prepend [EvRepoGet repo fname] (f (mkDocument repo fname <$> files w !! (repo, fname)) w).
Proof. reflexivity. Qed.

Lemma _is_bugfix_failed (E : Env) (body : string) (w : World) (e : Exn) :
  aask E (llm_calls w) (IS_BUGFIX_PROMPT body) = Raise e ->
  _is_bugfix E body w =
    (Raise e, set_llm_calls (S (llm_calls w)) w, [EvAsk (IS_BUGFIX_PROMPT body)]).
Proof.
  intros Hask. unfold _is_bugfix. rewrite bind_llm_aask, Hask. reflexivity.
Qed.

Lemma run_satisfies_spec (E : Env) (w : World) : run_spec E w (run E w).
Proof.
  unfold run. rewrite bind_repo_get.
  destruct (files w !! (DOCS_FILE_REPO E, REQUIREMENT_FILENAME E)) as [body|] eqn:Hreq;
    cbn [fmap option_fmap option_map].
  2: { unfold run_spec. cbn. split; [| exact I].
       apply unhandled_quiet. by repeat constructor. }
  set (req := mkDocument _ _ body).
  destruct (aask E (llm_calls w) (IS_BUGFIX_PROMPT body)) as [res|e] eqn:Hask.
  2: { rewrite (bind_raises _ _ _ _ _ _ (_is_bugfix_failed E body w e Hask)).
       unfold run_spec. cbn. split; [| exact I].
       apply unhandled_quiet. by repeat constructor. }
  rewrite (bind_returns _ _ _ _ _ _ (_is_bugfix_answered E body res w Hask)).
  destruct (str_in "YES" res).
  { unfold run_spec. cbn. split; [| exact I].
    apply unhandled_quiet. by repeat constructor. }
  rewrite bind_repo_delete, bind_repo_get_all, !prepend_prepend.
  set (w0 := set_files _ _).
  set (prefix := (_ ++ _) ++ _).
  assert (Hsilent : Forall (fun ev => scan_silent ev = true) prefix) by (by repeat constructor).
  assert (Hquiet : forall A (a : A), unhandled E (Ok a) prefix)
    by (intros; apply unhandled_quiet; by repeat constructor).
  clearbody prefix.
  change (docs_in (PRDS_FILE_REPO E) (files w0)) with (existing_prds E w).
  pose proof (scan_prds_spec E req (existing_prds E w) ∅ w0) as (Hu & Hg & Hi & Hres).
  destruct (scan_prds E req (existing_prds E w) ∅ w0) as [[[scanned|e] w1] evs] eqn:Hscan;
    cbn in Hu, Hg, Hi, Hres.
  2: { rewrite (bind_raises _ _ _ _ _ _ Hscan). unfold run_spec. cbn. split; [| exact I].
       apply (unhandled_app E tt); [apply Hquiet | by eapply unhandled_retype]. }
  rewrite (bind_returns _ _ _ _ _ _ Hscan).
  destruct Hres as (merged & -> & Hfiles & Hev & Hrel & Hsub).
  pose proof (generate_if_unchanged_spec E req (record_all ∅ merged) w1)
    as (Hu2 & Hev2 & Hrel2 & Hres2).
  destruct (generate_if_unchanged E req (record_all ∅ merged) w1)
    as [[[cs|e] w2] evs2] eqn:Hgen; cbn in Hu2, Hev2, Hrel2, Hres2.
  2: { rewrite (bind_raises _ _ _ _ _ _ Hgen). unfold run_spec. cbn. split; [| exact I].
       apply (unhandled_app E tt); [apply Hquiet |].
       apply (unhandled_app E tt); [by eapply unhandled_retype | by eapply unhandled_retype]. }
  rewrite (bind_returns _ _ _ _ _ _ Hgen). unfold run_spec, ret. cbn. rewrite app_nil_r.
  split.
  { apply (unhandled_app E tt); [apply Hquiet |].
    apply (unhandled_app E tt); [by eapply unhandled_retype | by eapply unhandled_retype]. }
  exists merged.
  split; [by rewrite !evaluated_app, (scan_silent_evaluated prefix), Hev, Hev2, app_nil_r |].
  split; [by rewrite !classified_related_app, (scan_silent_related prefix), Hrel, Hrel2,
             app_nil_r |].
  split; [done |].
  destruct merged as [|d0 rest].
  - cbn in Hres2. destruct Hres2 as (d & -> & Hroot & Hname & Hfiles2 & Hgen2).
    exists d. split; [done |]. split; [done |]. split; [by rewrite Hname, Hi |].
    split; [rewrite Hfiles2; apply lookup_insert_eq |].
    by rewrite !generations_app, (scan_silent_generations prefix), Hg.
  - destruct (bool_decide (record_all ∅ (d0 :: rest) = ∅)) eqn:Hempty.
    + apply bool_decide_eq_true, record_all_empty in Hempty as [Hempty _]. discriminate Hempty.
    + destruct Hres2 as (-> & Hfiles2 & ->).
      split; [done |]. split; [by rewrite Hfiles2, Hfiles |].
      by rewrite !generations_app, (scan_silent_generations prefix), Hg.
Qed.

Lemma merged_filenames_NoDup (E : Env) (w : World) (merged : list Document) :
  sublist (doc_key <$> merged) (doc_key <$> existing_prds E w) ->
  NoDup (filename <$> merged).
Proof.
  intros Hsub. apply (fmap_sublist snd) in Hsub.
  rewrite <- !list_fmap_compose in Hsub.
  eapply sublist_NoDup; [| exact Hsub]. apply docs_in_NoDup.
Qed.

Lemma merged_is_existing (E : Env) (w : World) (merged : list Document) (d : Document) :
  sublist (doc_key <$> merged) (doc_key <$> existing_prds E w) ->
  d ∈ merged ->
  root_path d = PRDS_FILE_REPO E /\ is_Some (files w !! (PRDS_FILE_REPO E, filename d)).
Proof.
  intros Hsub Hd.
  assert (Hkey : doc_key d ∈ doc_key <$> existing_prds E w).
  { eapply sublist_submseteq, elem_of_submseteq in Hsub; [exact Hsub |].
    by apply list_elem_of_fmap_2. }
  apply list_elem_of_fmap in Hkey as (old & Hkey & Hold).
  apply docs_in_elem in Hold as [Hroot Hlook].
  injection Hkey as Hr Hf. rewrite Hr, Hf. split; [done |].
  apply lookup_delete_Some in Hlook as [_ Hlook]. by eexists.
Qed.

(** C2: in a run that returns a change set and in which the relevance
    classifier answered YES for at least one PRD, every existing PRD (N of
    them) was evaluated; the documents with a YES verdict (K of them) are
    exactly the documents of the change set, which has K entries; nothing was
    generated; and each of these documents sits in the change set and in the
    store under the key of an existing PRD document, the PRD it was merged
    into, with its new content. *)
Theorem C2_changeset_is_exactly_the_merged
        (E : Env) (w : World) (c : string) (cs : gmap string Document) :
  result_of (run E w) = Ok (RActionOutput c cs) ->
  classified_related (events_of (run E w)) <> [] ->
  exists merged : list Document,
    evaluated (events_of (run E w)) = root_relative_path <$> existing_prds E w /\
    classified_related (events_of (run E w)) = root_relative_path <$> merged /\
    sublist (doc_key <$> merged) (doc_key <$> existing_prds E w) /\
    map_to_list cs ≡ₚ (fun d => (filename d, d)) <$> merged /\
    size cs = length (classified_related (events_of (run E w))) /\
    generations (events_of (run E w)) = [] /\
    forall d, d ∈ merged ->
      cs !! filename d = Some d /\
      root_path d = PRDS_FILE_REPO E /\
      is_Some (files w !! (PRDS_FILE_REPO E, filename d)) /\
      files (world_of (run E w)) !! (PRDS_FILE_REPO E, filename d) = Some (content d).
Proof.
  intros Hres Hrelated.
  pose proof (run_satisfies_spec E w) as [_ Hspec]. rewrite Hres in Hspec.
  destruct Hspec as (merged & Hev & Hrel & Hsub & Hcase).
  exists merged.
  destruct merged as [|d0 rest]; [by rewrite Hrel in Hrelated |].
  destruct Hcase as (-> & Hfiles & Hgen).
  pose proof (merged_filenames_NoDup E w _ Hsub) as Hnd.
  assert (Hlist : map_to_list (record_all ∅ (d0 :: rest))
                  ≡ₚ (fun d => (filename d, d)) <$> d0 :: rest).
  { rewrite record_all_to_list, map_to_list_empty, app_nil_r; [done | done |].
    intros d _. apply lookup_empty. }
  split; [done |]. split; [done |]. split; [done |]. split; [done |].
  split.
  { rewrite Hrel, length_fmap, <- length_map_to_list, Hlist, length_fmap. reflexivity. }
  split; [done |].
  intros d Hd.
  split.
  { apply elem_of_map_to_list. rewrite Hlist.
    by apply (list_elem_of_fmap_2 (fun d => (filename d, d))). }
  destruct (merged_is_existing E w _ d Hsub Hd) as [Hroot Hsome].
  split; [done |]. split; [done |].
  rewrite Hfiles. by apply write_all_lookup.
Qed.

Lemma C2_changeset_witness :
  let E := sample_env relates_to_themes (answers_prd "editor") render_ok export_ok in
  let w := sample_world (two_prds "Add dark mode toggle to settings")
                        None (Some "/home/me/workspace/editor") in
  let cs : gmap string Document :=
    {[ "20231201.json" := mkDocument "docs/prds" "20231201.json" "quadrantChart" ]} in
  exists merged : list Document,
    evaluated (events_of (run E w)) = root_relative_path <$> existing_prds E w /\
    classified_related (events_of (run E w)) = root_relative_path <$> merged /\
    sublist (doc_key <$> merged) (doc_key <$> existing_prds E w) /\
    map_to_list cs ≡ₚ (fun d => (filename d, d)) <$> merged /\
    size cs = length (classified_related (events_of (run E w))) /\
    generations (events_of (run E w)) = [] /\
    forall d, d ∈ merged ->
      cs !! filename d = Some d /\
      root_path d = "docs/prds" /\
      is_Some (files w !! ("docs/prds", filename d)) /\
      files (world_of (run E w)) !! ("docs/prds", filename d) = Some (content d).
Proof.
  cbv zeta.
  apply (C2_changeset_is_exactly_the_merged
           (sample_env relates_to_themes (answers_prd "editor") render_ok export_ok)
           _ "").
  - vm_compute. reflexivity.
  - vm_compute. discriminate.
Defined.

(** C3: in a run that returns a change set, a new PRD was generated if and
    only if no existing PRD was classified related (in particular when there
    is no existing PRD); and then exactly one generation was requested, the
    change set holds exactly the one new document, and that document is
    stored in the PRD repository under its fresh name. *)
Theorem C3_generation_iff_nothing_merged
        (E : Env) (w : World) (c : string) (cs : gmap string Document) :
  result_of (run E w) = Ok (RActionOutput c cs) ->
  (generations (events_of (run E w)) <> [] <-> classified_related (events_of (run E w)) = []) /\
  (existing_prds E w = [] -> classified_related (events_of (run E w)) = []) /\
  (classified_related (events_of (run E w)) = [] ->
   exists d, cs = {[filename d := d]} /\
             size cs = 1 /\
             length (generations (events_of (run E w))) = 1 /\
             root_path d = PRDS_FILE_REPO E /\
             filename d = new_filename E (filenames_issued w) +:+ ".json" /\
             files (world_of (run E w)) !! (PRDS_FILE_REPO E, filename d) = Some (content d)).
Proof.
  intros Hres.
  pose proof (run_satisfies_spec E w) as [_ Hspec]. rewrite Hres in Hspec.
  destruct Hspec as (merged & Hev & Hrel & Hsub & Hcase).
  destruct merged as [|d0 rest].
  - destruct Hcase as (d & -> & Hroot & Hname & Hstored & Hgen).
    split; [| split].
    + split; [by rewrite Hrel |]. intros _ Hnil. by rewrite Hnil in Hgen.
    + by rewrite Hrel.
    + intros _. exists d. split; [done |]. split; [apply map_size_singleton |]. done.
  - destruct Hcase as (-> & Hfiles & Hgen).
    split; [| split].
    + split; [by rewrite Hgen | by rewrite Hrel].
    + intros Hnone. rewrite Hnone in Hsub. by apply sublist_nil_r in Hsub.
    + by rewrite Hrel.
Qed.

Lemma C3_generation_witness :
  let E := sample_env relates_to_themes (answers_prd "editor") render_ok export_ok in
  let w := sample_world (requirement_only "Add dark mode toggle to settings") None None in
  let cs : gmap string Document :=
    {[ "20231205174500.json" :=
         mkDocument "docs/prds" "20231205174500.json" "quadrantChart" ]} in
  (generations (events_of (run E w)) <> [] <-> classified_related (events_of (run E w)) = []) /\
  (existing_prds E w = [] -> classified_related (events_of (run E w)) = []) /\
  (classified_related (events_of (run E w)) = [] ->
   exists d, cs = {[filename d := d]} /\
             size cs = 1 /\
             length (generations (events_of (run E w))) = 1 /\
             root_path d = PRDS_FILE_REPO E /\
             filename d = new_filename E (filenames_issued w) +:+ ".json" /\
             files (world_of (run E w)) !! (PRDS_FILE_REPO E, filename d) = Some (content d)).
Proof.
  cbv zeta.
  apply (C3_generation_iff_nothing_merged
           (sample_env relates_to_themes (answers_prd "editor") render_ok export_ok)
           _ "").
  vm_compute. reflexivity.
Defined.

(** ** The side effects of a produced PRD *)

(** C9, as the specification states it, fails: when the renderer raises, or
    when the exporter raises, [run] raises that exception and returns no
    change set. *)
Lemma C9_side_effect_failure_counterexample :
  let w := sample_world (requirement_only "Add dark mode toggle to settings") None None in
  let E_render := sample_env relates_to_themes (answers_prd "editor") render_fails export_ok in
  let E_export := sample_env relates_to_themes (answers_prd "editor") render_ok export_fails in
  (result_of (run E_render w) = Raise RenderError /\
   existsb is_render (events_of (run E_render w)) = true /\
   ~ (exists c cs, result_of (run E_render w) = Ok (RActionOutput c cs))) /\
  (result_of (run E_export w) = Raise OSError /\
   existsb is_export (events_of (run E_export w)) = true /\
   ~ (exists c cs, result_of (run E_export w) = Ok (RActionOutput c cs))).
Proof.
  cbv zeta. split; (split; [reflexivity |]); (split; [reflexivity |]);
    intros (c & cs & H); vm_compute in H; discriminate H.
Qed.

(** C9 (amended): the diagram step is skipped, with no interaction at all,
    when the stored PRD has no chart field or an empty one; and there is no
    handler around the two side effects: whenever the creation of the diagram
    directory, the rendering or the export raises in a run, that exception is
    what [run] raises, so no change set is returned. *)
Theorem C9_side_effects_skip_or_propagate (E : Env) :
  (forall (doc : Document) (w : World) (m : JValue) (field : option JValue),
      json_loads E (content doc) = Ok m ->
      dict_get m "Competitive Quadrant Chart" = Ok field ->
      (field = None \/ exists chart, field = Some chart /\ jtruthy chart = false) ->
      _save_competitive_analysis E doc w = (Ok tt, w, [])) /\
  (forall (w : World) (ev : Event) (e : Exn),
      ev ∈ events_of (run E w) ->
      side_effect_failure E ev = Some e ->
      result_of (run E w) = Raise e).
Proof.
  split.
  - intros doc w m field. apply _save_competitive_analysis_skips.
  - intros w ev e Hev Hfail.
    pose proof (run_satisfies_spec E w) as [Hu _].
    specialize (Hu ev e Hev Hfail).
    destruct (result_of (run E w)); [discriminate Hu | by injection Hu as ->].
Qed.

Lemma C9_side_effects_witness :
  let E_no_chart :=
    mkEnv "requirement.txt" "bugfix.txt" "docs" "docs/prds"
          "resources/competitive_analysis" "resources/prd" "json" two_templates
          "Product Manager"
          relates_to_themes (answers_prd "editor") ""
          (fun _ => "20231205174500") (fun p => Project_Name p)
          (fun b => bugfix_filename b) (fun _ => "")
          (fun s => Ok (JObj [("Project Name", JStr s)]))
          (fun _ text => Ok text) (fun _ => Ok tt) render_ok export_ok sibling_named in
  let E_render := sample_env relates_to_themes (answers_prd "editor") render_fails export_ok in
  let w := sample_world (requirement_only "Add dark mode toggle to settings") None None in
  let doc := mkDocument "docs/prds" "20231205174500.json" "editor" in
  _save_competitive_analysis E_no_chart doc w = (Ok tt, w, []) /\
  result_of (run E_render w) = Raise RenderError.
Proof.
  cbv zeta. split.
  - apply (proj1 (C9_side_effects_skip_or_propagate _) _ _ (JObj [("Project Name", JStr "editor")]) None).
    + reflexivity.
    + reflexivity.
    + left. reflexivity.
  - apply (proj2 (C9_side_effects_skip_or_propagate _) _
                 (EvMermaid (JStr "quadrantChart")
                    (Pathlib.mkPath "/" ["home"; "me"; "workspace"; "editor"; "resources";
                                         "competitive_analysis"; "20231205174500"]))).
    + vm_compute. do 10 right. left.
    + reflexivity.
Defined.

(** ** A failure in the middle of the scan *)

Lemma bind_ext {A B} (m : M A) (f g : A -> M B) (w : World) :
  (forall a w', f a w' = g a w') -> bind m f w = bind m g w.
Proof.
  intros Hfg. unfold bind. destruct (m w) as [[[a|e] w1] evs]; [| reflexivity].
  by rewrite Hfg.
Qed.

Lemma scan_prds_app (E : Env) (req : Document) (before rest : list Document) :
  forall (cs : gmap string Document) (w : World),
    scan_prds E req (before ++ rest) cs w =
    bind (scan_prds E req before cs) (fun cs1 => scan_prds E req rest cs1) w.
Proof.
  induction before as [|old before IH]; intros cs w.
  - cbn [app scan_prds]. by rewrite bind_ret.
  - cbn [app scan_prds]. rewrite bind_assoc.
    apply bind_ext. intros [doc|] w'.
    + rewrite bind_assoc. apply bind_ext. intros _ w''. apply IH.
    + apply IH.
Qed.

(** Once a PRD's processing raises, the loop raises: the documents after it
    are not looked at. *)
Lemma scan_prds_stops (E : Env) (req : Document) (before after : list Document)
      (failing : Document) (cs cs1 : gmap string Document) (w w1 w2 : World)
      (evs1 evs2 : list Event) (e : Exn) :
  scan_prds E req before cs w = (Ok cs1, w1, evs1) ->
  _update_prd E req (Some failing) w1 = (Raise e, w2, evs2) ->
  scan_prds E req (before ++ failing :: after) cs w = (Raise e, w2, evs1 ++ evs2).
Proof.
  intros Hbefore Hfail.
  rewrite scan_prds_app, (bind_returns _ _ _ _ _ _ Hbefore), scan_prds_cons,
    (bind_raises _ _ _ _ _ _ Hfail).
  reflexivity.
Qed.

Lemma record_all_lookup_Some (merged : list Document) (k : string) (d : Document) :
  NoDup (filename <$> merged) ->
  record_all ∅ merged !! k = Some d -> d ∈ merged /\ filename d = k.
Proof.
  intros Hnd Hlook. apply elem_of_map_to_list in Hlook.
  rewrite record_all_to_list, map_to_list_empty, app_nil_r in Hlook;
    [| done | intros; apply lookup_empty].
  apply list_elem_of_fmap in Hlook as (d' & Heq & Hd'). injection Heq as -> ->. done.
Qed.

(** C8, as the specification states it, fails: with two related PRDs and an
    LLM whose merge answer cannot be parsed, the first merge raises, the run
    raises that exception, and the second PRD is never evaluated. *)
Lemma C8_merge_failure_counterexample :
  let E := sample_env relates_to_themes unparsable render_ok export_ok in
  let w := sample_world (two_theme_prds "Add dark mode toggle to settings")
                        None (Some "/home/me/workspace/editor") in
  length (existing_prds E w) = 2 /\
  result_of (run E w) = Raise ParseError /\
  length (evaluated (events_of (run E w))) = 1 /\
  ~ (length (evaluated (events_of (run E w))) = length (existing_prds E w)) /\
  ~ (exists c cs, result_of (run E w) = Ok (RActionOutput c cs)).
Proof.
  cbv zeta. split; [reflexivity |]. split; [reflexivity |]. split; [reflexivity |].
  split.
  - intros H. vm_compute in H. discriminate H.
  - intros (c & cs & H). vm_compute in H. discriminate H.
Qed.

(** C8 (amended): a failure while one PRD is processed aborts the scan and the
    run.  If the scan went well over the PRDs before it and the processing of
    one PRD raises, then [run] raises that exception, in the world left by the
    failing step; the PRDs evaluated are at most those up to the failing one,
    none after it; and the PRD updates made before the failure are still in
    the store, although no change set is returned. *)
Theorem C8_merge_failure_aborts_the_run
        (E : Env) (w w1 w2 : World) (body res : string)
        (before after : list Document) (failing : Document)
        (cs1 : gmap string Document) (evs1 evs2 : list Event) (e : Exn) :
  files w !! (DOCS_FILE_REPO E, REQUIREMENT_FILENAME E) = Some body ->
  aask E (llm_calls w) (IS_BUGFIX_PROMPT body) = Ok res ->
  str_in "YES" res = false ->
  existing_prds E w = before ++ failing :: after ->
  let req := mkDocument (DOCS_FILE_REPO E) (REQUIREMENT_FILENAME E) body in
  let w0 := set_files (delete (DOCS_FILE_REPO E, BUGFIX_FILENAME E) (files w))
                      (set_llm_calls (S (llm_calls w)) w) in
  scan_prds E req before ∅ w0 = (Ok cs1, w1, evs1) ->
  _update_prd E req (Some failing) w1 = (Raise e, w2, evs2) ->
  result_of (run E w) = Raise e /\
  world_of (run E w) = w2 /\
  evaluated (events_of (run E w)) `prefix_of` root_relative_path <$> (before ++ [failing]) /\
  (forall k, k <> (PRDS_FILE_REPO E, filename failing) -> files w2 !! k = files w1 !! k) /\
  (forall f d, cs1 !! f = Some d ->
               files (world_of (run E w)) !! (PRDS_FILE_REPO E, f) = Some (content d)).
Proof.
  intros Hreq Hask Hno Hdocs req w0 Hbefore Hfail.
  assert (Hrun : run E w =
                 prepend [EvRepoGet (DOCS_FILE_REPO E) (REQUIREMENT_FILENAME E);
                          EvAsk (IS_BUGFIX_PROMPT body); EvLog (LogIsBugfix res);
                          EvRepoDelete (DOCS_FILE_REPO E) (BUGFIX_FILENAME E);
                          EvRepoGetAll (PRDS_FILE_REPO E)]
                         (Raise e, w2, evs1 ++ evs2)).
  { unfold run. rewrite bind_repo_get, Hreq. cbn [fmap option_fmap option_map].
    rewrite (bind_returns _ _ _ _ _ _ (_is_bugfix_answered E body res w Hask)), Hno.
    rewrite bind_repo_delete, bind_repo_get_all, !prepend_prepend.
    change (docs_in (PRDS_FILE_REPO E) (files (set_files _ _))) with (existing_prds E w).
    rewrite Hdocs.
    rewrite (bind_raises _ _ _ _ _ _
               (scan_prds_stops E req before after failing ∅ cs1 w0 w1 w2 evs1 evs2 e
                                Hbefore Hfail)).
    reflexivity. }
  pose proof (scan_prds_spec E req before ∅ w0) as (_ & _ & _ & Hscan).
  rewrite Hbefore in Hscan. cbn in Hscan.
  destruct Hscan as (merged & -> & Hfiles & Hev & Hrel & Hsub).
  pose proof (_update_prd_existing E req failing w1) as (_ & _ & _ & Hk & Hprefix).
  rewrite Hfail in Hk, Hprefix. cbn in Hk, Hprefix.
  assert (Hnd : NoDup (filename <$> before ++ failing :: after)).
  { rewrite <- Hdocs. apply docs_in_NoDup. }
  rewrite fmap_app, fmap_cons in Hnd.
  apply NoDup_app in Hnd as (Hnd_before & Hdisjoint & _).
  apply (fmap_sublist snd) in Hsub. rewrite <- !list_fmap_compose in Hsub.
  assert (Hnd_merged : NoDup (filename <$> merged)) by (by eapply sublist_NoDup).
  rewrite Hrun. cbn.
  split; [done |]. split; [done |].
  split.
  { rewrite !evaluated_cons. cbn. rewrite evaluated_app, Hev, fmap_app.
    by apply prefix_app. }
  split; [done |].
  intros f d Hlook.
  apply record_all_lookup_Some in Hlook as [Hd <-]; [| done].
  rewrite Hk.
  - rewrite Hfiles. by apply write_all_lookup.
  - intros Heq. injection Heq as Heq.
    apply (Hdisjoint (filename d)).
    + eapply sublist_submseteq, elem_of_submseteq in Hsub; [exact Hsub |].
      by apply (list_elem_of_fmap_2 filename).
    + rewrite Heq. left.
Qed.

Lemma C8_merge_failure_witness :
  let E := sample_env relates_to_themes (parses_until 3 "editor") render_ok export_ok in
  let w := sample_world (two_theme_prds "Add dark mode toggle to settings")
                        None (Some "/home/me/workspace/editor") in
  let req := mkDocument "docs" "requirement.txt" "Add dark mode toggle to settings" in
  let first := mkDocument "docs/prds" "20231203.json" "PRD: icon themes" in
  let second := mkDocument "docs/prds" "20231201.json" "PRD: colour themes of the editor" in
  let w0 := set_files (delete ("docs", "bugfix.txt") (files w)) (set_llm_calls 1 w) in
  let o1 := scan_prds E req [first] ∅ w0 in
  let o2 := _update_prd E req (Some second) (world_of o1) in
  let cs1 : gmap string Document :=
    {[ "20231203.json" := mkDocument "docs/prds" "20231203.json" "quadrantChart" ]} in
  result_of (run E w) = Raise ParseError /\
  world_of (run E w) = world_of o2 /\
  evaluated (events_of (run E w)) `prefix_of` root_relative_path <$> ([first] ++ [second]) /\
  (forall k, k <> (PRDS_FILE_REPO E, filename second) ->
             files (world_of o2) !! k = files (world_of o1) !! k) /\
  (forall f d, cs1 !! f = Some d ->
               files (world_of (run E w)) !! (PRDS_FILE_REPO E, f) = Some (content d)).
Proof.
  cbv zeta.
  apply (C8_merge_failure_aborts_the_run
           (sample_env relates_to_themes (parses_until 3 "editor") render_ok export_ok)
           _ _ _ "Add dark mode toggle to settings" "{answer: NO}"
           [mkDocument "docs/prds" "20231203.json" "PRD: icon themes"] []
           (mkDocument "docs/prds" "20231201.json" "PRD: colour themes of the editor")
           _
           (events_of (scan_prds
              (sample_env relates_to_themes (parses_until 3 "editor") render_ok export_ok)
              (mkDocument "docs" "requirement.txt" "Add dark mode toggle to settings")
              [mkDocument "docs/prds" "20231203.json" "PRD: icon themes"] ∅
              (set_files (delete ("docs", "bugfix.txt")
                            (files (sample_world
                                      (two_theme_prds "Add dark mode toggle to settings")
                                      None (Some "/home/me/workspace/editor"))))
                         (set_llm_calls 1
                            (sample_world (two_theme_prds "Add dark mode toggle to settings")
                                          None (Some "/home/me/workspace/editor"))))))
           (events_of (_update_prd
              (sample_env relates_to_themes (parses_until 3 "editor") render_ok export_ok)
              (mkDocument "docs" "requirement.txt" "Add dark mode toggle to settings")
              (Some (mkDocument "docs/prds" "20231201.json" "PRD: colour themes of the editor"))
              (world_of (scan_prds
                 (sample_env relates_to_themes (parses_until 3 "editor") render_ok export_ok)
                 (mkDocument "docs" "requirement.txt" "Add dark mode toggle to settings")
                 [mkDocument "docs/prds" "20231203.json" "PRD: icon themes"] ∅
                 (set_files (delete ("docs", "bugfix.txt")
                               (files (sample_world
                                         (two_theme_prds "Add dark mode toggle to settings")
                                         None (Some "/home/me/workspace/editor"))))
                            (set_llm_calls 1
                               (sample_world (two_theme_prds "Add dark mode toggle to settings")
                                             None (Some "/home/me/workspace/editor"))))))))
           ParseError).
  - reflexivity.
  - reflexivity.
  - reflexivity.
  - vm_compute. reflexivity.
  - vm_compute. reflexivity.
  - vm_compute. reflexivity.
Defined.

(** ** Runs that return

    With collaborators that do not fail, a readable requirement, PRD file names
    that have a last component, and a project identity [_merge] can resolve,
    [run] returns: the change-set properties above are about runs that
    exist. *)

Lemma _rename_workspace_returns (E : Env) (ao : ActionOutput) (w : World) :
  returns_resolvable w (_rename_workspace E (Structured ao) w).
Proof.
  unfold returns_resolvable, identity_resolvable.
  destruct (truthy (project_path w) && negb (truthy (project_name w))) eqn:Hc.
  - apply andb_true_iff in Hc as [Hp Hn]. apply negb_true_iff in Hn.
    apply truthy_Some in Hp as (p & Hp & Ht).
    rewrite (_rename_workspace_from_path E _ w p Hp Ht Hn). cbn.
    split; [by eexists |]. intros _. left. rewrite Hp. by eexists.
  - rewrite (_rename_workspace_tail E _ w Hc).
    destruct (truthy (project_name w)) eqn:Hn.
    + apply truthy_Some in Hn as (n & Hn & Ht).
      rewrite (bind_name_and_rename_bound E _ w n Hn Ht). cbn.
      split; [by eexists |]. intros _. right. rewrite Hn. done.
    + rewrite (bind_name_and_rename_unbound E (Structured ao) w
                 (Project_Name (instruct_content ao)) Hn eq_refl). cbn.
      split; [by eexists |]. intros [Hsome | Hbound]; [by left | congruence].
Qed.

Lemma _save_competitive_analysis_returns (E : Env) (doc : Document) (w : World)
      (members : list (string * JValue)) :
  well_behaved E -> exportable doc ->
  json_loads E (content doc) = Ok (JObj members) ->
  returns_resolvable w (_save_competitive_analysis E doc w).
Proof.
  intros Hwb Hexp Hjson. unfold returns_resolvable, identity_resolvable.
  unfold _save_competitive_analysis, path_mkdir.
  rewrite bind_lift, Hjson, bind_lift. cbn [dict_get].
  destruct (assoc_get _ members) as [chart|]; [| cbn; split; [by eexists | done]].
  destruct (negb (jtruthy chart)); [cbn; split; [by eexists | done] |].
  rewrite bind_get_world, bind_lift.
  unfold exportable in Hexp. unfold Pathlib.with_suffix_empty. rewrite Hexp.
  rewrite bind_path_exists.
  set (pathname := Pathlib.joinpath _ _).
  destruct (wb_mermaid E Hwb chart pathname) as [code Hrender].
  destruct (negb _).
  - rewrite !bind_assoc, bind_call, (wb_mkdir E Hwb), bind_modify, bind_call, Hrender.
    cbn. split; [by eexists | done].
  - rewrite bind_ret, bind_call, Hrender. cbn. split; [by eexists | done].
Qed.

Lemma _save_pdf_returns (E : Env) (doc : Document) (w : World) :
  well_behaved E -> _save_pdf E doc w = (Ok tt, w, [EvSaveAs doc ".md" (PRD_PDF_FILE_REPO E)]).
Proof. intros Hwb. unfold _save_pdf, call. by rewrite (wb_save_as E Hwb). Qed.

Lemma persist_returns (E : Env) (prd : PRD) (root fname : string) (w : World) :
  well_behaved E ->
  let doc := mkDocument root fname (prd_json E prd) in
  exportable doc ->
  returns_resolvable w
    ((repo_save (PRDS_FILE_REPO E) (filename doc) (content doc) ;;
      _save_competitive_analysis E doc ;;
      _save_pdf E doc ;;
      ret (Some doc)) w).
Proof.
  intros Hwb doc Hexp. rewrite bind_repo_save.
  set (w1 := set_files _ w).
  destruct (wb_json E Hwb prd) as [members Hjson].
  pose proof (_save_competitive_analysis_returns E doc w1 members Hwb Hexp Hjson)
    as [[[] Hres] Hid].
  destruct (_save_competitive_analysis E doc w1) as [[r w2] evs] eqn:Hsca.
  cbn in Hres, Hid. subst r.
  rewrite (bind_returns _ _ _ _ _ _ Hsca),
    (bind_returns _ _ _ _ _ _ (_save_pdf_returns E doc w2 Hwb)).
  unfold returns_resolvable. cbn. split; [by eexists | exact Hid].
Qed.

Lemma _merge_returns (E : Env) (req old : Document) (w : World) :
  well_behaved E -> identity_resolvable w ->
  exists prd w' evs,
    _merge E req old w =
      (Ok (mkDocument (root_path old) (filename old) (prd_json E prd)), w', evs) /\
    identity_resolvable w'.
Proof.
  intros Hwb Hid. unfold _merge, bind_name_from_path. rewrite bind_assoc, bind_get_world.
  assert (Hleaf : forall (w0 : World) (n : string),
             identity_resolvable w0 ->
             exists prd w' evs,
               bind (llm_aask_v1 E (MERGE_PROMPT (content req) (content old) n) (prompt_format E))
                    (fun prd =>
                       _rename_workspace E (Structured prd) ;;
                       ret (mkDocument (root_path old) (filename old)
                                       (prd_json E (instruct_content prd)))) w0
               = (Ok (mkDocument (root_path old) (filename old) (prd_json E prd)), w', evs) /\
               identity_resolvable w').
  { intros w0 n Hid0. rewrite bind_llm_aask_v1.
    destruct (wb_aask_v1 E Hwb (llm_calls w0) (MERGE_PROMPT (content req) (content old) n)
                         (prompt_format E)) as [prd ->].
    set (w1 := set_llm_calls _ w0).
    pose proof (_rename_workspace_returns E prd w1) as [[[] Hres] Hid1].
    destruct (_rename_workspace E (Structured prd) w1) as [[r w2] evs] eqn:Hrw.
    cbn in Hres, Hid1. subst r.
    rewrite (bind_returns _ _ _ _ _ _ Hrw). cbn.
    exists (instruct_content prd), w2. eexists. split; [reflexivity |].
    apply Hid1. exact Hid0. }
  destruct (truthy (project_name w)) eqn:Hn; cbn [negb].
  - rewrite bind_ret, bind_get_world. by apply Hleaf.
  - destruct Hid as [[p Hp] | Hbound]; [| congruence].
    rewrite Hp, bind_modify, bind_get_world. apply Hleaf.
    left. cbn. rewrite Hp. by eexists.
Qed.

Lemma _update_prd_existing_returns (E : Env) (req old : Document) (w : World) :
  well_behaved E -> identity_resolvable w -> exportable old ->
  returns_resolvable w (_update_prd E req (Some old) w).
Proof.
  intros Hwb Hid Hexp. unfold _update_prd. cbv beta iota. rewrite bind_assoc.
  destruct (wb_aask E Hwb (llm_calls w) (IS_RELATIVE_PROMPT (content old) (content req)))
    as [res Hask].
  rewrite (bind_returns _ _ _ _ _ _ (_is_relative_to_answered E req old w res Hask)).
  set (w1 := set_llm_calls _ w).
  destruct (str_in "YES" res).
  - rewrite bind_assoc.
    destruct (_merge_returns E req old w1 Hwb Hid) as (prd & w2 & evs & Hmerge & Hid2).
    rewrite (bind_returns _ _ _ _ _ _ Hmerge), bind_ret.
    pose proof (persist_returns E prd (root_path old) (filename old) w2 Hwb Hexp)
      as [Hres Hid3].
    unfold returns_resolvable.
    rewrite !result_of_prepend, !world_of_prepend. split; [exact Hres | auto].
  - rewrite bind_ret. unfold returns_resolvable. cbn. split; [by eexists | done].
Qed.

Lemma _run_new_requirement_returns (E : Env) (requirements : list string) (w : World) :
  well_behaved E -> returns_resolvable w (_run_new_requirement E requirements w).
Proof.
  intros Hwb. unfold _run_new_requirement.
  assert (Hleaf : forall logged,
             returns_resolvable w
               (prepend logged
                  ((tpl <- lift (get_template E (prompt_format E)) ;;
                    w0 <- get_world ;;
                    prd <- llm_aask_v1 E
                             (PRD_PROMPT tpl requirements (sas_result E)
                                (if truthy (project_name w0)
                                 then default "" (project_name w0) else ""))
                             (prompt_format E) ;;
                    _rename_workspace E (Structured prd) ;;
                    ret prd) w))).
  { intros logged. destruct (wb_template E Hwb) as [tpl Htpl].
    rewrite bind_lift, Htpl, bind_get_world, bind_llm_aask_v1.
    destruct (wb_aask_v1 E Hwb (llm_calls w)
                (PRD_PROMPT tpl requirements (sas_result E)
                   (if truthy (project_name w) then default "" (project_name w) else ""))
                (prompt_format E)) as [prd ->].
    set (w1 := set_llm_calls _ w).
    pose proof (_rename_workspace_returns E prd w1) as [[[] Hres] Hid1].
    destruct (_rename_workspace E (Structured prd) w1) as [[r w2] evs] eqn:Hrw.
    cbn in Hres, Hid1. subst r.
    rewrite (bind_returns _ _ _ _ _ _ Hrw). unfold returns_resolvable. cbn.
    split; [by eexists | exact Hid1]. }
  destruct (str_truthy (sas_result E)).
  - rewrite !bind_assoc. unfold log. rewrite bind_emit, bind_emit, prepend_prepend.
    apply Hleaf.
  - rewrite bind_ret. rewrite <- (prepend_nil (bind _ _ w)). apply Hleaf.
Qed.

Lemma _update_prd_new_returns (E : Env) (req : Document) (w : World) :
  well_behaved E -> returns_resolvable w (_update_prd E req None w).
Proof.
  intros Hwb. unfold _update_prd. cbv beta iota. rewrite bind_assoc.
  pose proof (_run_new_requirement_returns E [content req] w Hwb) as [[prd Hres] Hid].
  destruct (_run_new_requirement E [content req] w) as [[r w1] evs] eqn:Hrun.
  cbn in Hres, Hid. subst r.
  rewrite (bind_returns _ _ _ _ _ _ Hrun), bind_assoc, bind_fresh_filename, bind_ret.
  cbv beta iota.
  pose proof (persist_returns E (instruct_content prd) (PRDS_FILE_REPO E)
                (new_filename E (filenames_issued w1) +:+ ".json")
                (set_filenames_issued (S (filenames_issued w1)) w1) Hwb
                (wb_fresh E Hwb _)) as [Hres2 Hid2].
  unfold returns_resolvable.
  rewrite !result_of_prepend, !world_of_prepend. split; [exact Hres2 | auto].
Qed.

Lemma scan_prds_returns (E : Env) (req : Document) (docs : list Document) :
  well_behaved E -> Forall exportable docs ->
  forall (cs : gmap string Document) (w : World),
    identity_resolvable w ->
    returns_resolvable w (scan_prds E req docs cs w).
Proof.
  intros Hwb Hexp. induction Hexp as [|old rest Hold _ IH]; intros cs w Hid.
  - unfold returns_resolvable. cbn. split; [by eexists | done].
  - rewrite scan_prds_cons.
    pose proof (_update_prd_existing_returns E req old w Hwb Hid Hold) as [[updated Hres] Hid1].
    destruct (_update_prd E req (Some old) w) as [[r w1] evs] eqn:Hupd.
    cbn in Hres, Hid1. subst r. specialize (Hid1 Hid).
    rewrite (bind_returns _ _ _ _ _ _ Hupd).
    destruct updated as [doc|].
    + unfold log. rewrite bind_emit.
      destruct (IH (<[filename doc := doc]> cs) w1 Hid1) as [Hres2 Hid2].
      unfold returns_resolvable.
      rewrite !result_of_prepend, !world_of_prepend. split; [exact Hres2 | auto].
    + destruct (IH cs w1 Hid1) as [Hres2 Hid2].
      unfold returns_resolvable.
      rewrite !result_of_prepend, !world_of_prepend. split; [exact Hres2 | auto].
Qed.

(** With collaborators that do not fail, a feature request leads to a
    returned change set. *)
Lemma run_returns_change_set (E : Env) (w : World) (body res : string) :
  well_behaved E ->
  files w !! (DOCS_FILE_REPO E, REQUIREMENT_FILENAME E) = Some body ->
  aask E (llm_calls w) (IS_BUGFIX_PROMPT body) = Ok res ->
  str_in "YES" res = false ->
  Forall exportable (existing_prds E w) ->
  identity_resolvable w ->
  exists c cs, result_of (run E w) = Ok (RActionOutput c cs).
Proof.
  intros Hwb Hreq Hask Hno Hexp Hid.
  unfold run. rewrite bind_repo_get, Hreq. cbn [fmap option_fmap option_map].
  rewrite (bind_returns _ _ _ _ _ _ (_is_bugfix_answered E body res w Hask)), Hno.
  rewrite bind_repo_delete, bind_repo_get_all, !prepend_prepend.
  set (w0 := set_files _ _).
  change (docs_in (PRDS_FILE_REPO E) (files w0)) with (existing_prds E w).
  set (req := mkDocument _ _ body).
  pose proof (scan_prds_returns E req (existing_prds E w) Hwb Hexp ∅ w0 Hid)
    as [[scanned Hres] _].
  destruct (scan_prds E req (existing_prds E w) ∅ w0) as [[r w1] evs] eqn:Hscan.
  cbn in Hres. subst r.
  rewrite (bind_returns _ _ _ _ _ _ Hscan).
  assert (Hgen : exists cs w2 evs2,
             generate_if_unchanged E req scanned w1 = (Ok cs, w2, evs2)).
  { unfold generate_if_unchanged. destruct (bool_decide (scanned = ∅)).
    - pose proof (_update_prd_new_returns E req w1 Hwb) as [[created Hres] _].
      destruct (_update_prd E req None w1) as [[r w2] evs2] eqn:Hupd.
      cbn in Hres. subst r. rewrite (bind_returns _ _ _ _ _ _ Hupd).
      destruct created as [doc|]; cbn; eauto.
    - cbn. eauto. }
  destruct Hgen as (cs & w2 & evs2 & Hgen).
  rewrite (bind_returns _ _ _ _ _ _ Hgen). cbn. eauto.
Qed.

Lemma sample_env_well_behaved :
  well_behaved (sample_env relates_to_themes (answers_prd "editor") render_ok export_ok).
Proof.
  split.
  - intros n p. cbn. unfold relates_to_themes.
    destruct p; try destruct (str_in "theme" old_prd); by eexists.
  - intros n p format. by eexists.
  - by eexists.
  - intros prd. by eexists.
  - intros n. cbv [sample_env new_filename].
    destruct (ascii_of_nat (48 + n)) as [[] [] [] [] [] [] [] []]; reflexivity.
  - done.
  - intros chart pathname. by eexists.
  - done.
Qed.

Example dark_mode_run_returns :
  exists c cs,
    result_of (run (sample_env relates_to_themes (answers_prd "editor") render_ok export_ok)
                   (sample_world (two_prds "Add dark mode toggle to settings")
                                 None (Some "/home/me/workspace/editor")))
    = Ok (RActionOutput c cs).
Proof.
  apply (run_returns_change_set _ _ "Add dark mode toggle to settings" "{answer: NO}").
  - apply sample_env_well_behaved.
  - reflexivity.
  - reflexivity.
  - reflexivity.
  - vm_compute. repeat constructor.
  - left. by eexists.
Qed.

(** * Further properties of the action *)

(** ** The verdict of the two classifiers *)

Lemma str_in_nil (needle : string) : str_in needle "" = String.prefix needle "".
Proof. unfold str_in. apply orb_false_r. Qed.

Lemma str_in_cons (needle : string) (c : ascii) (hay : string) :
  str_in needle (String c hay) = String.prefix needle (String c hay) || str_in needle hay.
Proof. reflexivity. Qed.

Lemma prefix_append (needle hay : string) :
  String.prefix needle hay = true <-> exists post, hay = needle +:+ post.
Proof.
  revert hay. induction needle as [|a needle IH]; intros hay.
  - split; [intros _; by exists hay | by destruct hay].
  - destruct hay as [|b hay]; cbn.
    + split; [discriminate | intros [post Hpost]; discriminate Hpost].
    + destruct (ascii_dec a b) as [->|Hne].
      * rewrite IH. split; intros [post Hpost]; exists post; [by rewrite Hpost | by injection Hpost].
      * split; [discriminate | intros [post Hpost]; injection Hpost as -> _; by destruct Hne].
Qed.

(** [str_in] is Python's [in] on strings: the needle occurs as a contiguous
    piece of the text. *)
Lemma str_in_occurs (needle hay : string) :
  str_in needle hay = true <-> exists pre post, hay = pre +:+ needle +:+ post.
Proof.
  induction hay as [|c hay IH].
  - rewrite str_in_nil, prefix_append. split.
    + intros [post Hpost]. by exists "", post.
    + intros (pre & post & Hocc). destruct pre; [by exists post | discriminate Hocc].
  - rewrite str_in_cons, orb_true_iff, prefix_append, IH. split.
    + intros [[post Hpost] | (pre & post & Hocc)].
      * by exists "", post.
      * exists (String c pre), post. cbn. by rewrite Hocc.
    + intros (pre & post & Hocc). destruct pre as [|c' pre].
      * left. by exists post.
      * right. cbn in Hocc. injection Hocc as _ Hocc. by exists pre, post.
Qed.

(** X1: the relevance classifier answers true exactly when the LLM's response
    has YES somewhere in it as a contiguous, upper-case piece of text; any
    other response, whatever it says, is a false. *)
Theorem classifier_verdict_is_YES_substring
        (E : Env) (req old : Document) (w : World) (res : string) :
  aask E (llm_calls w) (IS_RELATIVE_PROMPT (content old) (content req)) = Ok res ->
  (result_of (_is_relative_to E req old w) = Ok true <->
   exists pre post, res = pre +:+ "YES" +:+ post) /\
  (result_of (_is_relative_to E req old w) = Ok false <->
   ~ exists pre post, res = pre +:+ "YES" +:+ post).
Proof.
  intros Hask. rewrite (_is_relative_to_answered E req old w res Hask). cbn.
  rewrite <- str_in_occurs. destruct (str_in "YES" res); split; split; try done;
    intros H; by destruct H.
Qed.

Lemma classifier_verdict_witness :
  let E := sample_env relates_to_themes (answers_prd "editor") render_ok export_ok in
  let req := mkDocument "docs" "requirement.txt" "Add dark mode toggle to settings" in
  let old := mkDocument "docs/prds" "20231201.json" "PRD: colour themes of the editor" in
  let w := sample_world (two_prds "Add dark mode toggle to settings") None None in
  (result_of (_is_relative_to E req old w) = Ok true <->
   exists pre post, "{answer: YES, reason: same feature}" = pre +:+ "YES" +:+ post) /\
  (result_of (_is_relative_to E req old w) = Ok false <->
   ~ exists pre post, "{answer: YES, reason: same feature}" = pre +:+ "YES" +:+ post).
Proof.
  cbv zeta.
  apply (classifier_verdict_is_YES_substring
           (sample_env relates_to_themes (answers_prd "editor") render_ok export_ok)).
  reflexivity.
Defined.

(** ** What the steps leave alone *)

Lemma oracle_calls_app (evs1 evs2 : list Event) :
  oracle_calls (evs1 ++ evs2) = oracle_calls evs1 ++ oracle_calls evs2.
Proof. apply omap_app. Qed.

Lemma step_frame_weaken {A} (E : Env) (b b' : nat) (w : World)
      (o : Res A * World * list Event) :
  b <= b' -> step_frame E b w o -> step_frame E b' w o.
Proof. intros Hle (Hf & Hp & Hn & Hb). repeat split; try done. lia. Qed.

Lemma step_frame_prepend {A} (E : Env) (b1 b2 : nat) (w w1 : World) (evs1 : list Event)
      (o : Res A * World * list Event) :
  (forall k, k.1 <> PRDS_FILE_REPO E -> files w1 !! k = files w !! k) ->
  project_path w1 = project_path w ->
  (truthy (project_name w) = true -> project_name w1 = project_name w) ->
  length (oracle_calls evs1) <= b1 ->
  step_frame E b2 w1 o ->
  step_frame E (b1 + b2) w (prepend evs1 o).
Proof.
  intros Hf1 Hp1 Hn1 Hb1 (Hf2 & Hp2 & Hn2 & Hb2).
  unfold step_frame. rewrite world_of_prepend, events_of_prepend.
  split; [intros k Hk; by rewrite Hf2, Hf1 |].
  split; [congruence |].
  split; [intros Hbound; rewrite Hn2, Hn1; [done | done | by rewrite Hn1] |].
  rewrite oracle_calls_app, length_app. lia.
Qed.

(** The frame of a sequence is made of the frames of its parts. *)
Lemma step_frame_bind {A B} (E : Env) (b1 b2 : nat) (m : M A) (f : A -> M B) (w : World) :
  step_frame E b1 w (m w) ->
  (forall a w1 evs1, m w = (Ok a, w1, evs1) -> step_frame E b2 w1 (f a w1)) ->
  step_frame E (b1 + b2) w (bind m f w).
Proof.
  intros Hm Hf. unfold bind.
  destruct (m w) as [[[a|e] w1] evs1] eqn:Hmw.
  - destruct Hm as (Hf1 & Hp1 & Hn1 & Hb1). cbn in Hf1, Hp1, Hn1, Hb1.
    apply (step_frame_prepend E b1 b2 w w1); try done. by eapply Hf.
  - eapply step_frame_weaken; [| exact Hm]. lia.
Qed.

Lemma step_frame_ret {A} (E : Env) (a : A) (w : World) : step_frame E 0 w (ret a w).
Proof. unfold step_frame. cbn. done. Qed.

Lemma step_frame_log (E : Env) (l : LogRecord) (w : World) : step_frame E 0 w (log l w).
Proof. unfold step_frame. cbn. done. Qed.

Lemma _rename_workspace_step (E : Env) (prd : PrdAnswer) (w : World) :
  step_frame E 0 w (_rename_workspace E prd w).
Proof.
  unfold step_frame.
  destruct (truthy (project_path w) && negb (truthy (project_name w))) eqn:Hc.
  - apply andb_true_iff in Hc as [Hp Hn]. apply negb_true_iff in Hn.
    apply truthy_Some in Hp as (p & Hp & Ht).
    rewrite (_rename_workspace_from_path E prd w p Hp Ht Hn). cbn.
    repeat split; try done. congruence.
  - rewrite (_rename_workspace_tail E prd w Hc).
    destruct (truthy (project_name w)) eqn:Hn.
    + apply truthy_Some in Hn as (n & Hn & Ht).
      rewrite (bind_name_and_rename_bound E prd w n Hn Ht). cbn. done.
    + destruct (ws_name_of E prd) as [ws_name|e] eqn:Hws.
      * rewrite (bind_name_and_rename_unbound E prd w ws_name Hn Hws). cbn. done.
      * rewrite (bind_name_and_rename_unparsed E prd w e Hn Hws). cbn. done.
Qed.

Lemma bind_name_from_path_step (E : Env) (w : World) :
  step_frame E 0 w (bind_name_from_path w).
Proof.
  unfold bind_name_from_path, step_frame. rewrite bind_get_world.
  destruct (truthy (project_name w)) eqn:Hn; cbn; [done |].
  destruct (project_path w) eqn:Hp; cbn; done.
Qed.

Lemma llm_aask_step (E : Env) (p : Prompt) (w : World) : step_frame E 1 w (llm_aask E p w).
Proof. unfold step_frame. cbn. done. Qed.

Lemma llm_aask_v1_step (E : Env) (p : Prompt) (format : string) (w : World) :
  step_frame E 1 w (llm_aask_v1 E p format w).
Proof. unfold step_frame. cbn. done. Qed.

Lemma _is_relative_to_step (E : Env) (req old : Document) (w : World) :
  step_frame E 1 w (_is_relative_to E req old w).
Proof.
  unfold _is_relative_to.
  apply (step_frame_bind E 1 0); [apply llm_aask_step |]. intros res w1 evs1 _.
  apply (step_frame_bind E 0 0); [apply step_frame_log |]. intros _ w2 evs2 _.
  apply step_frame_ret.
Qed.

Lemma _merge_step (E : Env) (req old : Document) (w : World) :
  step_frame E 1 w (_merge E req old w).
Proof.
  unfold _merge.
  apply (step_frame_bind E 0 1); [apply bind_name_from_path_step |]. intros _ w1 evs1 _.
  rewrite bind_get_world.
  apply (step_frame_bind E 1 0); [apply llm_aask_v1_step |]. intros prd w2 evs2 _.
  apply (step_frame_bind E 0 0); [apply _rename_workspace_step |]. intros _ w3 evs3 _.
  apply step_frame_ret.
Qed.

Lemma _run_new_requirement_step (E : Env) (requirements : list string) (w : World) :
  step_frame E 1 w (_run_new_requirement E requirements w).
Proof.
  unfold _run_new_requirement.
  apply (step_frame_bind E 0 1).
  { destruct (str_truthy (sas_result E)); [| apply step_frame_ret].
    apply (step_frame_bind E 0 0); [apply step_frame_log |]. intros _ w1 evs1 _.
    apply step_frame_log. }
  intros _ w1 evs1 _.
  apply (step_frame_bind E 0 1).
  { unfold step_frame, lift. cbn. done. }
  intros tpl w2 evs2 _. rewrite bind_get_world.
  apply (step_frame_bind E 1 0); [apply llm_aask_v1_step |]. intros prd w3 evs3 _.
  apply (step_frame_bind E 0 0); [apply _rename_workspace_step |]. intros _ w4 evs4 _.
  apply step_frame_ret.
Qed.

Lemma _save_competitive_analysis_step (E : Env) (doc : Document) (w : World) :
  step_frame E 0 w (_save_competitive_analysis E doc w).
Proof.
  unfold _save_competitive_analysis, path_mkdir.
  repeat (repeat (first [run_step | rewrite bind_path_exists]); try split_outcome);
    unfold step_frame; cbn; done.
Qed.

Lemma _save_pdf_step (E : Env) (doc : Document) (w : World) :
  step_frame E 0 w (_save_pdf E doc w).
Proof. unfold step_frame, _save_pdf, call. cbn. done. Qed.

Lemma repo_save_prds_step (E : Env) (fname body : string) (w : World) :
  step_frame E 0 w (repo_save (PRDS_FILE_REPO E) fname body w).
Proof.
  unfold step_frame. cbn. split; [| done].
  intros k Hk. apply lookup_insert_ne. intros <-. by apply Hk.
Qed.

Lemma _update_prd_step (E : Env) (req : Document) (prd_doc : option Document) (w : World) :
  step_frame E (match prd_doc with Some _ => 2 | None => 1 end) w
             (_update_prd E req prd_doc w).
Proof.
  unfold _update_prd.
  rewrite <- (Nat.add_0_r (match prd_doc with Some _ => 2 | None => 1 end)).
  apply step_frame_bind.
  - destruct prd_doc as [old|].
    + apply (step_frame_bind E 1 1); [apply _is_relative_to_step |].
      intros related w1 evs1 _. destruct related.
      * apply (step_frame_bind E 1 0); [apply _merge_step |]. intros merged w2 evs2 _.
        apply step_frame_ret.
      * eapply step_frame_weaken; [| apply step_frame_ret]. lia.
    + apply (step_frame_bind E 1 0); [apply _run_new_requirement_step |].
      intros prd w1 evs1 _.
      apply (step_frame_bind E 0 0).
      { unfold step_frame. cbn. done. }
      intros fname w2 evs2 _. apply step_frame_ret.
  - intros [doc|] w1 evs1 _; [| apply step_frame_ret].
    apply (step_frame_bind E 0 0); [apply repo_save_prds_step |]. intros _ w2 evs2 _.
    apply (step_frame_bind E 0 0); [apply _save_competitive_analysis_step |].
    intros _ w3 evs3 _.
    apply (step_frame_bind E 0 0); [apply _save_pdf_step |]. intros _ w4 evs4 _.
    apply step_frame_ret.
Qed.

Lemma scan_prds_step (E : Env) (req : Document) (docs : list Document) :
  forall (cs : gmap string Document) (w : World),
    step_frame E (2 * length docs) w (scan_prds E req docs cs w).
Proof.
  induction docs as [|old rest IH]; intros cs w.
  - apply step_frame_ret.
  - rewrite scan_prds_cons.
    eapply step_frame_weaken with (b := 2 + 2 * length rest); [cbn; lia |].
    apply step_frame_bind; [apply (_update_prd_step E req (Some old)) |].
    intros [doc|] w1 evs1 _; [| apply IH].
    apply (step_frame_bind E 0); [apply step_frame_log |]. intros _ w2 evs2 _. apply IH.
Qed.

Lemma generate_if_unchanged_step (E : Env) (req : Document) (cs : gmap string Document)
      (w : World) :
  step_frame E 1 w (generate_if_unchanged E req cs w).
Proof.
  unfold generate_if_unchanged.
  destruct (bool_decide (cs = ∅)); [| eapply step_frame_weaken; [| apply step_frame_ret]; lia].
  apply (step_frame_bind E 1 0); [apply (_update_prd_step E req None) |].
  intros [doc|] w1 evs1 _; [| apply step_frame_ret].
  apply (step_frame_bind E 0 0); [apply step_frame_log |]. intros _ w2 evs2 _.
  apply step_frame_ret.
Qed.

(** ** The whole run *)

(** The feature route: after the five interactions that read the requirement,
    classify it, delete the stale bug report and list the PRDs, the rest of
    the run only touches the PRD repository. *)
Lemma run_feature_route (E : Env) (w : World) (body res : string) :
  files w !! (DOCS_FILE_REPO E, REQUIREMENT_FILENAME E) = Some body ->
  aask E (llm_calls w) (IS_BUGFIX_PROMPT body) = Ok res ->
  str_in "YES" res = false ->
  exists o : Res RunResult * World * list Event,
    run E w = prepend [EvRepoGet (DOCS_FILE_REPO E) (REQUIREMENT_FILENAME E);
                       EvAsk (IS_BUGFIX_PROMPT body); EvLog (LogIsBugfix res);
                       EvRepoDelete (DOCS_FILE_REPO E) (BUGFIX_FILENAME E);
                       EvRepoGetAll (PRDS_FILE_REPO E)] o /\
    step_frame E (2 * length (existing_prds E w) + 1)
               (set_files (delete (DOCS_FILE_REPO E, BUGFIX_FILENAME E) (files w))
                          (set_llm_calls (S (llm_calls w)) w)) o.
Proof.
  intros Hreq Hask Hno. unfold run.
  rewrite bind_repo_get, Hreq. cbn [fmap option_fmap option_map].
  rewrite (bind_returns _ _ _ _ _ _ (_is_bugfix_answered E body res w Hask)), Hno.
  rewrite bind_repo_delete, bind_repo_get_all, !prepend_prepend.
  set (w0 := set_files _ _).
  change (docs_in (PRDS_FILE_REPO E) (files w0)) with (existing_prds E w).
  eexists. split; [reflexivity |].
  apply step_frame_bind; [apply scan_prds_step |]. intros scanned w1 evs1 _.
  apply (step_frame_bind E 1 0); [apply generate_if_unchanged_step |]. intros cs w2 evs2 _.
  apply step_frame_ret.
Qed.

Lemma run_frame (E : Env) (w : World) :
  (forall k, k.1 <> PRDS_FILE_REPO E ->
             k <> (DOCS_FILE_REPO E, REQUIREMENT_FILENAME E) ->
             k <> (DOCS_FILE_REPO E, BUGFIX_FILENAME E) ->
             files (world_of (run E w)) !! k = files w !! k) /\
  project_path (world_of (run E w)) = project_path w /\
  (truthy (project_name w) = true -> project_name (world_of (run E w)) = project_name w) /\
  length (oracle_calls (events_of (run E w))) <= 2 + 2 * length (existing_prds E w).
Proof.
  destruct (files w !! (DOCS_FILE_REPO E, REQUIREMENT_FILENAME E)) as [body|] eqn:Hreq.
  2: { unfold run. rewrite bind_repo_get, Hreq. cbn. repeat split; try done.
       unfold oracle_calls. cbn. lia. }
  destruct (aask E (llm_calls w) (IS_BUGFIX_PROMPT body)) as [res|e] eqn:Hask.
  2: { unfold run. rewrite bind_repo_get, Hreq. cbn [fmap option_fmap option_map].
       rewrite (bind_raises _ _ _ _ _ _ (_is_bugfix_failed E body w e Hask)). cbn.
       repeat split; try done. unfold oracle_calls. cbn. lia. }
  destruct (str_in "YES" res) eqn:Hyes.
  - unfold run. rewrite bind_repo_get, Hreq. cbn [fmap option_fmap option_map].
    rewrite (bind_returns _ _ _ _ _ _ (_is_bugfix_answered E body res w Hask)), Hyes.
    cbn. split; [| repeat split; try done; unfold oracle_calls; cbn; lia].
    intros k _ Hk1 Hk2. by rewrite !lookup_insert_ne.
  - destruct (run_feature_route E w body res Hreq Hask Hyes) as (o & -> & Hf & Hp & Hn & Hb).
    rewrite world_of_prepend, events_of_prepend. cbn in Hf, Hp, Hn.
    split; [intros k Hk _ Hk2; rewrite Hf by done; by apply lookup_delete_ne |].
    split; [done |]. split; [done |].
    rewrite oracle_calls_app, length_app.
    change (length (oracle_calls _)) with 1 at 1. lia.
Qed.

(** ** Where the interactions of a run go *)















(** X2: when the requirement file is missing, the run raises at once: the
    only interaction is the read of the requirement; the LLM is not called
    and the world is as it was. *)
Theorem run_without_requirement_raises (E : Env) (w : World) :
  files w !! (DOCS_FILE_REPO E, REQUIREMENT_FILENAME E) = None ->
  run E w = (Raise AttributeError, w,
             [EvRepoGet (DOCS_FILE_REPO E) (REQUIREMENT_FILENAME E)]).
Proof. intros Hreq. unfold run. rewrite bind_repo_get, Hreq. reflexivity. Qed.

Lemma run_without_requirement_witness :
  let E := sample_env relates_to_themes (answers_prd "editor") render_ok export_ok in
  let w := sample_world ∅ None None in
  run E w = (Raise AttributeError, w, [EvRepoGet "docs" "requirement.txt"]).
Proof.
  cbv zeta.
  apply (run_without_requirement_raises
           (sample_env relates_to_themes (answers_prd "editor") render_ok export_ok)).
  reflexivity.
Defined.

(** X3: when the LLM call of the bug classifier fails, the run raises that
    exception before anything is written: no file is saved or deleted, the
    PRDs are not listed, and CONFIG is untouched. *)
Theorem run_classification_failure_writes_nothing
        (E : Env) (w : World) (body : string) (e : Exn) :
  files w !! (DOCS_FILE_REPO E, REQUIREMENT_FILENAME E) = Some body ->
  aask E (llm_calls w) (IS_BUGFIX_PROMPT body) = Raise e ->
  result_of (run E w) = Raise e /\
  files (world_of (run E w)) = files w /\
  project_name (world_of (run E w)) = project_name w /\
  project_path (world_of (run E w)) = project_path w /\
  events_of (run E w) = [EvRepoGet (DOCS_FILE_REPO E) (REQUIREMENT_FILENAME E);
                         EvAsk (IS_BUGFIX_PROMPT body)].
Proof.
  intros Hreq Hask. unfold run.
  rewrite bind_repo_get, Hreq. cbn [fmap option_fmap option_map].
  rewrite (bind_raises _ _ _ _ _ _ (_is_bugfix_failed E body w e Hask)). cbn. done.
Qed.

Lemma run_classification_failure_witness :
  let E := sample_env llm_down (answers_prd "editor") render_ok export_ok in
  let w := sample_world (two_prds "Add dark mode toggle to settings") None None in
  result_of (run E w) = Raise LLMError /\
  files (world_of (run E w)) = files w /\
  project_name (world_of (run E w)) = project_name w /\
  project_path (world_of (run E w)) = project_path w /\
  events_of (run E w) = [EvRepoGet (DOCS_FILE_REPO E) (REQUIREMENT_FILENAME E);
                         EvAsk (IS_BUGFIX_PROMPT "Add dark mode toggle to settings")].
Proof.
  cbv zeta.
  apply (run_classification_failure_writes_nothing
           (sample_env llm_down (answers_prd "editor") render_ok export_ok)).
  - reflexivity.
  - reflexivity.
Defined.

(** X4: on the bug route the requirement text is moved, not lost: provided the
    bug-report file is not the requirement file itself, the bug-report file
    holds the text the requirement had, every file other than these two is
    as it was, and CONFIG and the working directory are untouched (no
    workspace rename). *)
Theorem bug_route_moves_the_requirement (E : Env) (w : World) (body res : string) :
  files w !! (DOCS_FILE_REPO E, REQUIREMENT_FILENAME E) = Some body ->
  aask E (llm_calls w) (IS_BUGFIX_PROMPT body) = Ok res ->
  str_in "YES" res = true ->
  REQUIREMENT_FILENAME E <> BUGFIX_FILENAME E ->
  files (world_of (run E w)) !! (DOCS_FILE_REPO E, BUGFIX_FILENAME E) = Some body /\
  (forall k, k <> (DOCS_FILE_REPO E, REQUIREMENT_FILENAME E) ->
             k <> (DOCS_FILE_REPO E, BUGFIX_FILENAME E) ->
             files (world_of (run E w)) !! k = files w !! k) /\
  project_name (world_of (run E w)) = project_name w /\
  project_path (world_of (run E w)) = project_path w /\
  workdir (world_of (run E w)) = workdir w /\
  renames (events_of (run E w)) = [].
Proof.
  intros Hreq Hask Hyes Hne. unfold run.
  rewrite bind_repo_get, Hreq. cbn [fmap option_fmap option_map].
  rewrite (bind_returns _ _ _ _ _ _ (_is_bugfix_answered E body res w Hask)), Hyes. cbn.
  split; [rewrite lookup_insert_ne by congruence; apply lookup_insert_eq |].
  split; [intros k Hk1 Hk2; by rewrite !lookup_insert_ne | done].
Qed.

Lemma bug_route_moves_the_requirement_witness :
  let E := sample_env (always "{is_bugfix: YES}") (answers_prd "editor") render_ok export_ok in
  let w := sample_world (two_prds "App crashes on login with null pointer")
                        None (Some "/home/me/workspace/editor") in
  files (world_of (run E w)) !! (DOCS_FILE_REPO E, BUGFIX_FILENAME E)
  = Some "App crashes on login with null pointer" /\
  (forall k, k <> (DOCS_FILE_REPO E, REQUIREMENT_FILENAME E) ->
             k <> (DOCS_FILE_REPO E, BUGFIX_FILENAME E) ->
             files (world_of (run E w)) !! k = files w !! k) /\
  project_name (world_of (run E w)) = project_name w /\
  project_path (world_of (run E w)) = project_path w /\
  workdir (world_of (run E w)) = workdir w /\
  renames (events_of (run E w)) = [].
Proof.
  cbv zeta.
  apply (bug_route_moves_the_requirement
           (sample_env (always "{is_bugfix: YES}") (answers_prd "editor") render_ok export_ok)
           _ _ "{is_bugfix: YES}").
  - reflexivity.
  - reflexivity.
  - reflexivity.
  - cbn. discriminate.
Defined.

(** X5: on the feature route the stale bug report is deleted before the PRDs
    are listed, and nothing the run does afterwards, whether it returns or
    raises, brings it back or touches the requirement: at the end there is no
    bug-report file and the requirement file still holds its text. *)
Theorem feature_route_drops_the_stale_bug_report
        (E : Env) (w : World) (body res : string) :
  files w !! (DOCS_FILE_REPO E, REQUIREMENT_FILENAME E) = Some body ->
  aask E (llm_calls w) (IS_BUGFIX_PROMPT body) = Ok res ->
  str_in "YES" res = false ->
  DOCS_FILE_REPO E <> PRDS_FILE_REPO E ->
  REQUIREMENT_FILENAME E <> BUGFIX_FILENAME E ->
  (exists rest,
      events_of (run E w) =
        [EvRepoGet (DOCS_FILE_REPO E) (REQUIREMENT_FILENAME E);
         EvAsk (IS_BUGFIX_PROMPT body); EvLog (LogIsBugfix res);
         EvRepoDelete (DOCS_FILE_REPO E) (BUGFIX_FILENAME E);
         EvRepoGetAll (PRDS_FILE_REPO E)] ++ rest) /\
  files (world_of (run E w)) !! (DOCS_FILE_REPO E, BUGFIX_FILENAME E) = None /\
  files (world_of (run E w)) !! (DOCS_FILE_REPO E, REQUIREMENT_FILENAME E) = Some body.
Proof.
  intros Hreq Hask Hno Hrepo Hname.
  destruct (run_feature_route E w body res Hreq Hask Hno) as (o & -> & Hf & _).
  rewrite world_of_prepend, events_of_prepend. cbn in Hf.
  split; [by eexists |].
  rewrite !Hf by done.
  split; [apply lookup_delete_eq |].
  rewrite lookup_delete_ne by congruence. done.
Qed.

Lemma feature_route_drops_the_stale_bug_report_witness :
  let E := sample_env relates_to_themes (answers_prd "editor") render_ok export_ok in
  let w := sample_world (<[("docs", "bugfix.txt") := "App crashed yesterday"]>
                           (two_prds "Add dark mode toggle to settings"))
                        None (Some "/home/me/workspace/editor") in
  (exists rest,
      events_of (run E w) =
        [EvRepoGet (DOCS_FILE_REPO E) (REQUIREMENT_FILENAME E);
         EvAsk (IS_BUGFIX_PROMPT "Add dark mode toggle to settings");
         EvLog (LogIsBugfix "{answer: NO}");
         EvRepoDelete (DOCS_FILE_REPO E) (BUGFIX_FILENAME E);
         EvRepoGetAll (PRDS_FILE_REPO E)] ++ rest) /\
  files (world_of (run E w)) !! (DOCS_FILE_REPO E, BUGFIX_FILENAME E) = None /\
  files (world_of (run E w)) !! (DOCS_FILE_REPO E, REQUIREMENT_FILENAME E)
  = Some "Add dark mode toggle to settings".
Proof.
  cbv zeta.
  apply (feature_route_drops_the_stale_bug_report
           (sample_env relates_to_themes (answers_prd "editor") render_ok export_ok)).
  - reflexivity.
  - reflexivity.
  - reflexivity.
  - cbn. discriminate.
  - cbn. discriminate.
Defined.

(** X7: a run never changes the configured project path, whatever its
    outcome. *)
Theorem run_keeps_the_project_path (E : Env) (w : World) :
  project_path (world_of (run E w)) = project_path w.
Proof. apply run_frame. Qed.

(** X8: a run that starts with a project name bound ends with that same name
    bound, whatever the LLM puts in the project-name field of the PRDs it
    writes and whatever the outcome of the run. *)
Theorem run_keeps_a_bound_project_name (E : Env) (w : World) :
  truthy (project_name w) = true ->
  project_name (world_of (run E w)) = project_name w.
Proof. apply run_frame. Qed.

Lemma run_keeps_a_bound_project_name_witness :
  let E := sample_env relates_to_themes (answers_prd "snake_game") render_ok export_ok in
  let w := sample_world (two_prds "Add dark mode toggle to settings")
                        (Some "editor") None in
  project_name (world_of (run E w)) = Some "editor".
Proof.
  cbv zeta.
  apply (run_keeps_a_bound_project_name
           (sample_env relates_to_themes (answers_prd "snake_game") render_ok export_ok)).
  reflexivity.
Defined.

(** X9: a run over N existing PRDs calls the LLM at most 2 + 2N times: once
    to classify the requirement, at most twice per PRD (verdict and merge),
    and at most once to generate. *)
Theorem run_calls_the_llm_a_bounded_number_of_times (E : Env) (w : World) :
  length (oracle_calls (events_of (run E w))) <= 2 + 2 * length (existing_prds E w).
Proof. apply run_frame. Qed.

(** X10: a run that returns a change set never returns an empty one, and the
    change set agrees with the store: every entry is keyed by the file name
    of its document, the document belongs to the PRD repository, and the
    store holds exactly the document's content under that name. *)
Theorem returned_change_set_is_stored
        (E : Env) (w : World) (c : string) (cs : gmap string Document) :
  result_of (run E w) = Ok (RActionOutput c cs) ->
  cs <> ∅ /\
  forall f d, cs !! f = Some d ->
    filename d = f /\
    root_path d = PRDS_FILE_REPO E /\
    files (world_of (run E w)) !! (PRDS_FILE_REPO E, f) = Some (content d).
Proof.
  intros Hres.
  pose proof (run_satisfies_spec E w) as [_ Hspec]. rewrite Hres in Hspec.
  destruct Hspec as (merged & _ & _ & Hsub & Hcase).
  destruct merged as [|d0 rest].
  - destruct Hcase as (d & -> & Hroot & _ & Hstored & _).
    split; [apply insert_non_empty |].
    intros f d' Hlook. apply lookup_singleton_Some in Hlook as [<- <-]. done.
  - destruct Hcase as (-> & Hfiles & _).
    pose proof (merged_filenames_NoDup E w _ Hsub) as Hnd.
    split; [intros Hempty; by apply record_all_empty in Hempty as [? _] |].
    intros f d Hlook. apply record_all_lookup_Some in Hlook as [Hd <-]; [| done].
    destruct (merged_is_existing E w _ d Hsub Hd) as [Hroot _].
    split; [done |]. split; [done |].
    rewrite Hfiles. by apply write_all_lookup.
Qed.

Lemma returned_change_set_is_stored_witness :
  let E := sample_env relates_to_themes (answers_prd "editor") render_ok export_ok in
  let w := sample_world (two_theme_prds "Add dark mode toggle to settings")
                        None (Some "/home/me/workspace/editor") in
  let cs : gmap string Document :=
    <[ "20231201.json" := mkDocument "docs/prds" "20231201.json" "quadrantChart" ]>
      {[ "20231203.json" := mkDocument "docs/prds" "20231203.json" "quadrantChart" ]} in
  cs <> ∅ /\
  forall f d, cs !! f = Some d ->
    filename d = f /\
    root_path d = PRDS_FILE_REPO E /\
    files (world_of (run E w)) !! (PRDS_FILE_REPO E, f) = Some (content d).
Proof.
  cbv zeta.
  apply (returned_change_set_is_stored
           (sample_env relates_to_themes (answers_prd "editor") render_ok export_ok) _ "").
  vm_compute. reflexivity.
Defined.

(** X11: the scan does not stop at the first merge: in a run that returns a
    change set, every existing PRD got its verdict, once and in the order of
    the listing, whatever the verdicts were; the PRDs with a YES verdict are
    among them, in that order. *)
Theorem scan_gives_every_prd_its_verdict
        (E : Env) (w : World) (c : string) (cs : gmap string Document) :
  result_of (run E w) = Ok (RActionOutput c cs) ->
  evaluated (events_of (run E w)) = root_relative_path <$> existing_prds E w /\
  sublist (classified_related (events_of (run E w))) (evaluated (events_of (run E w))).
Proof.
  intros Hres.
  pose proof (run_satisfies_spec E w) as [_ Hspec]. rewrite Hres in Hspec.
  destruct Hspec as (merged & Hev & Hrel & Hsub & _).
  split; [done |]. rewrite Hev, Hrel.
  apply (fmap_sublist (fun key => os_path_join key.1 key.2)) in Hsub.
  by rewrite <- !list_fmap_compose in Hsub.
Qed.

Lemma scan_gives_every_prd_its_verdict_witness :
  let E := sample_env relates_to_themes (answers_prd "editor") render_ok export_ok in
  let w := sample_world (two_prds "Add dark mode toggle to settings")
                        None (Some "/home/me/workspace/editor") in
  evaluated (events_of (run E w)) = root_relative_path <$> existing_prds E w /\
  sublist (classified_related (events_of (run E w))) (evaluated (events_of (run E w))).
Proof.
  cbv zeta.
  apply (scan_gives_every_prd_its_verdict
           (sample_env relates_to_themes (answers_prd "editor") render_ok export_ok) _ ""
           {[ "20231201.json" := mkDocument "docs/prds" "20231201.json" "quadrantChart" ]}).
  vm_compute. reflexivity.
Defined.

(** X12: a feature request is answered with a change set whenever nothing
    outside the action fails: the LLM answers and its PRDs parse, the format
    is known, stored PRDs decode to JSON objects, the side effects succeed,
    every PRD file name has a last component, and a project path is
    configured or a project name is bound. *)
Theorem feature_request_returns_a_change_set
        (E : Env) (w : World) (body res : string) :
  well_behaved E ->
  files w !! (DOCS_FILE_REPO E, REQUIREMENT_FILENAME E) = Some body ->
  aask E (llm_calls w) (IS_BUGFIX_PROMPT body) = Ok res ->
  str_in "YES" res = false ->
  Forall exportable (existing_prds E w) ->
  identity_resolvable w ->
  exists c cs, result_of (run E w) = Ok (RActionOutput c cs) /\ cs <> ∅.
Proof.
  intros Hwb Hreq Hask Hno Hexp Hid.
  destruct (run_returns_change_set E w body res Hwb Hreq Hask Hno Hexp Hid) as (c & cs & Hres).
  exists c, cs. split; [done |].
  pose proof (run_satisfies_spec E w) as [_ Hspec]. rewrite Hres in Hspec.
  destruct Hspec as (merged & _ & _ & _ & Hcase).
  destruct merged as [|d0 rest].
  - destruct Hcase as (d & -> & _). apply insert_non_empty.
  - destruct Hcase as (-> & _). intros Hempty. by apply record_all_empty in Hempty as [? _].
Qed.

Lemma feature_request_returns_a_change_set_witness :
  let E := sample_env relates_to_themes (answers_prd "editor") render_ok export_ok in
  let w := sample_world (two_prds "Add dark mode toggle to settings")
                        None (Some "/home/me/workspace/editor") in
  exists c cs, result_of (run E w) = Ok (RActionOutput c cs) /\ cs <> ∅.
Proof.
  cbv zeta.
  apply (feature_request_returns_a_change_set
           (sample_env relates_to_themes (answers_prd "editor") render_ok export_ok)
           _ "Add dark mode toggle to settings" "{answer: NO}").
  - apply sample_env_well_behaved.
  - reflexivity.
  - reflexivity.
  - reflexivity.
  - vm_compute. repeat constructor.
  - left. by eexists.
Defined.

(** ** More on ProjectNamer *)

Lemma unbound_path_tail (w : World) :
  truthy (project_path w) = false ->
  truthy (project_path w) && negb (truthy (project_name w)) = false.
Proof. intros ->. reflexivity. Qed.

(** X13: with neither a project path nor a project name bound, a structured
    candidate gives the project its name: the name becomes the candidate's
    project-name field, the workspace rename is invoked exactly once, with
    that name, and the path stays unbound. *)
Theorem resolve_binds_the_candidate_name (E : Env) (ao : ActionOutput) (w : World) :
  truthy (project_path w) = false ->
  truthy (project_name w) = false ->
  let n := Project_Name (instruct_content ao) in
  let o := _rename_workspace E (Structured ao) w in
  result_of o = Ok tt /\
  project_name (world_of o) = Some n /\
  project_path (world_of o) = project_path w /\
  workdir (world_of o) = renamed_root E (workdir w) n /\
  events_of o = [EvRenameRoot n].
Proof.
  intros Hp Hn n o. subst o.
  rewrite (_rename_workspace_tail E _ w (unbound_path_tail w Hp)).
  rewrite (bind_name_and_rename_unbound E (Structured ao) w n Hn eq_refl). cbn. done.
Qed.

Lemma resolve_binds_the_candidate_name_witness :
  let E := sample_env relates_to_themes (answers_prd "editor") render_ok export_ok in
  let ao := mkActionOutput "" (sample_prd "snake_game" "") in
  let w := sample_world (requirement_only "Add a snake game") None None in
  let o := _rename_workspace E (Structured ao) w in
  result_of o = Ok tt /\
  project_name (world_of o) = Some "snake_game" /\
  project_path (world_of o) = project_path w /\
  workdir (world_of o) = renamed_root E (workdir w) "snake_game" /\
  events_of o = [EvRenameRoot "snake_game"].
Proof.
  cbv zeta.
  apply (resolve_binds_the_candidate_name
           (sample_env relates_to_themes (answers_prd "editor") render_ok export_ok)
           (mkActionOutput "" (sample_prd "snake_game" ""))); reflexivity.
Defined.

(** X14: a candidate that is not an [ActionOutput] is read as text: with
    neither a path nor a name bound, the name is what [CodeParser.parse_str]
    finds in the block "Project Name", and the rename follows; when the
    parser raises, that exception is raised, no name is bound and no rename
    is invoked. *)
Theorem resolve_parses_a_raw_candidate (E : Env) (text : string) (w : World) :
  truthy (project_path w) = false ->
  truthy (project_name w) = false ->
  _rename_workspace E (RawText text) w =
    match parse_str E "Project Name" text with
    | Ok n => (Ok tt,
               set_workdir (renamed_root E (workdir w) n) (set_project_name (Some n) w),
               [EvRenameRoot n])
    | Raise e => (Raise e, w, [])
    end.
Proof.
  intros Hp Hn.
  rewrite (_rename_workspace_tail E _ w (unbound_path_tail w Hp)).
  destruct (parse_str E "Project Name" text) as [n|e] eqn:Hparse.
  - by apply bind_name_and_rename_unbound.
  - by apply bind_name_and_rename_unparsed.
Qed.

Lemma resolve_parses_a_raw_candidate_witness :
  let E := sample_env relates_to_themes (answers_prd "editor") render_ok export_ok in
  let w := sample_world (requirement_only "Add a snake game") None (Some "") in
  _rename_workspace E (RawText "snake_game") w =
    match parse_str E "Project Name" "snake_game" with
    | Ok n => (Ok tt,
               set_workdir (renamed_root E (workdir w) n) (set_project_name (Some n) w),
               [EvRenameRoot n])
    | Raise e => (Raise e, w, [])
    end.
Proof.
  cbv zeta.
  apply (resolve_parses_a_raw_candidate
           (sample_env relates_to_themes (answers_prd "editor") render_ok export_ok));
    reflexivity.
Defined.

(** X15: resolving twice with the same candidate changes nothing the second
    time: the project name and the project path after the second call are
    those after the first, in every configuration and for every candidate. *)
Theorem resolve_twice_is_resolve_once (E : Env) (prd : PrdAnswer) (w : World) :
  let w1 := world_of (_rename_workspace E prd w) in
  let w2 := world_of (_rename_workspace E prd w1) in
  project_name w2 = project_name w1 /\ project_path w2 = project_path w1.
Proof.
  cbv zeta. split; [| apply _rename_workspace_step].
  destruct (truthy (project_path w) && negb (truthy (project_name w))) eqn:Hc.
  - apply andb_true_iff in Hc as [Hp Hn]. apply negb_true_iff in Hn.
    apply truthy_Some in Hp as (p & Hp & Ht).
    rewrite (_rename_workspace_from_path E prd w p Hp Ht Hn). cbn [world_of fst snd].
    set (w1 := set_project_name _ w).
    destruct (str_truthy (Pathlib.name (Pathlib.Path p))) eqn:Hname.
    + apply _rename_workspace_step. cbn. exact Hname.
    + by rewrite (_rename_workspace_from_path E prd w1 p Hp Ht Hname).
  - rewrite (_rename_workspace_tail E prd w Hc).
    destruct (truthy (project_name w)) eqn:Hn.
    + apply truthy_Some in Hn as (n & Hn & Ht).
      rewrite (bind_name_and_rename_bound E prd w n Hn Ht). cbn [world_of fst snd].
      apply _rename_workspace_step. cbn. rewrite Hn. exact Ht.
    + assert (Hp : truthy (project_path w) = false)
        by (by destruct (truthy (project_path w))).
      destruct (ws_name_of E prd) as [n|e] eqn:Hws.
      * rewrite (bind_name_and_rename_unbound E prd w n Hn Hws). cbn [world_of fst snd].
        set (w1 := set_workdir _ _).
        destruct (str_truthy n) eqn:Hname.
        -- apply _rename_workspace_step. exact Hname.
        -- rewrite (_rename_workspace_tail E prd w1) by (cbn; by rewrite Hp).
           by rewrite (bind_name_and_rename_unbound E prd w1 n Hname Hws).
      * rewrite (bind_name_and_rename_unparsed E prd w e Hn Hws). cbn [world_of fst snd].
        rewrite (_rename_workspace_tail E prd w (unbound_path_tail w Hp)).
        by rewrite (bind_name_and_rename_unparsed E prd w e Hn Hws).
Qed.

(** ** More on the merge *)

(** X16: a merge attempted with no project name bound and no project path at
    all raises a [TypeError] before the prompt is built: the LLM is not
    called and the world is as it was. *)
Theorem merge_without_name_or_path_raises (E : Env) (req old : Document) (w : World) :
  truthy (project_name w) = false ->
  project_path w = None ->
  _merge E req old w = (Raise TypeError, w, []).
Proof.
  intros Hn Hp. unfold _merge, bind_name_from_path.
  rewrite bind_assoc, bind_get_world, Hn, Hp. reflexivity.
Qed.

Lemma merge_without_name_or_path_witness :
  let E := sample_env relates_to_themes (answers_prd "editor") render_ok export_ok in
  let req := mkDocument "docs" "requirement.txt" "Add dark mode toggle to settings" in
  let old := mkDocument "docs/prds" "20231201.json" "PRD: colour themes of the editor" in
  let w := sample_world (two_prds "Add dark mode toggle to settings") None None in
  _merge E req old w = (Raise TypeError, w, []).
Proof.
  cbv zeta.
  apply (merge_without_name_or_path_raises
           (sample_env relates_to_themes (answers_prd "editor") render_ok export_ok));
    reflexivity.
Defined.

Lemma bind_name_from_path_bound (E : Env) (w : World) :
  truthy (project_name w) = true -> bind_name_from_path w = (Ok tt, w, []).
Proof.
  intros Hn. unfold bind_name_from_path. rewrite bind_get_world, Hn. reflexivity.
Qed.

(** X17: a merge made with a project name already bound sends one prompt,
    built from the requirement text, the old PRD text and the bound name; the
    name stays bound as it was, whatever project name the regenerated PRD
    carries; and when the answer parses, the document returned is the old one
    with the regenerated content, and the workspace rename is invoked with the
    bound name. *)
Theorem merge_uses_the_bound_name
        (E : Env) (req old : Document) (w : World) (n : string) :
  project_name w = Some n -> str_truthy n = true ->
  let prompt := MERGE_PROMPT (content req) (content old) n in
  let o := _merge E req old w in
  oracle_calls (events_of o) = [prompt] /\
  project_name (world_of o) = Some n /\
  forall prd, aask_v1 E (llm_calls w) prompt (prompt_format E) = Ok prd ->
    result_of o = Ok (mkDocument (root_path old) (filename old)
                                 (prd_json E (instruct_content prd))) /\
    renames (events_of o) = [n].
Proof.
  intros Hn Ht prompt o. subst o. unfold _merge.
  assert (Hbound : truthy (project_name w) = true) by (by rewrite Hn).
  rewrite (bind_returns _ _ _ _ _ _ (bind_name_from_path_bound E w Hbound)),
    prepend_nil, bind_get_world, Hn.
  change (format_name (Some n)) with n. fold prompt. rewrite bind_llm_aask_v1.
  set (w1 := set_llm_calls (S (llm_calls w)) w).
  destruct (aask_v1 E (llm_calls w) prompt (prompt_format E)) as [prd|e] eqn:Hask.
  - assert (Hr : _rename_workspace E (Structured prd) w1 =
                 (Ok tt, set_workdir (renamed_root E (workdir w1) n) w1, [EvRenameRoot n])).
    { rewrite _rename_workspace_tail
        by (cbn; rewrite Hn; cbn [truthy]; rewrite Ht; apply andb_false_r).
      by apply bind_name_and_rename_bound. }
    rewrite (bind_returns _ _ _ _ _ _ Hr). cbn.
    split; [done |]. split; [done |].
    intros prd' Heq. injection Heq as <-. done.
  - cbn. split; [done |]. split; [done |]. intros prd' Heq. discriminate Heq.
Qed.

Lemma merge_uses_the_bound_name_witness :
  let E := sample_env relates_to_themes (answers_prd "snake_game") render_ok export_ok in
  let req := mkDocument "docs" "requirement.txt" "Add dark mode toggle to settings" in
  let old := mkDocument "docs/prds" "20231201.json" "PRD: colour themes of the editor" in
  let w := sample_world (two_prds "Add dark mode toggle to settings") (Some "editor") None in
  let prompt := MERGE_PROMPT (content req) (content old) "editor" in
  let o := _merge E req old w in
  oracle_calls (events_of o) = [prompt] /\
  project_name (world_of o) = Some "editor" /\
  forall prd, aask_v1 E (llm_calls w) prompt (prompt_format E) = Ok prd ->
    result_of o = Ok (mkDocument (root_path old) (filename old)
                                 (prd_json E (instruct_content prd))) /\
    renames (events_of o) = ["editor"].
Proof.
  cbv zeta.
  apply (merge_uses_the_bound_name
           (sample_env relates_to_themes (answers_prd "snake_game") render_ok export_ok));
    reflexivity.
Defined.

(** The document a merge returns is the old one with, as content, what the
    LLM answered to one of its structured calls. *)
Lemma _merge_result (E : Env) (req old : Document) (w : World) (d : Document) :
  result_of (_merge E req old w) = Ok d ->
  exists n p prd,
    aask_v1 E n p (prompt_format E) = Ok prd /\
    d = mkDocument (root_path old) (filename old) (prd_json E (instruct_content prd)).
Proof.
  unfold _merge, bind_name_from_path. rewrite bind_assoc, bind_get_world.
  assert (Hleaf : forall (w0 : World) (name : string),
             result_of
               (bind (llm_aask_v1 E (MERGE_PROMPT (content req) (content old) name)
                                  (prompt_format E))
                     (fun prd =>
                        _rename_workspace E (Structured prd) ;;
                        ret (mkDocument (root_path old) (filename old)
                                        (prd_json E (instruct_content prd)))) w0) = Ok d ->
             exists n p prd,
               aask_v1 E n p (prompt_format E) = Ok prd /\
               d = mkDocument (root_path old) (filename old)
                              (prd_json E (instruct_content prd))).
  { intros w0 name. rewrite bind_llm_aask_v1.
    destruct (aask_v1 E (llm_calls w0) _ (prompt_format E)) as [prd|e] eqn:Hask;
      [| discriminate].
    rewrite result_of_prepend.
    destruct (_rename_workspace E (Structured prd) (set_llm_calls (S (llm_calls w0)) w0))
      as [[[[]|e] w2] evs] eqn:Hrw.
    - rewrite (bind_returns _ _ _ _ _ _ Hrw). cbn. intros Hd. injection Hd as <-. eauto.
    - rewrite (bind_raises _ _ _ _ _ _ Hrw). discriminate. }
  destruct (negb (truthy (project_name w))).
  - destruct (project_path w) as [p|]; [| discriminate].
    rewrite bind_modify, bind_get_world. apply Hleaf.
  - rewrite bind_ret, bind_get_world. apply Hleaf.
Qed.

Lemma _merge_saves_nothing (E : Env) (req old : Document) (w : World) :
  existsb is_save (events_of (_merge E req old w)) = false.
Proof.
  unfold _merge, bind_name_from_path. rewrite bind_assoc, bind_get_world.
  assert (Hleaf : forall (w0 : World) (name : string),
             existsb is_save
               (events_of
                  (bind (llm_aask_v1 E (MERGE_PROMPT (content req) (content old) name)
                                     (prompt_format E))
                        (fun prd =>
                           _rename_workspace E (Structured prd) ;;
                           ret (mkDocument (root_path old) (filename old)
                                           (prd_json E (instruct_content prd)))) w0)) = false).
  { intros w0 name. rewrite bind_llm_aask_v1.
    destruct (aask_v1 E (llm_calls w0) _ (prompt_format E)) as [prd|e]; [| reflexivity].
    rewrite events_of_prepend.
    pose proof (_rename_workspace_frame E (Structured prd)
                  (set_llm_calls (S (llm_calls w0)) w0)) as (_ & _ & Hevs).
    destruct (_rename_workspace E (Structured prd) (set_llm_calls (S (llm_calls w0)) w0))
      as [[[[]|e] w2] evs] eqn:Hrw;
      [rewrite (bind_returns _ _ _ _ _ _ Hrw) | rewrite (bind_raises _ _ _ _ _ _ Hrw)];
      cbn in *; destruct Hevs as [-> | [n ->]]; reflexivity. }
  destruct (negb (truthy (project_name w))).
  - destruct (project_path w) as [p|]; [| reflexivity].
    rewrite bind_modify, bind_get_world. apply Hleaf.
  - rewrite bind_ret, bind_get_world. apply Hleaf.
Qed.

(** ** More on [_update_prd] *)

(** X18: when the merge of a related PRD raises (the LLM call fails, its
    answer does not parse, or the project cannot be named), [_update_prd]
    raises that exception before the save: the store is as it was and no file
    repository was written. *)
Theorem failed_merge_leaves_the_store
        (E : Env) (req old : Document) (w : World) (res : string) (e : Exn) :
  aask E (llm_calls w) (IS_RELATIVE_PROMPT (content old) (content req)) = Ok res ->
  str_in "YES" res = true ->
  result_of (_merge E req old (set_llm_calls (S (llm_calls w)) w)) = Raise e ->
  let o := _update_prd E req (Some old) w in
  result_of o = Raise e /\
  files (world_of o) = files w /\
  existsb is_save (events_of o) = false.
Proof.
  intros Hask Hyes Hfail o. subst o. unfold _update_prd. cbv beta iota.
  rewrite bind_assoc,
    (bind_returns _ _ _ _ _ _ (_is_relative_to_answered E req old w res Hask)), Hyes,
    bind_assoc.
  set (w1 := set_llm_calls (S (llm_calls w)) w) in *.
  pose proof (_merge_frame E req old w1) as (Hf & _).
  pose proof (_merge_saves_nothing E req old w1) as Hsave.
  destruct (_merge E req old w1) as [[[d|e'] w2] evs] eqn:Hmerge; cbn in Hfail; [discriminate |].
  injection Hfail as ->.
  rewrite (bind_raises _ _ _ _ _ _ Hmerge). cbn in *. done.
Qed.

Lemma failed_merge_leaves_the_store_witness :
  let E := sample_env relates_to_themes unparsable render_ok export_ok in
  let req := mkDocument "docs" "requirement.txt" "Add dark mode toggle to settings" in
  let old := mkDocument "docs/prds" "20231201.json" "PRD: colour themes of the editor" in
  let w := sample_world (two_prds "Add dark mode toggle to settings")
                        None (Some "/home/me/workspace/editor") in
  let o := _update_prd E req (Some old) w in
  result_of o = Raise ParseError /\
  files (world_of o) = files w /\
  existsb is_save (events_of o) = false.
Proof.
  cbv zeta.
  apply (failed_merge_leaves_the_store
           (sample_env relates_to_themes unparsable render_ok export_ok)
           _ _ _ "{answer: YES, reason: same feature}"); reflexivity.
Defined.

(** X19: a PRD the classifier does not find related is left entirely alone:
    [_update_prd] returns no document, its only interactions are the question
    to the LLM and the log of the verdict, and nothing of the world changes
    but the count of LLM calls (no file, no project name, no rename, no side
    effect). *)
Theorem unrelated_prd_is_left_alone
        (E : Env) (req old : Document) (w : World) (res : string) :
  aask E (llm_calls w) (IS_RELATIVE_PROMPT (content old) (content req)) = Ok res ->
  str_in "YES" res = false ->
  _update_prd E req (Some old) w =
    (Ok None, set_llm_calls (S (llm_calls w)) w,
     [EvAsk (IS_RELATIVE_PROMPT (content old) (content req));
      EvLog (LogReqRelative (root_relative_path req) (root_relative_path old) res)]).
Proof.
  intros Hask Hno. unfold _update_prd. cbv beta iota.
  rewrite bind_assoc,
    (bind_returns _ _ _ _ _ _ (_is_relative_to_answered E req old w res Hask)), Hno,
    bind_ret.
  reflexivity.
Qed.

Lemma unrelated_prd_is_left_alone_witness :
  let E := sample_env relates_to_themes (answers_prd "editor") render_ok export_ok in
  let req := mkDocument "docs" "requirement.txt" "Add dark mode toggle to settings" in
  let old := mkDocument "docs/prds" "20231203.json" "PRD: export to PDF" in
  let w := sample_world (two_prds "Add dark mode toggle to settings")
                        None (Some "/home/me/workspace/editor") in
  _update_prd E req (Some old) w =
    (Ok None, set_llm_calls (S (llm_calls w)) w,
     [EvAsk (IS_RELATIVE_PROMPT (content old) (content req));
      EvLog (LogReqRelative (root_relative_path req) (root_relative_path old)
                            "{answer: NO}")]).
Proof.
  cbv zeta.
  apply (unrelated_prd_is_left_alone
           (sample_env relates_to_themes (answers_prd "editor") render_ok export_ok));
    reflexivity.
Defined.

(** ** The two side effects *)

(** X21: [_save_competitive_analysis] makes a directory only when it is
    missing, never removes one, and renders only a chart that is truthy, to
    the path of the PRD's file name without its suffix under the competitive
    analysis directory of the working tree. *)
Theorem analysis_makes_only_a_missing_directory (E : Env) (doc : Document) (w : World) :
  let o := _save_competitive_analysis E doc w in
  dirs w ⊆ dirs (world_of o) /\
  (forall dir, EvMkdir dir ∈ events_of o -> Pathlib.to_str dir ∉ dirs w) /\
  (forall chart pathname,
      EvMermaid chart pathname ∈ events_of o ->
      jtruthy chart = true /\
      exists stripped,
        Pathlib.with_suffix_empty (Pathlib.Path (filename doc)) = Ok stripped /\
        pathname =
          Pathlib.joinpath
            (Pathlib.joinpath (workdir w) (Pathlib.Path (COMPETITIVE_ANALYSIS_FILE_REPO E)))
            stripped).
Proof.
  cbv zeta. unfold _save_competitive_analysis, path_mkdir.
  repeat (repeat (first [run_step | rewrite bind_path_exists]); try split_outcome);
    cbn.
  all: split; [set_solver |].
  all: split; [intros dir Hin | intros chart pathname Hin].
  all: set_unfold in Hin; destruct_or?; simplify_eq; try done.
  all: repeat match goal with
         | H : negb _ = true |- _ => apply negb_true_iff in H
         | H : negb _ = false |- _ => apply negb_false_iff in H
         | H : bool_decide _ = false |- _ => apply bool_decide_eq_false in H
         end.
  all: try done; eauto.
Qed.

(** ** What the run publishes *)

Lemma bind_result_inv {A B} (m : M A) (f : A -> M B) (w : World) (b : B) :
  result_of (bind m f w) = Ok b ->
  exists a w1 evs,
    m w = (Ok a, w1, evs) /\
    result_of (f a w1) = Ok b /\
    events_of (bind m f w) = evs ++ events_of (f a w1).
Proof.
  intros Hres. destruct (m w) as [[[a|e] w1] evs] eqn:Hm.
  - rewrite (bind_returns _ _ _ _ _ _ Hm) in Hres |- *.
    rewrite result_of_prepend in Hres. rewrite events_of_prepend. by exists a, w1, evs.
  - rewrite (bind_raises _ _ _ _ _ _ Hm) in Hres. discriminate.
Qed.

Lemma published_app_l (E : Env) (d : Document) (evs evs' : list Event) :
  published E d evs -> published E d (evs ++ evs').
Proof. intros [Hsave Hexport]. split; apply elem_of_app; by left. Qed.

Lemma published_app_r (E : Env) (d : Document) (evs evs' : list Event) :
  published E d evs' -> published E d (evs ++ evs').
Proof. intros [Hsave Hexport]. split; apply elem_of_app; by right. Qed.

Lemma _update_prd_published (E : Env) (req : Document) (prd_doc : option Document)
      (w : World) (d : Document) :
  result_of (_update_prd E req prd_doc w) = Ok (Some d) ->
  published E d (events_of (_update_prd E req prd_doc w)).
Proof.
  unfold _update_prd. intros Hres.
  apply bind_result_inv in Hres as (nd & w1 & evs & _ & Hres & ->).
  apply published_app_r. destruct nd as [doc|]; [| discriminate].
  rewrite bind_repo_save in Hres |- *.
  rewrite result_of_prepend in Hres. rewrite events_of_prepend.
  apply bind_result_inv in Hres as ([] & w2 & evs2 & _ & Hres & ->).
  apply bind_result_inv in Hres as ([] & w3 & evs3 & Hpdf & Hres & ->).
  injection Hres as <-. unfold _save_pdf, call in Hpdf. injection Hpdf as _ _ <-.
  unfold published. set_solver.
Qed.

(** X20: a merge that regenerates the PRD as it was changes no document.
    If whatever the LLM answers serialises to the content the PRD already
    has, and the PRD repository holds that content under the PRD's name, then
    after [_update_prd], whatever its outcome, the PRD repository and the
    docs repository hold what they held; and a document that comes back is
    the old one, key and content equal, which has all the same been saved
    and exported once more. *)
Theorem regenerating_merge_changes_no_document
        (E : Env) (req old : Document) (w : World) :
  (forall n p format prd,
      aask_v1 E n p format = Ok prd -> prd_json E (instruct_content prd) = content old) ->
  files w !! (PRDS_FILE_REPO E, filename old) = Some (content old) ->
  let o := _update_prd E req (Some old) w in
  (forall f, files (world_of o) !! (PRDS_FILE_REPO E, f) = files w !! (PRDS_FILE_REPO E, f)) /\
  (forall f, files (world_of o) !! (DOCS_FILE_REPO E, f) = files w !! (DOCS_FILE_REPO E, f)) /\
  forall d, result_of o = Ok (Some d) -> d = old /\ published E old (events_of o).
Proof.
  intros Hstub Hstored o.
  assert (Hsame : files (world_of o) = files w /\ forall d, result_of o = Ok (Some d) -> d = old).
  { subst o. unfold _update_prd. cbv beta iota. rewrite bind_assoc.
    destruct (aask E (llm_calls w) (IS_RELATIVE_PROMPT (content old) (content req)))
      as [res|e] eqn:Hask.
    2: { rewrite (bind_raises _ _ _ _ _ _ (_is_relative_to_failed E req old w e Hask)). done. }
    rewrite (bind_returns _ _ _ _ _ _ (_is_relative_to_answered E req old w res Hask)).
    set (w1 := set_llm_calls (S (llm_calls w)) w).
    destruct (str_in "YES" res); [| rewrite bind_ret; cbn; done].
    rewrite bind_assoc.
    pose proof (_merge_frame E req old w1) as (Hf & _).
    pose proof (_merge_result E req old w1) as Hd.
    destruct (_merge E req old w1) as [[[d|e] w2] evs] eqn:Hmerge; cbn in Hf, Hd.
    2: { rewrite (bind_raises _ _ _ _ _ _ Hmerge). cbn. done. }
    destruct (Hd d eq_refl) as (n & p & prd & Hv1 & ->).
    rewrite (Hstub _ _ _ _ Hv1) in Hmerge.
    replace (mkDocument (root_path old) (filename old) (content old)) with old in Hmerge
      by (by destruct old).
    rewrite (bind_returns _ _ _ _ _ _ Hmerge), bind_ret.
    pose proof (persist_frame E old w2) as (Hpf & _ & _ & _ & Hpr).
    rewrite world_of_prepend, world_of_prepend, !result_of_prepend.
    split.
    - rewrite Hpf, Hf. apply insert_id. exact Hstored.
    - intros d Hres. specialize (Hpr _ Hres). by injection Hpr. }
  destruct Hsame as [Hfiles Hold].
  split; [intros f; by rewrite Hfiles |]. split; [intros f; by rewrite Hfiles |].
  intros d Hres. pose proof (Hold d Hres) as ->. split; [reflexivity |].
  by apply _update_prd_published.
Qed.

Lemma regenerating_merge_changes_no_document_witness :
  let prd := sample_prd "editor" "quadrantChart" in
  let E := sample_env (always "YES") (regenerates prd) render_ok export_ok in
  let req := mkDocument "docs" "requirement.txt" "Add dark mode toggle to settings" in
  let old := mkDocument "docs/prds" "20231201.json" "quadrantChart" in
  let w := sample_world (<[("docs/prds", "20231201.json") := "quadrantChart"]>
                           (requirement_only "Add dark mode toggle to settings"))
                        None (Some "/home/me/workspace/editor") in
  let o := _update_prd E req (Some old) w in
  (result_of o = Ok (Some old) /\
   oracle_calls (events_of o) =
     [IS_RELATIVE_PROMPT "quadrantChart" "Add dark mode toggle to settings";
      MERGE_PROMPT "Add dark mode toggle to settings" "quadrantChart" "editor"]) /\
  (forall f, files (world_of o) !! (PRDS_FILE_REPO E, f) = files w !! (PRDS_FILE_REPO E, f)) /\
  (forall f, files (world_of o) !! (DOCS_FILE_REPO E, f) = files w !! (DOCS_FILE_REPO E, f)) /\
  forall d, result_of o = Ok (Some d) -> d = old /\ published E old (events_of o).
Proof.
  cbv zeta. split; [split; vm_compute; reflexivity |].
  apply (regenerating_merge_changes_no_document
           (sample_env (always "YES")
                       (regenerates (sample_prd "editor" "quadrantChart"))
                       render_ok export_ok)).
  - intros n p format prd Hask. injection Hask as <-. reflexivity.
  - reflexivity.
Defined.

Lemma scan_prds_published (E : Env) (req : Document) (docs : list Document) :
  forall (cs cs' : gmap string Document) (w : World),
    result_of (scan_prds E req docs cs w) = Ok cs' ->
    forall f d, cs' !! f = Some d ->
                cs !! f = Some d \/ published E d (events_of (scan_prds E req docs cs w)).
Proof.
  induction docs as [|old rest IH]; intros cs cs' w Hres f d Hlook.
  - injection Hres as <-. by left.
  - rewrite scan_prds_cons in Hres |- *.
    apply bind_result_inv in Hres as (updated & w1 & evs & Hupd & Hres & ->).
    destruct updated as [doc|].
    + unfold log in Hres |- *. rewrite bind_emit in Hres |- *.
      rewrite result_of_prepend in Hres. rewrite events_of_prepend.
      destruct (IH _ _ _ Hres f d Hlook) as [Hold | Hpub].
      * destruct (decide (filename doc = f)) as [<- | Hne].
        -- rewrite lookup_insert_eq in Hold. injection Hold as <-. right.
           apply published_app_l.
           pose proof (_update_prd_published E req (Some old) w doc) as Hpub.
           rewrite Hupd in Hpub. by apply Hpub.
        -- rewrite lookup_insert_ne in Hold by done. by left.
      * right. by apply published_app_r, published_app_r.
    + destruct (IH _ _ _ Hres f d Hlook) as [Hold | Hpub]; [by left |].
      right. by apply published_app_r.
Qed.

Lemma generate_if_unchanged_published (E : Env) (req : Document)
      (cs cs' : gmap string Document) (w : World) :
  result_of (generate_if_unchanged E req cs w) = Ok cs' ->
  forall f d, cs' !! f = Some d ->
              cs !! f = Some d \/
              published E d (events_of (generate_if_unchanged E req cs w)).
Proof.
  unfold generate_if_unchanged. intros Hres f d Hlook.
  destruct (bool_decide (cs = ∅)); [| injection Hres as <-; by left].
  apply bind_result_inv in Hres as (created & w1 & evs & Hupd & Hres & ->).
  destruct created as [doc|]; [| injection Hres as <-; by left].
  unfold log in Hres. rewrite bind_emit in Hres. injection Hres as <-.
  destruct (decide (filename doc = f)) as [<- | Hne].
  - rewrite lookup_insert_eq in Hlook. injection Hlook as <-. right.
    apply published_app_l.
    pose proof (_update_prd_published E req None w doc) as Hpub.
    rewrite Hupd in Hpub. by apply Hpub.
  - rewrite lookup_insert_ne in Hlook by done. by left.
Qed.

(** X22: every document of the change set a run returns was published
    during that run: it was written to the PRD repository under its own file
    name with the content it has in the change set, and that same document
    was exported as markdown to the PDF repository. *)
Theorem change_set_was_saved_and_exported
        (E : Env) (w : World) (c : string) (cs : gmap string Document) :
  result_of (run E w) = Ok (RActionOutput c cs) ->
  forall f d, cs !! f = Some d -> published E d (events_of (run E w)).
Proof.
  unfold run. intros Hres f d Hlook.
  rewrite bind_repo_get in Hres |- *.
  rewrite result_of_prepend in Hres. rewrite events_of_prepend. apply published_app_r.
  destruct (files w !! (DOCS_FILE_REPO E, REQUIREMENT_FILENAME E)) as [body|];
    cbn [fmap option_fmap option_map] in Hres |- *; [| discriminate].
  apply bind_result_inv in Hres as (is_bug & w1 & evs & _ & Hres & ->).
  apply published_app_r. destruct is_bug; [discriminate |].
  rewrite bind_repo_delete, bind_repo_get_all, prepend_prepend in Hres |- *.
  rewrite result_of_prepend in Hres. rewrite events_of_prepend. apply published_app_r.
  apply bind_result_inv in Hres as (scanned & w2 & evs2 & Hscan & Hres & ->).
  apply bind_result_inv in Hres as (changed & w3 & evs3 & Hgen & Hres & ->).
  injection Hres as _ <-.
  set (req := mkDocument _ _ body) in *.
  pose proof (generate_if_unchanged_published E req scanned changed w2) as Hnew.
  rewrite Hgen in Hnew. destruct (Hnew eq_refl f d Hlook) as [Hold | Hpub].
  - match type of Hscan with
    | scan_prds _ _ ?docs _ ?w0 = _ =>
        pose proof (scan_prds_published E req docs ∅ scanned w0) as Hmerged
    end.
    rewrite Hscan in Hmerged. destruct (Hmerged eq_refl f d Hold) as [Hnone | Hpub].
    + by rewrite lookup_empty in Hnone.
    + by apply published_app_l.
  - by apply published_app_r, published_app_l.
Qed.

Lemma change_set_was_saved_and_exported_witness :
  let E := sample_env relates_to_themes (answers_prd "editor") render_ok export_ok in
  let w := sample_world (two_theme_prds "Add dark mode toggle to settings")
                        None (Some "/home/me/workspace/editor") in
  published E (mkDocument "docs/prds" "20231203.json" "quadrantChart") (events_of (run E w)).
Proof.
  cbv zeta.
  apply (change_set_was_saved_and_exported
           (sample_env relates_to_themes (answers_prd "editor") render_ok export_ok)
           (sample_world (two_theme_prds "Add dark mode toggle to settings")
                         None (Some "/home/me/workspace/editor"))
           ""
           (<[ "20231201.json" := mkDocument "docs/prds" "20231201.json" "quadrantChart" ]>
              {[ "20231203.json" := mkDocument "docs/prds" "20231203.json" "quadrantChart" ]}))
    with (f := "20231203.json").
  - vm_compute. reflexivity.
  - vm_compute. reflexivity.
Defined.

Lemma record_all_lookup_None (merged : list Document) (cs : gmap string Document) (f : string) :
  record_all cs merged !! f = None -> f ∉ filename <$> merged.
Proof.
  revert cs. induction merged as [|d rest IH]; intros cs Hnone; [apply not_elem_of_nil |].
  unfold record_all in *. cbn in Hnone |- *.
  pose proof (IH _ Hnone) as Hrest.
  apply not_elem_of_cons. split; [| done]. intros ->.
  pose proof (record_all_lookup_other rest (<[filename d := d]> cs) (filename d) Hrest) as Hkeep.
  unfold record_all in Hkeep. rewrite Hnone, lookup_insert_eq in Hkeep. discriminate.
Qed.

(** X23: a run that returns a change set has left every other PRD alone: a
    file of the PRD repository whose name is not a key of the change set has,
    after the run, the content it had before, and a name that was free is
    still free. *)
Theorem run_leaves_the_other_prds
        (E : Env) (w : World) (c : string) (cs : gmap string Document) :
  DOCS_FILE_REPO E <> PRDS_FILE_REPO E ->
  result_of (run E w) = Ok (RActionOutput c cs) ->
  forall f, cs !! f = None ->
            files (world_of (run E w)) !! (PRDS_FILE_REPO E, f)
            = files w !! (PRDS_FILE_REPO E, f).
Proof.
  intros Hrepo Hres f Hnone. revert Hres. unfold run. rewrite bind_repo_get.
  destruct (files w !! (DOCS_FILE_REPO E, REQUIREMENT_FILENAME E)) as [body|];
    cbn [fmap option_fmap option_map]; [| discriminate].
  set (req := mkDocument _ _ body).
  destruct (aask E (llm_calls w) (IS_BUGFIX_PROMPT body)) as [res|e] eqn:Hask.
  2: { rewrite (bind_raises _ _ _ _ _ _ (_is_bugfix_failed E body w e Hask)). discriminate. }
  rewrite (bind_returns _ _ _ _ _ _ (_is_bugfix_answered E body res w Hask)).
  destruct (str_in "YES" res); [discriminate |].
  rewrite bind_repo_delete, bind_repo_get_all, !prepend_prepend.
  set (w0 := set_files _ _).
  assert (Hw0 : files w0 !! (PRDS_FILE_REPO E, f) = files w !! (PRDS_FILE_REPO E, f)).
  { subst w0. cbn. apply lookup_delete_ne. intros [= Heq _]. by apply Hrepo. }
  pose proof (scan_prds_spec E req (docs_in (PRDS_FILE_REPO E) (files w0)) ∅ w0)
    as (_ & _ & _ & Hscanned).
  destruct (scan_prds E req (docs_in (PRDS_FILE_REPO E) (files w0)) ∅ w0)
    as [[[scanned|e] w1] evs] eqn:Hscan; cbn in Hscanned.
  2: { rewrite (bind_raises _ _ _ _ _ _ Hscan). discriminate. }
  rewrite (bind_returns _ _ _ _ _ _ Hscan).
  destruct Hscanned as (merged & -> & Hfiles & _).
  pose proof (generate_if_unchanged_spec E req (record_all ∅ merged) w1)
    as (_ & _ & _ & Hcreated).
  destruct (generate_if_unchanged E req (record_all ∅ merged) w1)
    as [[[changed|e] w2] evs2] eqn:Hgen; cbn in Hcreated.
  2: { rewrite (bind_raises _ _ _ _ _ _ Hgen). discriminate. }
  rewrite (bind_returns _ _ _ _ _ _ Hgen).
  rewrite !result_of_prepend, !world_of_prepend. cbn. intros [= _ <-].
  rewrite <- Hw0.
  destruct (bool_decide (record_all ∅ merged = ∅)) eqn:Hempty.
  - apply bool_decide_eq_true, record_all_empty in Hempty as [-> _].
    destruct Hcreated as (d & -> & _ & _ & -> & _). cbn in Hfiles. rewrite Hfiles.
    apply lookup_insert_ne. intros [= <-].
    by rewrite lookup_singleton_eq in Hnone.
  - destruct Hcreated as (-> & -> & _). rewrite Hfiles.
    apply write_all_lookup_other. apply record_all_lookup_None in Hnone.
    intros Hin. apply Hnone. apply list_elem_of_fmap in Hin as (d & [= ->] & Hd).
    by apply list_elem_of_fmap_2.
Qed.

Lemma run_leaves_the_other_prds_witness :
  let E := sample_env relates_to_themes (answers_prd "editor") render_ok export_ok in
  let w := sample_world (two_prds "Add dark mode toggle to settings")
                        None (Some "/home/me/workspace/editor") in
  files (world_of (run E w)) !! (PRDS_FILE_REPO E, "20231203.json")
  = files w !! (PRDS_FILE_REPO E, "20231203.json").
Proof.
  cbv zeta.
  apply (run_leaves_the_other_prds
           (sample_env relates_to_themes (answers_prd "editor") render_ok export_ok)
           (sample_world (two_prds "Add dark mode toggle to settings")
                         None (Some "/home/me/workspace/editor"))
           ""
           {[ "20231201.json" := mkDocument "docs/prds" "20231201.json" "quadrantChart" ]}).
  - cbn. discriminate.
  - vm_compute. reflexivity.
  - vm_compute. reflexivity.
Defined.

(** ** When no structured answer can be had *)

Ltac no_answer Hdown :=
  match goal with
  | |- context [aask_v1 ?E ?n ?p ?f] =>
      let e := fresh "e" in
      let He := fresh "He" in
      destruct (Hdown n p f) as [e He]; rewrite He
  end.

Lemma _merge_no_answer (E : Env) (req old : Document) (w : World) :
  no_structured_answer E ->
  exists e w1 evs,
    _merge E req old w = (Raise e, w1, evs) /\
    files w1 = files w /\ Forall (fun ev => outputs E ev = false) evs.
Proof.
  intros Hdown. unfold _merge, bind_name_from_path. rewrite bind_assoc, bind_get_world.
  destruct (negb (truthy (project_name w))).
  - destruct (project_path w) as [p|].
    + rewrite bind_modify, bind_get_world, bind_llm_aask_v1. no_answer Hdown.
      eexists _, _, _. split; [reflexivity |]. split; [reflexivity | by repeat constructor].
    + eexists _, _, _. split; [reflexivity |]. split; [reflexivity | constructor].
  - rewrite bind_ret, bind_get_world, bind_llm_aask_v1. no_answer Hdown.
    eexists _, _, _. split; [reflexivity |]. split; [reflexivity | by repeat constructor].
Qed.

Lemma _run_new_requirement_no_answer (E : Env) (requirements : list string) (w : World) :
  no_structured_answer E ->
  exists e w1 evs,
    _run_new_requirement E requirements w = (Raise e, w1, evs) /\
    files w1 = files w /\ Forall (fun ev => outputs E ev = false) evs.
Proof.
  intros Hdown. unfold _run_new_requirement, log.
  destruct (str_truthy (sas_result E)).
  - rewrite !bind_assoc, bind_emit, bind_emit, prepend_prepend, bind_lift.
    destruct (get_template E (prompt_format E)) as [tpl|e].
    + rewrite bind_get_world, bind_llm_aask_v1. no_answer Hdown.
      eexists _, _, _. split; [reflexivity |]. split; [reflexivity | by repeat constructor].
    + eexists _, _, _. split; [reflexivity |]. split; [reflexivity | by repeat constructor].
  - rewrite bind_ret, bind_lift.
    destruct (get_template E (prompt_format E)) as [tpl|e].
    + rewrite bind_get_world, bind_llm_aask_v1. no_answer Hdown.
      eexists _, _, _. split; [reflexivity |]. split; [reflexivity | by repeat constructor].
    + eexists _, _, _. split; [reflexivity |]. split; [reflexivity | by repeat constructor].
Qed.

Lemma _update_prd_no_answer (E : Env) (req : Document) (prd_doc : option Document)
      (w : World) :
  no_structured_answer E ->
  nothing_published E w (_update_prd E req prd_doc w) /\
  forall d, result_of (_update_prd E req prd_doc w) <> Ok (Some d).
Proof.
  intros Hdown. unfold _update_prd, nothing_published. destruct prd_doc as [old|].
  - rewrite bind_assoc.
    destruct (aask E (llm_calls w) (IS_RELATIVE_PROMPT (content old) (content req)))
      as [res|e] eqn:Hask.
    + rewrite (bind_returns _ _ _ _ _ _ (_is_relative_to_answered E req old w res Hask)).
      destruct (str_in "YES" res).
      * rewrite bind_assoc.
        destruct (_merge_no_answer E req old (set_llm_calls (S (llm_calls w)) w) Hdown)
          as (e & w1 & evs & Hmerge & Hfiles & Hevs).
        rewrite (bind_raises _ _ _ _ _ _ Hmerge). cbn.
        split; [split; [done | by repeat constructor] | done].
      * rewrite bind_ret. cbn. split; [split; [done | by repeat constructor] | done].
    + rewrite (bind_raises _ _ _ _ _ _ (_is_relative_to_failed E req old w e Hask)). cbn.
      split; [split; [done | by repeat constructor] | done].
  - rewrite bind_assoc.
    destruct (_run_new_requirement_no_answer E [content req] w Hdown)
      as (e & w1 & evs & Hgen & Hfiles & Hevs).
    rewrite (bind_raises _ _ _ _ _ _ Hgen). cbn. done.
Qed.

Lemma scan_prds_no_answer (E : Env) (req : Document) (docs : list Document) :
  no_structured_answer E ->
  forall (cs : gmap string Document) (w : World),
    nothing_published E w (scan_prds E req docs cs w) /\
    forall cs', result_of (scan_prds E req docs cs w) = Ok cs' -> cs' = cs.
Proof.
  intros Hdown. induction docs as [|old rest IH]; intros cs w.
  - unfold nothing_published. cbn. split; [done |]. by intros cs' [= <-].
  - rewrite scan_prds_cons.
    destruct (_update_prd_no_answer E req (Some old) w Hdown) as [[Hfiles Hevs] Hnone].
    destruct (_update_prd E req (Some old) w) as [[[[d|]|e] w1] evs] eqn:Hupd;
      cbn in Hfiles, Hevs, Hnone.
    + by destruct (Hnone d).
    + rewrite (bind_returns _ _ _ _ _ _ Hupd).
      destruct (IH cs w1) as [[Hfiles' Hevs'] Hsame].
      unfold nothing_published.
      rewrite world_of_prepend, events_of_prepend, result_of_prepend.
      split; [split; [congruence | by apply Forall_app] | done].
    + rewrite (bind_raises _ _ _ _ _ _ Hupd). unfold nothing_published. cbn. done.
Qed.

Lemma generate_if_unchanged_no_answer (E : Env) (req : Document)
      (cs : gmap string Document) (w : World) :
  no_structured_answer E ->
  nothing_published E w (generate_if_unchanged E req cs w) /\
  forall cs', result_of (generate_if_unchanged E req cs w) = Ok cs' -> cs <> ∅.
Proof.
  intros Hdown. unfold generate_if_unchanged.
  destruct (bool_decide (cs = ∅)) eqn:Hempty.
  - destruct (_update_prd_no_answer E req None w Hdown) as [[Hfiles Hevs] Hnone].
    pose proof (_update_prd_new E req w) as (_ & _ & _ & Hnew).
    destruct (_update_prd E req None w) as [[[r|e] w1] evs] eqn:Hupd;
      cbn in Hfiles, Hevs, Hnone, Hnew.
    + destruct Hnew as (d & -> & _). by destruct (Hnone d).
    + rewrite (bind_raises _ _ _ _ _ _ Hupd). unfold nothing_published. cbn. done.
  - apply bool_decide_eq_false in Hempty. unfold nothing_published. cbn. done.
Qed.

(** X24: when no structured answer can be had from the LLM (it is down, or
    what it answers never parses), a run leaves nothing of a PRD behind: it
    returns no change set, it neither writes to the PRD repository nor makes
    a directory, renders a chart or exports a document, and every file of the
    PRD repository is as it was. *)
Theorem run_without_structured_answers_publishes_nothing (E : Env) (w : World) :
  no_structured_answer E ->
  DOCS_FILE_REPO E <> PRDS_FILE_REPO E ->
  (forall c cs, result_of (run E w) <> Ok (RActionOutput c cs)) /\
  Forall (fun ev => outputs E ev = false) (events_of (run E w)) /\
  forall f, files (world_of (run E w)) !! (PRDS_FILE_REPO E, f)
            = files w !! (PRDS_FILE_REPO E, f).
Proof.
  intros Hdown Hrepo.
  assert (Hdocs : forall f body, outputs E (EvRepoSave (DOCS_FILE_REPO E) f body) = false).
  { intros f body. cbn. by apply bool_decide_eq_false. }
  unfold run. rewrite bind_repo_get.
  destruct (files w !! (DOCS_FILE_REPO E, REQUIREMENT_FILENAME E)) as [body|];
    cbn [fmap option_fmap option_map].
  2: { cbn. split; [done |]. split; [by repeat constructor | done]. }
  set (req := mkDocument _ _ body).
  destruct (aask E (llm_calls w) (IS_BUGFIX_PROMPT body)) as [res|e] eqn:Hask.
  2: { rewrite (bind_raises _ _ _ _ _ _ (_is_bugfix_failed E body w e Hask)). cbn.
       split; [done |]. split; [by repeat constructor | done]. }
  rewrite (bind_returns _ _ _ _ _ _ (_is_bugfix_answered E body res w Hask)).
  destruct (str_in "YES" res).
  { cbn. split; [done |]. split; [repeat constructor; apply Hdocs |].
    intros f. rewrite !lookup_insert_ne; [done | |]; intros [= Heq _]; by apply Hrepo. }
  rewrite bind_repo_delete, bind_repo_get_all, !prepend_prepend.
  set (w0 := set_files _ _).
  assert (Hw0 : forall f, files w0 !! (PRDS_FILE_REPO E, f) = files w !! (PRDS_FILE_REPO E, f)).
  { intros f. subst w0. cbn. apply lookup_delete_ne. intros [= Heq _]. by apply Hrepo. }
  clearbody w0.
  destruct (scan_prds_no_answer E req (docs_in (PRDS_FILE_REPO E) (files w0)) Hdown ∅ w0)
    as [[Hfiles Hevs] Hsame].
  destruct (scan_prds E req (docs_in (PRDS_FILE_REPO E) (files w0)) ∅ w0)
    as [[[scanned|e] w1] evs] eqn:Hscan; cbn in Hfiles, Hevs, Hsame.
  2: { rewrite (bind_raises _ _ _ _ _ _ Hscan). cbn.
       split; [done |]. split; [| intros f; rewrite Hfiles; apply Hw0].
       repeat (constructor; [reflexivity |]). done. }
  rewrite (bind_returns _ _ _ _ _ _ Hscan). rewrite (Hsame scanned eq_refl).
  destruct (generate_if_unchanged_no_answer E req ∅ w1 Hdown) as [[Hfiles2 Hevs2] Hne].
  destruct (generate_if_unchanged E req ∅ w1) as [[[changed|e] w2] evs2] eqn:Hgen;
    cbn in Hfiles2, Hevs2, Hne.
  { by destruct (Hne changed eq_refl). }
  rewrite (bind_raises _ _ _ _ _ _ Hgen). cbn.
  split; [done |]. split; [| intros f; rewrite Hfiles2, Hfiles; apply Hw0].
  repeat (constructor; [reflexivity |]). by apply Forall_app.
Qed.

Lemma run_without_structured_answers_publishes_nothing_witness :
  let E := sample_env relates_to_themes unparsable render_ok export_ok in
  let w := sample_world (two_prds "Add dark mode toggle to settings")
                        None (Some "/home/me/workspace/editor") in
  (forall c cs, result_of (run E w) <> Ok (RActionOutput c cs)) /\
  Forall (fun ev => outputs E ev = false) (events_of (run E w)) /\
  forall f, files (world_of (run E w)) !! (PRDS_FILE_REPO E, f)
            = files w !! (PRDS_FILE_REPO E, f).
Proof.
  cbv zeta.
  apply (run_without_structured_answers_publishes_nothing
           (sample_env relates_to_themes unparsable render_ok export_ok)).
  - intros n p format. exists ParseError. reflexivity.
  - cbn. discriminate.
Defined.
